(** * genkit-aws-bedrock-go: the request/response translation engine

    A shallow embedding of [bedrock.go] (package [bedrock]): the tool-schema
    normaliser, the value coercer, the Converse request builder, the
    streaming aggregator, the response converter and the image/embedding
    adapters, with the properties the design document states about them.

    Go values of type [interface{}] are a tagged tree ([Value]); Go maps with
    string keys are [gmap string _]; Go strings are byte strings ([string]).
    Functions of the Go standard library and of the AWS SDK that the plugin
    calls but does not define (number parsing, JSON, the Bedrock client) are
    [Variable]s of the section that uses them, so every theorem holds for
    any behaviour of those collaborators. *)

From Stdlib Require Import ZArith Ascii String SpecFloat.
From stdpp Require Import gmap strings list fin_maps.

Local Open Scope Z_scope.

(** ** Errors

    Go's [error] values: [errors.New]/[fmt.Errorf] without [%w] build a leaf,
    [fmt.Errorf("ctx: %w", err)] wraps [err]. *)

Inductive error : Type :=
| errorString (msg : string)
| wrapError (ctx : string) (cause : error).

Fixpoint Error (e : error) : string :=
  match e with
  | errorString m => m
  | wrapError ctx c => ctx +:+ Error c
  end.

(** A Go result pair [(T, error)]. *)
Inductive result (A : Type) : Type :=
| Ok (a : A)
| Err (e : error).
Arguments Ok {A} a.
Arguments Err {A} e.

(** ** Numbers

    [float32]/[float64] are IEEE 754 binary floats in the unbounded-precision
    representation of [SpecFloat]; the conversions round to nearest even. *)

Abbreviation float64 := spec_float (only parsing).
Abbreviation float32 := spec_float (only parsing).

Definition float64_of_Z (z : Z) : float64 := binary_normalize 53 1024 z 0 false.

(** [float32(f)] for a [float64] [f]. *)
Definition float32_of_float64 (f : float64) : float32 :=
  match f with
  | S754_finite s m e => binary_round 24 128 s m e
  | _ => f
  end.

Definition int64_min : Z := - 2 ^ 63.
Definition int64_max : Z := 2 ^ 63 - 1.

Definition wrap_int (bits : Z) (z : Z) : Z :=
  (z + 2 ^ (bits - 1)) mod 2 ^ bits - 2 ^ (bits - 1).

(** [int64(f)]: truncation toward zero.  For a value outside the range of
    [int64] (and for infinities and NaN) the Go specification leaves the
    result to the implementation; the model takes what amd64 produces. *)
Definition int64_of_float (f : spec_float) : Z :=
  match f with
  | S754_zero _ => 0
  | S754_finite s m e =>
      let mag := if (0 <=? e) then Z.pos m * 2 ^ e else Z.pos m / 2 ^ (- e) in
      let z := if s then - mag else mag in
      if (int64_min <=? z) && (z <=? int64_max) then z else int64_min
  | S754_infinity _ | S754_nan => int64_min
  end.

(** ** Dynamically typed Go values

    The dynamic types the plugin distinguishes with type assertions and type
    switches; [VOpaque] stands for a value of any other dynamic type. *)

#[warnings="-register-all"]
Inductive Value : Type :=
| VNil
| VBool (b : bool)
| VString (s : string)
| VBytes (bs : list Byte.byte)
| VInt (z : Z)
| VInt32 (z : Z)
| VInt64 (z : Z)
| VFloat32 (f : spec_float)
| VFloat64 (f : spec_float)
| VNumber (n : string)
| VStrings (l : list string)
| VSlice (l : list Value)
| VMaps (l : list (gmap string Value))
| VMap (m : gmap string Value)
| VOpaque (tag : string).

(** [m[k].(string)] *)
Definition lookup_string (m : gmap string Value) (k : string) : option string :=
  match m !! k with
  | Some (VString s) => Some s
  | _ => None
  end.

(** [m[k].(map[string]any)] *)
Definition lookup_map (m : gmap string Value) (k : string)
  : option (gmap string Value) :=
  match m !! k with
  | Some (VMap p) => Some p
  | _ => None
  end.

(** [strconv.ParseBool] *)
Definition ParseBool (str : string) : option bool :=
  if String.eqb str "1" || String.eqb str "t" || String.eqb str "T"
     || String.eqb str "true" || String.eqb str "TRUE" || String.eqb str "True"
  then Some true
  else if String.eqb str "0" || String.eqb str "f" || String.eqb str "F"
     || String.eqb str "false" || String.eqb str "FALSE" || String.eqb str "False"
  then Some false
  else None.

(** ** ValueCoercer: [convertValueWithSchema], [convertMapWithSchema] *)

Section ValueCoercer.
(** [strconv.ParseFloat(s, 64)]: [None] when it reports an error. *)
Variable ParseFloat : string -> option spec_float.
(** [smithydoc.Number.Float64] and [smithydoc.Number.Int64]. *)
Variable Number_Float64 : string -> option spec_float.
Variable Number_Int64 : string -> option Z.

(** The block "Handle AWS document.Number type specifically". *)
Definition convertDocNumber (value : Value) (schemaType : string)
  : option Value :=
  match value with
  | VNumber docNum =>
      if String.eqb schemaType "number" then
        VFloat64 <$> Number_Float64 docNum
      else if String.eqb schemaType "integer" then
        VInt64 <$> Number_Int64 docNum
      else None
  | _ => None
  end.

(** The block "Handle string values that need to be converted". *)
Definition convertString (value : Value) (schemaType : string)
  : option Value :=
  match value with
  | VString strValue =>
      if String.eqb schemaType "number" || String.eqb schemaType "integer" then
        match ParseFloat strValue with
        | Some floatVal =>
            if String.eqb schemaType "integer"
            then Some (VInt64 (int64_of_float floatVal))
            else Some (VFloat64 floatVal)
        | None => None
        end
      else if String.eqb schemaType "boolean" then
        VBool <$> ParseBool strValue
      else None
  | _ => None
  end.

(** The block "Handle numeric types that need conversion". *)
Definition convertNumeric (value : Value) (schemaType : string)
  : option Value :=
  if String.eqb schemaType "number" then
    match value with
    | VInt v | VInt32 v | VInt64 v => Some (VFloat64 (float64_of_Z v))
    | VFloat32 v => Some (VFloat64 v)
    | VFloat64 v => Some (VFloat64 v)
    | _ => None
    end
  else if String.eqb schemaType "integer" then
    match value with
    | VInt v | VInt32 v | VInt64 v => Some (VInt64 v)
    | VFloat32 v | VFloat64 v => Some (VInt64 (int64_of_float v))
    | _ => None
    end
  else None.

(** The body of [convertMapWithSchema], open in the function used for the
    values; the loop [for key, value := range inputMap] fills [result]. *)
Definition convertMapWith
    (convertValue : Value -> option (gmap string Value) -> Value)
    (inputMap : gmap string Value) (schema : option (gmap string Value))
  : gmap string Value :=
  match schema with
  | None => inputMap
  | Some sch =>
      match lookup_string sch "type" with
      | Some schemaType =>
          if String.eqb schemaType "object" then
            match lookup_map sch "properties" with
            | Some properties =>
                map_fold
                  (fun key value result =>
                     match properties !! key with
                     | Some (VMap propSchemaMap) =>
                         <[key := convertValue value (Some propSchemaMap)]> result
                     | Some _ => <[key := value]> result
                     | None => <[key := value]> result
                     end)
                  ∅ inputMap
            | None => inputMap
            end
          else inputMap
      | None => inputMap
      end
  end.

Fixpoint convertValueWithSchema (value : Value)
    (schema : option (gmap string Value)) {struct value} : Value :=
  match schema with
  | None => value
  | Some sch =>
      match lookup_string sch "type" with
      | None => value
      | Some schemaType =>
          match convertDocNumber value schemaType with
          | Some r => r
          | None =>
          match convertString value schemaType with
          | Some r => r
          | None =>
          match convertNumeric value schemaType with
          | Some r => r
          | None =>
          match value with
          | VSlice arrayValue =>
              if String.eqb schemaType "array" then
                match lookup_map sch "items" with
                | Some items =>
                    VSlice (map (fun item =>
                                   convertValueWithSchema item (Some items))
                                arrayValue)
                | None => value
                end
              else value
          | VMap mapValue =>
              if String.eqb schemaType "object" then
                VMap (convertMapWith convertValueWithSchema mapValue schema)
              else value
          | _ => value
          end end end end
      end
  end.

Definition convertMapWithSchema (inputMap : gmap string Value)
    (schema : option (gmap string Value)) : gmap string Value :=
  convertMapWith convertValueWithSchema inputMap schema.

End ValueCoercer.

(** ** Strings and base64, as the Go standard library defines them *)

(** [strings.HasPrefix] *)
Definition HasPrefix (s prefix : string) : bool := String.prefix prefix s.

(** [strings.Split(s, sep)] for a separator of one byte: the pieces of [s]
    between the occurrences of [sep], never an empty list. *)
Fixpoint Split (s : string) (sep : ascii) : list string :=
  match s with
  | EmptyString => [EmptyString]
  | String c rest =>
      if Ascii.eqb c sep then EmptyString :: Split rest sep
      else match Split rest sep with
           | piece :: pieces => String c piece :: pieces
           | [] => [String c EmptyString]
           end
  end.

(** [strings.Contains] *)
Fixpoint Contains (s substr : string) : bool :=
  String.prefix substr s
  || match s with
     | EmptyString => false
     | String _ rest => Contains rest substr
     end.

(** The value of a character in the standard base64 alphabet. *)
Definition base64_sextet (c : ascii) : option N :=
  let n := N_of_ascii c in
  if (65 <=? n)%N && (n <=? 90)%N then Some (n - 65)%N
  else if (97 <=? n)%N && (n <=? 122)%N then Some (n - 71)%N
  else if (48 <=? n)%N && (n <=? 57)%N then Some (n + 4)%N
  else if (n =? 43)%N then Some 62%N
  else if (n =? 47)%N then Some 63%N
  else None.

Definition byte_of_N (n : N) : Byte.byte :=
  match Byte.of_N (n mod 256) with
  | Some b => b
  | None => Byte.x00
  end.

(** One quantum of four characters after the first two sextets [a], [b]. *)
Definition base64_bytes3 (a b c d : N) : list Byte.byte :=
  let w := (a * 262144 + b * 4096 + c * 64 + d)%N in
  [byte_of_N (w / 65536); byte_of_N (w / 256); byte_of_N w].

Fixpoint base64_quanta (cs : list ascii) : option (list Byte.byte) :=
  match cs with
  | [] => Some []
  | c1 :: c2 :: c3 :: c4 :: rest =>
      match base64_sextet c1, base64_sextet c2 with
      | Some a, Some b =>
          match base64_sextet c3, base64_sextet c4 with
          | Some c, Some d =>
              (fun tail => base64_bytes3 a b c d ++ tail) <$> base64_quanta rest
          | Some c, None =>
              if Ascii.eqb c4 "=" && bool_decide (rest = [])
              then Some (take 2 (base64_bytes3 a b c 0)) else None
          | None, _ =>
              if Ascii.eqb c3 "=" && Ascii.eqb c4 "=" && bool_decide (rest = [])
              then Some (take 1 (base64_bytes3 a b 0 0)) else None
          end
      | _, _ => None
      end
  | _ => None
  end.

Definition is_newline (c : ascii) : bool :=
  Ascii.eqb c "010" || Ascii.eqb c "013".

(** [base64.StdEncoding.DecodeString]: padded, not strict, carriage returns
    and line feeds skipped; [None] when it reports an error. *)
Definition base64_DecodeString (s : string) : option (list Byte.byte) :=
  base64_quanta (filter (fun c => is_newline c = false) (list_ascii_of_string s)).

(** ** SchemaNormalizer: [validateAndNormalizeJSONSchema], [normalizeSchema] *)

Definition draft07 : string := "http://json-schema.org/draft-07/schema#".

(** [normalized["type"] == "object"] on interface values. *)
Definition is_object_type (v : option Value) : bool :=
  match v with
  | Some (VString s) => String.eqb s "object"
  | _ => false
  end.

(** A nil [schema] ranges over nothing, like the empty map. *)
Definition validateAndNormalizeJSONSchema (schema : gmap string Value)
  : gmap string Value :=
  let normalized : gmap string Value :=
    map_fold (fun k v normalized => <[k := v]> normalized) ∅ schema in
  let normalized :=
    match normalized !! "type" with
    | Some _ => normalized
    | None => <["type" := VString "object"]> normalized
    end in
  let normalized :=
    if is_object_type (normalized !! "type") then
      match normalized !! "properties" with
      | Some _ => normalized
      | None => <["properties" := VMap ∅]> normalized
      end
    else normalized in
  let normalized :=
    match normalized !! "$schema" with
    | Some _ => normalized
    | None => <["$schema" := VString draft07]> normalized
    end in
  normalized.

Section SchemaNormalizer.
(** [json.Marshal] of a Go value and [json.Unmarshal] into a
    [map[string]interface{}] variable (JSON [null] leaves the nil map,
    which the normaliser reads as the empty one). *)
Variable json_Marshal : Value -> result (list Byte.byte).
Variable json_Unmarshal : list Byte.byte -> result (gmap string Value).

Definition normalizeSchema (schema : Value) : result (gmap string Value) :=
  match schema with
  | VMap s => Ok (validateAndNormalizeJSONSchema s)
  | VString s =>
      match json_Unmarshal (list_byte_of_string s) with
      | Err err => Err (wrapError "failed to parse schema JSON: " err)
      | Ok schemaMap => Ok (validateAndNormalizeJSONSchema schemaMap)
      end
  | VBytes s =>
      match json_Unmarshal s with
      | Err err => Err (wrapError "failed to parse schema JSON bytes: " err)
      | Ok schemaMap => Ok (validateAndNormalizeJSONSchema schemaMap)
      end
  | _ =>
      match json_Marshal schema with
      | Err err => Err (wrapError "failed to marshal schema: " err)
      | Ok jsonData =>
          match json_Unmarshal jsonData with
          | Err err => Err (wrapError "failed to unmarshal schema: " err)
          | Ok schemaMap => Ok (validateAndNormalizeJSONSchema schemaMap)
          end
      end
  end.
End SchemaNormalizer.

(** ** The generic chat abstraction (package [ai] of Genkit)

    Only declarations: the record fields and constants the plugin reads and
    writes.  A field [F] of a Go struct [T] is the projection [T_F]. *)

Module ai.
Inductive PartKind : Type :=
| PartText | PartMedia | PartData | PartToolRequest | PartToolResponse
| PartCustom | PartReasoning.

#[global] Instance PartKind_eq_dec : EqDecision PartKind.
Proof. solve_decision. Defined.

Record ToolRequest : Type := {
  ToolRequest_Name : string;
  ToolRequest_Input : Value;
  ToolRequest_Ref : string
}.

Record ToolResponse : Type := {
  ToolResponse_Name : string;
  ToolResponse_Output : Value;
  ToolResponse_Ref : string
}.

Record Part : Type := {
  Part_Kind : PartKind;
  Part_ContentType : string;
  Part_Text : string;
  Part_ToolRequest : option ToolRequest;
  Part_ToolResponse : option ToolResponse
}.

Definition IsText (p : Part) : bool := bool_decide (Part_Kind p = PartText).
Definition IsMedia (p : Part) : bool := bool_decide (Part_Kind p = PartMedia).
Definition IsToolRequest (p : Part) : bool :=
  bool_decide (Part_Kind p = PartToolRequest).
Definition IsToolResponse (p : Part) : bool :=
  bool_decide (Part_Kind p = PartToolResponse).

Definition NewTextPart (text : string) : Part :=
  {| Part_Kind := PartText; Part_ContentType := "plain/text";
     Part_Text := text; Part_ToolRequest := None; Part_ToolResponse := None |}.

Definition NewMediaPart (mimeType contents : string) : Part :=
  {| Part_Kind := PartMedia; Part_ContentType := mimeType;
     Part_Text := contents; Part_ToolRequest := None;
     Part_ToolResponse := None |}.

Definition NewToolRequestPart (r : ToolRequest) : Part :=
  {| Part_Kind := PartToolRequest; Part_ContentType := "";
     Part_Text := ""; Part_ToolRequest := Some r; Part_ToolResponse := None |}.

Definition RoleSystem : string := "system".
Definition RoleUser : string := "user".
Definition RoleModel : string := "model".
Definition RoleTool : string := "tool".

Record Message : Type := {
  Message_Role : string;
  Message_Content : list Part
}.

Record ToolDefinition : Type := {
  ToolDefinition_Name : string;
  ToolDefinition_Description : string;
  (** [map[string]any]; [None] is the nil map. *)
  ToolDefinition_InputSchema : option (gmap string Value)
}.

Record ModelRequest : Type := {
  ModelRequest_Messages : list Message;
  ModelRequest_Config : Value;
  ModelRequest_Tools : list ToolDefinition
}.

Definition FinishReasonStop : string := "stop".
Definition FinishReasonLength : string := "length".
Definition FinishReasonBlocked : string := "blocked".
Definition FinishReasonOther : string := "other".
Definition FinishReasonUnknown : string := "unknown".

Record GenerationUsage : Type := {
  GenerationUsage_InputTokens : Z;
  GenerationUsage_OutputTokens : Z;
  GenerationUsage_TotalTokens : Z
}.

Record ModelResponse : Type := {
  ModelResponse_Message : Message;
  ModelResponse_FinishReason : string;
  ModelResponse_Usage : option GenerationUsage
}.

Record ModelResponseChunk : Type := {
  ModelResponseChunk_Index : Z;
  ModelResponseChunk_Content : list Part
}.

Record Embedding : Type := { Embedding_Embedding : list spec_float }.
Record Document : Type := { Document_Content : list Part }.
Record EmbedRequest : Type := { EmbedRequest_Input : list Document }.
Record EmbedResponse : Type := { EmbedResponse_Embeddings : list Embedding }.
End ai.

(** ** The wire types (packages [document], [types] and [bedrockruntime] of
    the AWS SDK), declarations only. *)

Module document.
(** An opaque document: [NewLazyDocument] wraps a Go value; the SDK reads
    it back with [UnmarshalSmithyDocument]. *)
Inductive Interface : Type := NewLazyDocument (v : Value).
End document.

Module types.
Inductive ImageFormat : Type :=
| ImageFormatPng | ImageFormatJpeg | ImageFormatGif | ImageFormatWebp.

Definition ConversationRoleUser : string := "user".
Definition ConversationRoleAssistant : string := "assistant".

Inductive ToolResultContentBlock : Type :=
| ToolResultContentBlockMemberText (Value : string).

Inductive ToolResultStatus : Type :=
| ToolResultStatusSuccess | ToolResultStatusError.

Record ToolUseBlock : Type := {
  ToolUseBlock_ToolUseId : option string;
  ToolUseBlock_Name : option string;
  ToolUseBlock_Input : option document.Interface
}.

Record ToolResultBlock : Type := {
  ToolResultBlock_ToolUseId : option string;
  ToolResultBlock_Content : list ToolResultContentBlock;
  ToolResultBlock_Status : ToolResultStatus
}.

(** [ImageBlock] with an [ImageSourceMemberBytes] source. *)
Record ImageBlock : Type := {
  ImageBlock_Format : ImageFormat;
  ImageBlock_Source : list Byte.byte
}.

Inductive ContentBlock : Type :=
| ContentBlockMemberText (Value : string)
| ContentBlockMemberImage (Value : ImageBlock)
| ContentBlockMemberToolUse (Value : ToolUseBlock)
| ContentBlockMemberToolResult (Value : ToolResultBlock)
| ContentBlockMemberOther.

Inductive SystemContentBlock : Type :=
| SystemContentBlockMemberText (Value : string).

Record Message : Type := {
  Message_Role : string;
  Message_Content : list ContentBlock
}.

Record InferenceConfiguration : Type := {
  InferenceConfiguration_MaxTokens : option Z;
  InferenceConfiguration_Temperature : option spec_float;
  InferenceConfiguration_TopP : option spec_float;
  InferenceConfiguration_StopSequences : list string
}.

Inductive ToolInputSchema : Type :=
| ToolInputSchemaMemberJson (Value : document.Interface).

Record ToolSpecification : Type := {
  ToolSpecification_Name : option string;
  ToolSpecification_Description : option string;
  ToolSpecification_InputSchema : option ToolInputSchema
}.

Inductive Tool : Type := ToolMemberToolSpec (Value : ToolSpecification).

Record ToolConfiguration : Type := { ToolConfiguration_Tools : list Tool }.

Definition StopReasonEndTurn : string := "end_turn".
Definition StopReasonMaxTokens : string := "max_tokens".
Definition StopReasonStopSequence : string := "stop_sequence".
Definition StopReasonToolUse : string := "tool_use".
Definition StopReasonContentFiltered : string := "content_filtered".

Inductive ContentBlockDelta : Type :=
| ContentBlockDeltaMemberText (Value : string)
| ContentBlockDeltaMemberOther.

Inductive ConverseStreamOutput : Type :=
| ConverseStreamOutputMemberContentBlockDelta (Delta : option ContentBlockDelta)
| ConverseStreamOutputMemberMessageStop (StopReason : string)
| ConverseStreamOutputMemberOther.

Inductive ConverseOutput : Type :=
| ConverseOutputMemberMessage (Value : Message)
| ConverseOutputMemberOther.

Record TokenUsage : Type := {
  TokenUsage_InputTokens : option Z;
  TokenUsage_OutputTokens : option Z;
  TokenUsage_TotalTokens : option Z
}.
End types.

Module bedrockruntime.
Record ConverseInput : Type := {
  ConverseInput_ModelId : option string;
  ConverseInput_Messages : list types.Message;
  ConverseInput_System : list types.SystemContentBlock;
  ConverseInput_InferenceConfig : option types.InferenceConfiguration;
  ConverseInput_ToolConfig : option types.ToolConfiguration
}.

Record ConverseStreamInput : Type := {
  ConverseStreamInput_ModelId : option string;
  ConverseStreamInput_Messages : list types.Message;
  ConverseStreamInput_System : list types.SystemContentBlock;
  ConverseStreamInput_InferenceConfig : option types.InferenceConfiguration;
  ConverseStreamInput_ToolConfig : option types.ToolConfiguration
}.

Record ConverseOutput : Type := {
  ConverseOutput_Output : option types.ConverseOutput;
  ConverseOutput_StopReason : string;
  ConverseOutput_Usage : option types.TokenUsage
}.

(** The event stream of [ConverseStream]: the events its channel delivers
    until it is closed, and whether [Close] has been called on it. *)
Record ConverseStreamEventStream : Type := {
  Events : list types.ConverseStreamOutput;
  Closed : bool
}.

Definition Close (s : ConverseStreamEventStream) : ConverseStreamEventStream :=
  {| Events := Events s; Closed := true |}.

Record InvokeModelInput : Type := {
  InvokeModelInput_ModelId : option string;
  InvokeModelInput_Body : list Byte.byte;
  InvokeModelInput_ContentType : option string;
  InvokeModelInput_Accept : option string
}.

Record InvokeModelOutput : Type := {
  InvokeModelOutput_Body : list Byte.byte
}.
End bedrockruntime.

(** [aws.ToString], [aws.ToInt32]: a nil pointer reads as the zero value. *)
Definition aws_ToString (p : option string) : string := default EmptyString p.
Definition aws_ToInt32 (p : option Z) : Z := default 0 p.


(** ** ConverseRequestBuilder: [buildConverseInput] *)

Section ConverseRequestBuilder.
Variable json_Marshal : Value -> result (list Byte.byte).
Variable json_Unmarshal : list Byte.byte -> result (gmap string Value).
(** [fmt.Sprintf("%v", v)] *)
Variable fmt_Sprint : Value -> string.

Definition convertJSONSchemaToBedrockSchema (schema : Value)
  : result types.ToolInputSchema :=
  match schema with
  | VNil => Err (errorString "schema is nil")
  | _ =>
      match normalizeSchema json_Marshal json_Unmarshal schema with
      | Err err => Err (wrapError "failed to normalize schema: " err)
      | Ok schemaMap =>
          Ok (types.ToolInputSchemaMemberJson
                (document.NewLazyDocument (VMap schemaMap)))
      end
  end.

(** "Parse data URL or direct content": the payload and the media type after
    the block guarded by [strings.HasPrefix(content, "data:")]. *)
Definition parseDataURL (content mediaType : string) : string * string :=
  if HasPrefix content "data:" then
    match Split content "," with
    | [header; payload] =>
        (payload,
         if String.eqb mediaType "" then
           match Split header ":" with
           | _ :: url1 :: _ =>
               match Split url1 ";" with
               | mime :: _ => mime
               | [] => mediaType
               end
           | _ => mediaType
           end
         else mediaType)
    | _ => (content, mediaType)
    end
  else (content, mediaType).

(** "Convert to appropriate image format based on MIME type". *)
Definition imageFormat (mediaType : string) : types.ImageFormat :=
  if String.eqb mediaType "image/png" then types.ImageFormatPng
  else if String.eqb mediaType "image/jpeg" || String.eqb mediaType "image/jpg"
  then types.ImageFormatJpeg
  else if String.eqb mediaType "image/gif" then types.ImageFormatGif
  else if String.eqb mediaType "image/webp" then types.ImageFormatWebp
  else types.ImageFormatPng.

(** The branch [part.IsMedia()]. *)
Definition mediaBlock (part : ai.Part) : types.ContentBlock :=
  let '(content, mediaType) :=
    parseDataURL (ai.Part_Text part) (ai.Part_ContentType part) in
  let format := imageFormat mediaType in
  let imageData :=
    match base64_DecodeString content with
    | Some decoded => decoded
    | None => list_byte_of_string content
    end in
  types.ContentBlockMemberImage
    {| types.ImageBlock_Format := format; types.ImageBlock_Source := imageData |}.

(** The branch [part.IsToolResponse()]. *)
Definition toolResultBlock (toolResp : ai.ToolResponse) : types.ContentBlock :=
  let toolResultContent :=
    match ai.ToolResponse_Output toolResp with
    | VNil => []
    | VString output => [types.ToolResultContentBlockMemberText output]
    | output =>
        match json_Marshal output with
        | Ok jsonBytes =>
            [types.ToolResultContentBlockMemberText (string_of_list_byte jsonBytes)]
        | Err _ => [types.ToolResultContentBlockMemberText (fmt_Sprint output)]
        end
    end in
  types.ContentBlockMemberToolResult
    {| types.ToolResultBlock_ToolUseId := Some (ai.ToolResponse_Ref toolResp);
       types.ToolResultBlock_Content := toolResultContent;
       types.ToolResultBlock_Status := types.ToolResultStatusSuccess |}.

(** One iteration of [for _, part := range msg.Content]: the block appended
    to [contentBlocks], if any. *)
Definition contentBlock (part : ai.Part) : option types.ContentBlock :=
  if ai.IsText part then Some (types.ContentBlockMemberText (ai.Part_Text part))
  else if ai.IsMedia part then Some (mediaBlock part)
  else if ai.IsToolRequest part then
    match ai.Part_ToolRequest part with
    | Some toolReq =>
        Some (types.ContentBlockMemberToolUse
                {| types.ToolUseBlock_ToolUseId := Some (ai.ToolRequest_Ref toolReq);
                   types.ToolUseBlock_Name := Some (ai.ToolRequest_Name toolReq);
                   types.ToolUseBlock_Input :=
                     Some (document.NewLazyDocument (ai.ToolRequest_Input toolReq)) |})
    | None => None
    end
  else if ai.IsToolResponse part then
    match ai.Part_ToolResponse part with
    | Some toolResp => Some (toolResultBlock toolResp)
    | None => None
    end
  else None.

(** One iteration of [for _, msg := range input.Messages] on the pair
    [(messages, systemPrompts)]. *)
Definition convertMessage
    (acc : list types.Message * list types.SystemContentBlock) (msg : ai.Message)
  : list types.Message * list types.SystemContentBlock :=
  let '(messages, systemPrompts) := acc in
  let role := ai.Message_Role msg in
  if String.eqb role ai.RoleSystem then
    (messages,
     systemPrompts ++
       omap (fun part =>
               if ai.IsText part
               then Some (types.SystemContentBlockMemberText (ai.Part_Text part))
               else None)
            (ai.Message_Content msg))
  else if String.eqb role ai.RoleUser || String.eqb role ai.RoleModel
          || String.eqb role ai.RoleTool then
    let contentBlocks := omap contentBlock (ai.Message_Content msg) in
    let bedrockRole :=
      if String.eqb role ai.RoleModel then "assistant" else "user" in
    if (0 <? length contentBlocks)%nat then
      (messages ++ [{| types.Message_Role := bedrockRole;
                       types.Message_Content := contentBlocks |}],
       systemPrompts)
    else acc
  else acc.

(** The wire messages and system prompts before the trailing-turn rule. *)
Definition convertMessages (msgs : list ai.Message)
  : list types.Message * list types.SystemContentBlock :=
  foldl convertMessage ([], []) msgs.

(** "When using tools, AWS Bedrock requires that the conversation doesn't end
    with an assistant message". *)
Definition dropTrailingAssistant (tools : list ai.ToolDefinition)
    (messages : list types.Message) : list types.Message :=
  if (0 <? length tools)%nat && (0 <? length messages)%nat then
    match messages !! (length messages - 1)%nat with
    | Some lastMessage =>
        if String.eqb (types.Message_Role lastMessage) types.ConversationRoleAssistant
        then take (length messages - 1)%nat messages
        else messages
    | None => messages
    end
  else messages.

(** "Set inference configuration". *)
Definition inferenceConfiguration (config : Value)
  : option types.InferenceConfiguration :=
  match config with
  | VMap configMap =>
      Some {|
        types.InferenceConfiguration_MaxTokens :=
          match configMap !! "maxOutputTokens" with
          | Some (VInt maxTokens) => Some (wrap_int 32 maxTokens)
          | _ =>
              match configMap !! "max_tokens" with
              | Some (VInt maxTokens) => Some (wrap_int 32 maxTokens)
              | _ => None
              end
          end;
        types.InferenceConfiguration_Temperature :=
          match configMap !! "temperature" with
          | Some (VFloat64 temp) => Some (float32_of_float64 temp)
          | _ => None
          end;
        types.InferenceConfiguration_TopP :=
          match configMap !! "topP" with
          | Some (VFloat64 topP) => Some (float32_of_float64 topP)
          | _ => None
          end;
        types.InferenceConfiguration_StopSequences :=
          match configMap !! "stopSequences" with
          | Some (VStrings stopSequences) => stopSequences
          | _ => []
          end |}
  | _ => None
  end.

(** One iteration of [for _, tool := range input.Tools]. *)
Definition toolSpec (tool : ai.ToolDefinition) : types.Tool :=
  types.ToolMemberToolSpec
    {| types.ToolSpecification_Name := Some (ai.ToolDefinition_Name tool);
       types.ToolSpecification_Description :=
         Some (ai.ToolDefinition_Description tool);
       types.ToolSpecification_InputSchema :=
         match ai.ToolDefinition_InputSchema tool with
         | Some inputSchema =>
             match convertJSONSchemaToBedrockSchema (VMap inputSchema) with
             | Ok schema => Some schema
             | Err _ => None
             end
         | None => None
         end |}.

Definition buildConverseInput (modelName : string) (input : ai.ModelRequest)
  : result bedrockruntime.ConverseInput :=
  let '(messages, systemPrompts) :=
    match ai.ModelRequest_Messages input with
    | [] => ([], [])
    | msgs =>
        let '(messages, systemPrompts) := convertMessages msgs in
        (dropTrailingAssistant (ai.ModelRequest_Tools input) messages,
         systemPrompts)
    end in
  Ok {| bedrockruntime.ConverseInput_ModelId := Some modelName;
        bedrockruntime.ConverseInput_Messages := messages;
        bedrockruntime.ConverseInput_System := systemPrompts;
        bedrockruntime.ConverseInput_InferenceConfig :=
          inferenceConfiguration (ai.ModelRequest_Config input);
        bedrockruntime.ConverseInput_ToolConfig :=
          if (0 <? length (ai.ModelRequest_Tools input))%nat then
            Some {| types.ToolConfiguration_Tools :=
                      map toolSpec (ai.ModelRequest_Tools input) |}
          else None |}.

End ConverseRequestBuilder.


(** [convertStopReasonToGenkit] *)
Definition convertStopReasonToGenkit (stopReason : string) : string :=
  if String.eqb stopReason types.StopReasonEndTurn then ai.FinishReasonStop
  else if String.eqb stopReason types.StopReasonMaxTokens then ai.FinishReasonLength
  else if String.eqb stopReason types.StopReasonStopSequence then ai.FinishReasonStop
  else if String.eqb stopReason types.StopReasonToolUse then ai.FinishReasonStop
  else if String.eqb stopReason types.StopReasonContentFiltered
  then ai.FinishReasonBlocked
  else ai.FinishReasonOther.

(** ** StreamAggregator: [generateTextStream]

    The caller's callback acts on a state [World] of the caller; it returns
    its error, if any, and the new state. *)

Section StreamAggregator.
Context {World : Type}.
Variable client_ConverseStream :
  bedrockruntime.ConverseStreamInput ->
  result bedrockruntime.ConverseStreamEventStream.

Definition callback : Type :=
  ai.ModelResponseChunk -> World -> option error * World.

(** The response both exits of the loop build from the accumulated text. *)
Definition textResponse (text finishReason : string) : ai.ModelResponse :=
  {| ai.ModelResponse_Message :=
       {| ai.Message_Role := ai.RoleModel;
          ai.Message_Content := [ai.NewTextPart text] |};
     ai.ModelResponse_FinishReason := finishReason;
     ai.ModelResponse_Usage := None |}.

(** The variables of the loop: [fullText] and [finalResponse]. *)
Record streamState : Type := {
  fullText : string;
  finalResponse : option ai.ModelResponse
}.

(** [for event := range streamOutput.GetStream().Events()], with the
    [return nil, err] of a failed callback as [Err]. *)
Fixpoint processEvents (cb : callback)
    (events : list types.ConverseStreamOutput) (st : streamState) (w : World)
  : result streamState * World :=
  match events with
  | [] => (Ok st, w)
  | event :: rest =>
      match event with
      | types.ConverseStreamOutputMemberContentBlockDelta
          (Some (types.ContentBlockDeltaMemberText text)) =>
          let st' := {| fullText := fullText st +:+ text;
                        finalResponse := finalResponse st |} in
          let chunk := {| ai.ModelResponseChunk_Index := 0;
                          ai.ModelResponseChunk_Content := [ai.NewTextPart text] |} in
          match cb chunk w with
          | (Some err, w') => (Err (wrapError "callback error: " err), w')
          | (None, w') => processEvents cb rest st' w'
          end
      | types.ConverseStreamOutputMemberMessageStop stopReason =>
          processEvents cb rest
            {| fullText := fullText st;
               finalResponse :=
                 Some (textResponse (fullText st)
                         (convertStopReasonToGenkit stopReason)) |} w
      | _ => processEvents cb rest st w
      end
  end.

Definition streamInput (input : bedrockruntime.ConverseInput)
  : bedrockruntime.ConverseStreamInput :=
  {| bedrockruntime.ConverseStreamInput_ModelId :=
       bedrockruntime.ConverseInput_ModelId input;
     bedrockruntime.ConverseStreamInput_Messages :=
       bedrockruntime.ConverseInput_Messages input;
     bedrockruntime.ConverseStreamInput_System :=
       bedrockruntime.ConverseInput_System input;
     bedrockruntime.ConverseStreamInput_InferenceConfig :=
       bedrockruntime.ConverseInput_InferenceConfig input;
     bedrockruntime.ConverseStreamInput_ToolConfig :=
       bedrockruntime.ConverseInput_ToolConfig input |}.

(** The result, the caller's state afterwards, and the event stream as the
    call leaves it ([None] when [ConverseStream] failed and there is none).
    The deferred [Close] runs on every return after the stream was opened. *)
Definition generateTextStream (input : bedrockruntime.ConverseInput)
    (originalInput : ai.ModelRequest) (cb : callback) (w : World)
  : result ai.ModelResponse * World
    * option bedrockruntime.ConverseStreamEventStream :=
  match client_ConverseStream (streamInput input) with
  | Err err => (Err (wrapError "bedrock converse stream failed: " err), w, None)
  | Ok streamOutput =>
      let '(returned, w') :=
        match processEvents cb (bedrockruntime.Events streamOutput)
                {| fullText := ""; finalResponse := None |} w with
        | (Err err, w') => (Err err, w')
        | (Ok st, w') =>
            (Ok (match finalResponse st with
                 | Some response => response
                 | None => textResponse (fullText st) ai.FinishReasonStop
                 end), w')
        end in
      (returned, w', Some (bedrockruntime.Close streamOutput))
  end.

End StreamAggregator.

(** A callback that also records, in order, the chunks it is called with. *)
Definition traced {World : Type} (cb : @callback World)
  : @callback (World * list ai.ModelResponseChunk) :=
  fun chunk '(w, calls) =>
    let '(err, w') := cb chunk w in (err, (w', calls ++ [chunk])).

Definition isTextDelta (event : types.ConverseStreamOutput) : bool :=
  match event with
  | types.ConverseStreamOutputMemberContentBlockDelta
      (Some (types.ContentBlockDeltaMemberText _)) => true
  | _ => false
  end.

(** ** Response conversion: [convertResponse], [convertToolInputTypes] *)

Section ResponseConverter.
Variable ParseFloat : string -> option spec_float.
Variable Number_Float64 : string -> option spec_float.
Variable Number_Int64 : string -> option Z.
(** [doc.UnmarshalSmithyDocument(&inputMap)] *)
Variable UnmarshalSmithyDocument :
  document.Interface -> result (gmap string Value).

Definition convertToolInputTypes (inputMap : gmap string Value)
    (toolName : string) (tools : list ai.ToolDefinition) : gmap string Value :=
  match find (fun tool => String.eqb (ai.ToolDefinition_Name tool) toolName) tools with
  | Some targetTool =>
      match ai.ToolDefinition_InputSchema targetTool with
      | Some inputSchema =>
          convertMapWithSchema ParseFloat Number_Float64 Number_Int64
            inputMap (Some inputSchema)
      | None => inputMap
      end
  | None => inputMap
  end.

(** One iteration of [for _, contentBlock := range message.Content]: the
    part appended to the response, if any. *)
Definition convertContentBlock (originalInput : ai.ModelRequest)
    (contentBlock : types.ContentBlock) : option ai.Part :=
  match contentBlock with
  | types.ContentBlockMemberText value => Some (ai.NewTextPart value)
  | types.ContentBlockMemberToolUse toolUse =>
      let toolInput :=
        match types.ToolUseBlock_Input toolUse with
        | Some doc =>
            match UnmarshalSmithyDocument doc with
            | Ok inputMap =>
                convertToolInputTypes inputMap
                  (aws_ToString (types.ToolUseBlock_Name toolUse))
                  (ai.ModelRequest_Tools originalInput)
            | Err err =>
                <["_unmarshal_error" := VString (Error err)]>
                  (<["_tool_use_id" :=
                       VString (aws_ToString (types.ToolUseBlock_ToolUseId toolUse))]> ∅)
            end
        | None => ∅
        end in
      Some (ai.NewToolRequestPart
              {| ai.ToolRequest_Name := aws_ToString (types.ToolUseBlock_Name toolUse);
                 ai.ToolRequest_Input := VMap toolInput;
                 ai.ToolRequest_Ref :=
                   aws_ToString (types.ToolUseBlock_ToolUseId toolUse) |})
  | _ => None
  end.

(** "Extract output message": the parts taken from the wire output. *)
Definition extractContent (response : bedrockruntime.ConverseOutput)
    (originalInput : ai.ModelRequest) : list ai.Part :=
  match bedrockruntime.ConverseOutput_Output response with
  | Some (types.ConverseOutputMemberMessage message) =>
      omap (convertContentBlock originalInput) (types.Message_Content message)
  | _ => []
  end.

Definition convertResponse (response : bedrockruntime.ConverseOutput)
    (originalInput : ai.ModelRequest) : ai.ModelResponse :=
  let content := extractContent response originalInput in
  let finishReason :=
    convertStopReasonToGenkit (bedrockruntime.ConverseOutput_StopReason response) in
  let usage :=
    match bedrockruntime.ConverseOutput_Usage response with
    | Some u =>
        Some {| ai.GenerationUsage_InputTokens :=
                  aws_ToInt32 (types.TokenUsage_InputTokens u);
                ai.GenerationUsage_OutputTokens :=
                  aws_ToInt32 (types.TokenUsage_OutputTokens u);
                ai.GenerationUsage_TotalTokens :=
                  aws_ToInt32 (types.TokenUsage_TotalTokens u) |}
    | None => None
    end in
  let content :=
    if (length content =? 0)%nat then content ++ [ai.NewTextPart ""] else content in
  {| ai.ModelResponse_Message :=
       {| ai.Message_Role := ai.RoleModel; ai.Message_Content := content |};
     ai.ModelResponse_FinishReason := finishReason;
     ai.ModelResponse_Usage := usage |}.

End ResponseConverter.

(** ** Image and embedding adapters *)

(** An element of [Artifacts] in the Stable Diffusion response. *)
Record artifact : Type := {
  artifact_Base64 : string;
  artifact_FinishReason : string
}.

Section Adapters.
(** [b.client.InvokeModel] *)
Variable client_InvokeModel :
  bedrockruntime.InvokeModelInput -> result bedrockruntime.InvokeModelOutput.
Variable json_Marshal : Value -> result (list Byte.byte).
(** [json.Unmarshal] into the anonymous result struct of each adapter: the
    value its one field holds afterwards. *)
Variable json_Unmarshal_Images : list Byte.byte -> result (list string).
Variable json_Unmarshal_Artifacts : list Byte.byte -> result (list artifact).
Variable json_Unmarshal_Embedding : list Byte.byte -> result (list spec_float).
Variable json_Unmarshal_Embeddings :
  list Byte.byte -> result (list (list spec_float)).

(** "Marshal request" and "Call InvokeModel", common to all adapters. *)
Definition invoke (modelName : string) (requestBody : gmap string Value)
  : result bedrockruntime.InvokeModelOutput :=
  match json_Marshal (VMap requestBody) with
  | Err err => Err (wrapError "failed to marshal request: " err)
  | Ok body =>
      match client_InvokeModel
              {| bedrockruntime.InvokeModelInput_ModelId := Some modelName;
                 bedrockruntime.InvokeModelInput_Body := body;
                 bedrockruntime.InvokeModelInput_ContentType := Some "application/json";
                 bedrockruntime.InvokeModelInput_Accept := Some "application/json" |} with
      | Err err => Err (wrapError "failed to invoke model: " err)
      | Ok response => Ok response
      end
  end.

(** "Create response with image data". *)
Definition imageResponse (base64Image : string) : ai.ModelResponse :=
  {| ai.ModelResponse_Message :=
       {| ai.Message_Role := ai.RoleModel;
          ai.Message_Content :=
            [ai.NewMediaPart "image/png" ("data:image/png;base64," +:+ base64Image)] |};
     ai.ModelResponse_FinishReason := ai.FinishReasonStop;
     ai.ModelResponse_Usage := None |}.

(** "Apply config if provided", for the adapters that merge the caller's
    [imageGenerationConfig] into the default one. *)
Definition applyImageGenerationConfig (config : Value)
    (requestBody : gmap string Value) : gmap string Value :=
  match config with
  | VMap configMap =>
      match configMap !! "imageGenerationConfig" with
      | Some (VMap imgCfg) =>
          map_fold
            (fun k v requestBody =>
               match requestBody !! "imageGenerationConfig" with
               | Some (VMap generationConfig) =>
                   <["imageGenerationConfig" := VMap (<[k := v]> generationConfig)]>
                     requestBody
               | _ => requestBody
               end)
            requestBody imgCfg
      | _ => requestBody
      end
  | _ => requestBody
  end.

Definition generateTitanImage (modelName prompt : string) (config : Value)
  : result ai.ModelResponse :=
  let requestBody : gmap string Value :=
    <["taskType" := VString "TEXT_IMAGE"]>
    (<["textToImageParams" := VMap (<["text" := VString prompt]> ∅)]>
    (<["imageGenerationConfig" :=
         VMap (<["numberOfImages" := VInt 1]>
              (<["height" := VInt 1024]>
              (<["width" := VInt 1024]>
              (<["cfgScale" := VFloat64 (float64_of_Z 8)]>
              (<["seed" := VInt 0]> ∅)))))]> ∅)) in
  let requestBody := applyImageGenerationConfig config requestBody in
  match invoke modelName requestBody with
  | Err err => Err err
  | Ok response =>
      match json_Unmarshal_Images (bedrockruntime.InvokeModelOutput_Body response) with
      | Err err => Err (wrapError "failed to unmarshal response: " err)
      | Ok images =>
          match images with
          | [] => Err (errorString "no images generated")
          | image0 :: _ => Ok (imageResponse image0)
          end
      end
  end.

Definition generateStableDiffusionImage (modelName prompt : string)
    (config : Value) : result ai.ModelResponse :=
  let requestBody : gmap string Value :=
    <["text_prompts" :=
        VMaps [<["text" := VString prompt]>
               (<["weight" := VFloat64 (float64_of_Z 1)]> ∅)]]>
    (<["cfg_scale" := VInt 7]>
    (<["clip_guidance_preset" := VString "FAST_BLUE"]>
    (<["height" := VInt 512]>
    (<["width" := VInt 512]>
    (<["samples" := VInt 1]>
    (<["steps" := VInt 30]> ∅)))))) in
  let requestBody :=
    match config with
    | VMap configMap =>
        map_fold (fun k v requestBody => <[k := v]> requestBody)
          requestBody configMap
    | _ => requestBody
    end in
  match invoke modelName requestBody with
  | Err err => Err err
  | Ok response =>
      match json_Unmarshal_Artifacts
              (bedrockruntime.InvokeModelOutput_Body response) with
      | Err err => Err (wrapError "failed to unmarshal response: " err)
      | Ok artifacts =>
          match artifacts with
          | [] => Err (errorString "no images generated")
          | artifact0 :: _ => Ok (imageResponse (artifact_Base64 artifact0))
          end
      end
  end.

Definition generateNovaCanvasImage (modelName prompt : string) (config : Value)
  : result ai.ModelResponse :=
  let requestBody : gmap string Value :=
    <["taskType" := VString "TEXT_IMAGE"]>
    (<["textToImageParams" := VMap (<["text" := VString prompt]> ∅)]>
    (<["imageGenerationConfig" :=
         VMap (<["numberOfImages" := VInt 1]>
              (<["quality" := VString "standard"]>
              (<["height" := VInt 1024]>
              (<["width" := VInt 1024]>
              (<["cfgScale" := VFloat64 (float64_of_Z 8)]>
              (<["seed" := VInt 0]> ∅))))))]> ∅)) in
  let requestBody := applyImageGenerationConfig config requestBody in
  match invoke modelName requestBody with
  | Err err => Err err
  | Ok response =>
      match json_Unmarshal_Images (bedrockruntime.InvokeModelOutput_Body response) with
      | Err err => Err (wrapError "failed to unmarshal response: " err)
      | Ok images =>
          match images with
          | [] => Err (errorString "no images generated")
          | image0 :: _ => Ok (imageResponse image0)
          end
      end
  end.

Definition generateImage (modelName : string) (input : ai.ModelRequest)
  : result ai.ModelResponse :=
  let prompt :=
    match ai.ModelRequest_Messages input with
    | message0 :: _ =>
        match ai.Message_Content message0 with
        | part0 :: _ => if ai.IsText part0 then ai.Part_Text part0 else ""
        | [] => ""
        end
    | [] => ""
    end in
  if String.eqb prompt "" then
    Err (errorString "no text prompt found for image generation")
  else if Contains modelName "titan-image" then
    generateTitanImage modelName prompt (ai.ModelRequest_Config input)
  else if Contains modelName "stable-diffusion" || Contains modelName "sd3-"
          || Contains modelName "stable-image" then
    generateStableDiffusionImage modelName prompt (ai.ModelRequest_Config input)
  else if Contains modelName "nova-canvas" then
    generateNovaCanvasImage modelName prompt (ai.ModelRequest_Config input)
  else
    Err (errorString ("unsupported image generation model: " +:+ modelName)).

Definition getTitanEmbedding (modelName text : string)
  : result (list spec_float) :=
  let requestBody : gmap string Value := <["inputText" := VString text]> ∅ in
  match invoke modelName requestBody with
  | Err err => Err err
  | Ok response =>
      match json_Unmarshal_Embedding
              (bedrockruntime.InvokeModelOutput_Body response) with
      | Err err => Err (wrapError "failed to unmarshal response: " err)
      | Ok embedding => Ok embedding
      end
  end.

Definition getCohereEmbedding (modelName text : string)
  : result (list spec_float) :=
  let requestBody : gmap string Value :=
    <["texts" := VStrings [text]]>
    (<["input_type" := VString "search_document"]> ∅) in
  match invoke modelName requestBody with
  | Err err => Err err
  | Ok response =>
      match json_Unmarshal_Embeddings
              (bedrockruntime.InvokeModelOutput_Body response) with
      | Err err => Err (wrapError "failed to unmarshal response: " err)
      | Ok embeddings =>
          match embeddings with
          | [] => Err (errorString "no embeddings returned")
          | embedding0 :: _ => Ok embedding0
          end
      end
  end.

(** "Extract text from document parts". *)
Definition documentText (doc : ai.Document) : string :=
  foldl (fun inputText part =>
           if ai.IsText part then inputText +:+ ai.Part_Text part else inputText)
        "" (ai.Document_Content doc).

(** [for _, doc := range req.Input] on the slice [embeddings]. *)
Fixpoint embedDocuments (modelName : string) (docs : list ai.Document)
    (embeddings : list ai.Embedding) : result (list ai.Embedding) :=
  match docs with
  | [] => Ok embeddings
  | doc :: rest =>
      let inputText := documentText doc in
      if String.eqb inputText "" then embedDocuments modelName rest embeddings
      else
        let embedded :=
          if Contains modelName "titan" then Some (getTitanEmbedding modelName inputText)
          else if Contains modelName "cohere"
          then Some (getCohereEmbedding modelName inputText)
          else None in
        match embedded with
        | None => Err (errorString ("unsupported embedding model: " +:+ modelName))
        | Some (Err err) => Err (wrapError "failed to generate embedding: " err)
        | Some (Ok embedding) =>
            embedDocuments modelName rest
              (embeddings ++ [{| ai.Embedding_Embedding := embedding |}])
        end
  end.

Definition embed (modelName : string) (req : ai.EmbedRequest)
  : result ai.EmbedResponse :=
  match embedDocuments modelName (ai.EmbedRequest_Input req) [] with
  | Err err => Err err
  | Ok embeddings => Ok {| ai.EmbedResponse_Embeddings := embeddings |}
  end.

End Adapters.

(** ** The normaliser on a heap of map objects

    [validateAndNormalizeJSONSchema] once more, statement by statement, on a
    store in which a [map[string]interface{}] is a reference to a mutable
    object that several values may share: the model in which "does not
    modify the original" is a property of the code and not of the notation. *)

Module heap.
Definition loc : Type := positive.

Inductive hval : Type :=
| HNil
| HBool (b : bool)
| HString (s : string)
| HFloat64 (f : spec_float)
| HMap (l : loc)
| HSlice (l : loc)
| HOpaque (tag : string).

Inductive object : Type :=
| MapObject (entries : gmap string hval)
| SliceObject (elems : list hval).

Definition M (A : Type) : Type := gmap loc object -> A * gmap loc object.

#[global] Instance M_ret : MRet M := fun A a h => (a, h).

#[global] Instance M_bind : MBind M :=
  fun A B k m h => let '(a, h') := m h in k a h'.

(** [make(map[string]interface{})] *)
Definition makeMap : M loc :=
  fun h => let l := fresh (dom h) in (l, <[l := MapObject ∅]> h).

(** The entries of the map [m] refers to; a nil map ([None]) has none. *)
Definition entriesOf (h : gmap loc object) (m : option loc) : gmap string hval :=
  match m with
  | Some l =>
      match h !! l with
      | Some (MapObject entries) => entries
      | _ => ∅
      end
  | None => ∅
  end.

(** [v, exists := m[k]] *)
Definition mapIndex (m : option loc) (k : string) : M (option hval) :=
  fun h => (entriesOf h m !! k, h).

(** [m[k] = v] *)
Definition mapAssign (l : loc) (k : string) (v : hval) : M unit :=
  fun h =>
    (tt, match h !! l with
         | Some (MapObject entries) => <[l := MapObject (<[k := v]> entries)]> h
         | _ => h
         end).

(** The pairs a [range] over [m] visits. *)
Definition mapRange (m : option loc) : M (list (string * hval)) :=
  fun h => (map_to_list (entriesOf h m), h).

Fixpoint forEach {A} (l : list A) (body : A -> M unit) : M unit :=
  match l with
  | [] => mret tt
  | a :: rest => body a ;; forEach rest body
  end.

Definition is_object_type (v : option hval) : bool :=
  match v with
  | Some (HString s) => String.eqb s "object"
  | _ => false
  end.

Definition validateAndNormalizeJSONSchema (schema : option loc) : M loc :=
  normalized ← makeMap ;
  pairs ← mapRange schema ;
  forEach pairs (fun '(k, v) => mapAssign normalized k v) ;;
  type ← mapIndex (Some normalized) "type" ;
  match type with
  | Some _ => mret tt
  | None => mapAssign normalized "type" (HString "object")
  end ;;
  type ← mapIndex (Some normalized) "type" ;
  (if is_object_type type then
     properties ← mapIndex (Some normalized) "properties" ;
     match properties with
     | Some _ => mret tt
     | None =>
         empty ← makeMap ;
         mapAssign normalized "properties" (HMap empty)
     end
   else mret tt) ;;
  version ← mapIndex (Some normalized) "$schema" ;
  match version with
  | Some _ => mret tt
  | None => mapAssign normalized "$schema" (HString draft07)
  end ;;
  mret normalized.

(** What a run of the normaliser leaves behind: the new map [normalized]
    with entries [n] in the heap [h'], described key by key against the
    entries of [schema] in the heap [h] it started from. *)
Record normalised_run (h : gmap loc object) (schema : option loc)
    (normalized : loc) (h' : gmap loc object) (n : gmap string hval) : Prop := {
  run_fresh : h !! normalized = None;
  run_result : h' !! normalized = Some (MapObject n);
  run_frame : ∀ l o, h !! l = Some o -> h' !! l = Some o;
  run_copied : ∀ k v, entriesOf h schema !! k = Some v -> n !! k = Some v;
  run_type :
    n !! "type" = Some (default (HString "object") (entriesOf h schema !! "type"));
  run_properties :
    is_object_type (n !! "type") = true ->
    match entriesOf h schema !! "properties" with
    | Some p => n !! "properties" = Some p
    | None => ∃ empty, n !! "properties" = Some (HMap empty)
                       ∧ h !! empty = None
                       ∧ h' !! empty = Some (MapObject ∅)
    end;
  run_properties_untouched :
    is_object_type (n !! "type") = false ->
    n !! "properties" = entriesOf h schema !! "properties";
  run_version :
    n !! "$schema"
    = Some (default (HString draft07) (entriesOf h schema !! "$schema"));
  run_other : ∀ k,
    k ≠ "type" -> k ≠ "properties" -> k ≠ "$schema" ->
    n !! k = entriesOf h schema !! k
}.
End heap.

(** ** Reference instances of the number parsers

    The decimal fragment of [strconv.ParseFloat] (sign, digits, fraction,
    decimal exponent; correctly rounded, an overflow is an error) and
    [strconv.ParseInt(s, 10, 64)], for running the model on examples. *)

Definition digit_of (c : ascii) : option Z :=
  let n := Z.of_N (N_of_ascii c) in
  if (48 <=? n) && (n <=? 57) then Some (n - 48) else None.

Fixpoint take_digits (s : string) : list Z * string :=
  match s with
  | EmptyString => ([], EmptyString)
  | String c rest =>
      match digit_of c with
      | Some d => let '(ds, s') := take_digits rest in (d :: ds, s')
      | None => ([], s)
      end
  end.

Definition digits_value (ds : list Z) : Z :=
  foldl (fun acc d => 10 * acc + d) 0 ds.

Definition strip_sign (s : string) : bool * string :=
  match s with
  | String "-" rest => (true, rest)
  | String "+" rest => (false, rest)
  | _ => (false, s)
  end.

(** The binary64 nearest to [m * 10 ^ e10], for [0 <= m]. *)
Definition round_decimal (neg : bool) (m e10 : Z) : spec_float :=
  if m =? 0 then S754_zero neg
  else if 0 <=? e10 then
    binary_normalize 53 1024 ((if neg then -1 else 1) * (m * 10 ^ e10)) 0 neg
  else
    let d := 10 ^ (- e10) in
    let k := Z.max 0 (64 + Z.log2 d - Z.log2 m) in
    let q := (m * 2 ^ k) / d in
    let sticky := if (m * 2 ^ k) mod d =? 0 then 0 else 1 in
    binary_normalize 53 1024 ((if neg then -1 else 1) * (2 * q + sticky))
      (- k - 1) neg.

Definition decimal_exponent (s : string) : option Z :=
  match s with
  | EmptyString => Some 0
  | String c rest =>
      if Ascii.eqb c "e" || Ascii.eqb c "E" then
        let '(neg, rest) := strip_sign rest in
        match take_digits rest with
        | ((_ :: _) as ds, EmptyString) =>
            Some (if neg then - digits_value ds else digits_value ds)
        | _ => None
        end
      else None
  end.

Definition ParseFloat_decimal (s : string) : option spec_float :=
  let '(neg, s) := strip_sign s in
  let '(int_digits, s) := take_digits s in
  let '(frac_digits, s) :=
    match s with
    | String "." rest => take_digits rest
    | _ => ([], s)
    end in
  match int_digits ++ frac_digits, decimal_exponent s with
  | (_ :: _) as ds, Some e =>
      match round_decimal neg (digits_value ds) (e - Z.of_nat (length frac_digits)) with
      | S754_infinity _ => None
      | f => Some f
      end
  | _, _ => None
  end.

Definition ParseInt_decimal (s : string) : option Z :=
  let '(neg, s) := strip_sign s in
  match take_digits s with
  | ((_ :: _) as ds, EmptyString) =>
      let z := if neg then - digits_value ds else digits_value ds in
      if (int64_min <=? z) && (z <=? int64_max) then Some z else None
  | _ => None
  end.

(** * The rest of the plugin

    The functions around the ones above: the text entry points, the schema
    helpers, the request bodies of the image adapters, capability inference
    and the plugin's life cycle. *)

(** ** Text generation entry points: [generateTextSync], [generateText] *)

Section TextGeneration.
Context {World : Type}.
Variable json_Marshal : Value -> result (list Byte.byte).
Variable json_Unmarshal : list Byte.byte -> result (gmap string Value).
Variable fmt_Sprint : Value -> string.
Variable ParseFloat : string -> option spec_float.
Variable Number_Float64 : string -> option spec_float.
Variable Number_Int64 : string -> option Z.
Variable UnmarshalSmithyDocument :
  document.Interface -> result (gmap string Value).
(** [b.client.Converse] and [b.client.ConverseStream] *)
Variable client_Converse :
  bedrockruntime.ConverseInput -> result bedrockruntime.ConverseOutput.
Variable client_ConverseStream :
  bedrockruntime.ConverseStreamInput ->
  result bedrockruntime.ConverseStreamEventStream.

Definition generateTextSync (input : bedrockruntime.ConverseInput)
    (originalInput : ai.ModelRequest) : result ai.ModelResponse :=
  match client_Converse input with
  | Err err => Err (wrapError "bedrock converse failed: " err)
  | Ok response =>
      Ok (convertResponse ParseFloat Number_Float64 Number_Int64
            UnmarshalSmithyDocument response originalInput)
  end.

(** [cb] is [None] for a nil callback.  The result, the caller's state
    afterwards and the event stream the call leaves, if it opened one. *)
Definition generateText (modelName : string) (input : ai.ModelRequest)
    (cb : option (@callback World)) (w : World)
  : result ai.ModelResponse * World
    * option bedrockruntime.ConverseStreamEventStream :=
  match buildConverseInput json_Marshal json_Unmarshal fmt_Sprint modelName input with
  | Err err => (Err (wrapError "failed to build converse input: " err), w, None)
  | Ok converseInput =>
      match cb with
      | Some cb => generateTextStream client_ConverseStream converseInput input cb w
      | None => (generateTextSync converseInput input, w, None)
      end
  end.
End TextGeneration.

(** What the loop of [generateTextStream] reads from an event: the text a
    text delta adds to [fullText], and whether the event is a message
    stop. *)
Definition deltaText (event : types.ConverseStreamOutput) : option string :=
  match event with
  | types.ConverseStreamOutputMemberContentBlockDelta
      (Some (types.ContentBlockDeltaMemberText text)) => Some text
  | _ => None
  end.

Definition isMessageStop (event : types.ConverseStreamOutput) : bool :=
  match event with
  | types.ConverseStreamOutputMemberMessageStop _ => true
  | _ => false
  end.

(** The chunk the callback is given for a text delta. *)
Definition textChunk (text : string) : ai.ModelResponseChunk :=
  {| ai.ModelResponseChunk_Index := 0;
     ai.ModelResponseChunk_Content := [ai.NewTextPart text] |}.

(** ** Helpers for JSON Schema patterns *)

Definition NewObjectSchema (properties : gmap string Value)
    (required : list string) : gmap string Value :=
  let schema : gmap string Value :=
    <["type" := VString "object"]> (<["properties" := VMap properties]> ∅) in
  if (0 <? length required)%nat then <["required" := VStrings required]> schema
  else schema.

Definition NewStringSchema (description : string) (enum : list string)
  : gmap string Value :=
  let schema : gmap string Value := <["type" := VString "string"]> ∅ in
  let schema :=
    if negb (String.eqb description "")
    then <["description" := VString description]> schema else schema in
  if (0 <? length enum)%nat then <["enum" := VStrings enum]> schema else schema.

Definition NewNumberSchema (description : string)
    (minimum maximum : option spec_float) : gmap string Value :=
  let schema : gmap string Value := <["type" := VString "number"]> ∅ in
  let schema :=
    if negb (String.eqb description "")
    then <["description" := VString description]> schema else schema in
  let schema :=
    match minimum with
    | Some minimum => <["minimum" := VFloat64 minimum]> schema
    | None => schema
    end in
  match maximum with
  | Some maximum => <["maximum" := VFloat64 maximum]> schema
  | None => schema
  end.

Definition NewArraySchema (itemSchema : gmap string Value)
    (description : string) : gmap string Value :=
  let schema : gmap string Value :=
    <["type" := VString "array"]> (<["items" := VMap itemSchema]> ∅) in
  if negb (String.eqb description "")
  then <["description" := VString description]> schema else schema.

(** ** Request bodies of the image adapters

    The [requestBody] each image adapter hands to [json.Marshal], after
    "Apply config if provided". *)

Definition titanImageRequestBody (prompt : string) (config : Value)
  : gmap string Value :=
  applyImageGenerationConfig config
    (<["taskType" := VString "TEXT_IMAGE"]>
    (<["textToImageParams" := VMap (<["text" := VString prompt]> ∅)]>
    (<["imageGenerationConfig" :=
         VMap (<["numberOfImages" := VInt 1]>
              (<["height" := VInt 1024]>
              (<["width" := VInt 1024]>
              (<["cfgScale" := VFloat64 (float64_of_Z 8)]>
              (<["seed" := VInt 0]> ∅)))))]> ∅))).

Definition novaCanvasRequestBody (prompt : string) (config : Value)
  : gmap string Value :=
  applyImageGenerationConfig config
    (<["taskType" := VString "TEXT_IMAGE"]>
    (<["textToImageParams" := VMap (<["text" := VString prompt]> ∅)]>
    (<["imageGenerationConfig" :=
         VMap (<["numberOfImages" := VInt 1]>
              (<["quality" := VString "standard"]>
              (<["height" := VInt 1024]>
              (<["width" := VInt 1024]>
              (<["cfgScale" := VFloat64 (float64_of_Z 8)]>
              (<["seed" := VInt 0]> ∅))))))]> ∅))).

Definition stableDiffusionDefaults (prompt : string) : gmap string Value :=
  <["text_prompts" :=
      VMaps [<["text" := VString prompt]>
             (<["weight" := VFloat64 (float64_of_Z 1)]> ∅)]]>
  (<["cfg_scale" := VInt 7]>
  (<["clip_guidance_preset" := VString "FAST_BLUE"]>
  (<["height" := VInt 512]>
  (<["width" := VInt 512]>
  (<["samples" := VInt 1]>
  (<["steps" := VInt 30]> ∅)))))).

Definition stableDiffusionRequestBody (prompt : string) (config : Value)
  : gmap string Value :=
  match config with
  | VMap configMap =>
      map_fold (fun k v requestBody => <[k := v]> requestBody)
        (stableDiffusionDefaults prompt) configMap
  | _ => stableDiffusionDefaults prompt
  end.

(** ** Capability inference: [inferModelCapabilities] *)

(** [ai.ModelSupports] and [ai.ModelInfo], the fields the plugin sets. *)
Record ModelSupports : Type := {
  ModelSupports_Multiturn : bool;
  ModelSupports_Tools : bool;
  ModelSupports_SystemRole : bool;
  ModelSupports_Media : bool
}.

Record ModelInfo : Type := {
  ModelInfo_Label : string;
  ModelInfo_Supports : option ModelSupports;
  ModelInfo_Versions : list string
}.

Definition multimodalModels : list string :=
  [ "anthropic.claude-3-haiku-20240307-v1:0";
    "anthropic.claude-3-sonnet-20240229-v1:0";
    "anthropic.claude-3-opus-20240229-v1:0";
    "anthropic.claude-3-5-sonnet-20240620-v1:0";
    "anthropic.claude-3-5-sonnet-20241022-v2:0";
    "anthropic.claude-3-7-sonnet-20250219-v1:0";
    "anthropic.claude-opus-4-20250514-v1:0";
    "anthropic.claude-sonnet-4-20250514-v1:0";
    "amazon.nova-lite-v1:0";
    "amazon.nova-pro-v1:0";
    "amazon.nova-premier-v1:0";
    "meta.llama3-2-11b-instruct-v1:0";
    "meta.llama3-2-90b-instruct-v1:0";
    "meta.llama4-maverick-17b-instruct-v1:0";
    "meta.llama4-scout-17b-instruct-v1:0";
    "mistral.pixtral-large-2502-v1:0" ].

Definition toolSupportedModels : list string :=
  [ "anthropic.claude-3-haiku-20240307-v1:0";
    "anthropic.claude-3-sonnet-20240229-v1:0";
    "anthropic.claude-3-opus-20240229-v1:0";
    "anthropic.claude-3-5-haiku-20241022-v1:0";
    "anthropic.claude-3-5-sonnet-20240620-v1:0";
    "anthropic.claude-3-5-sonnet-20241022-v2:0";
    "anthropic.claude-3-7-sonnet-20250219-v1:0";
    "anthropic.claude-opus-4-20250514-v1:0";
    "anthropic.claude-sonnet-4-20250514-v1:0";
    "amazon.nova-micro-v1:0";
    "amazon.nova-lite-v1:0";
    "amazon.nova-pro-v1:0";
    "amazon.nova-premier-v1:0";
    "cohere.command-r-v1:0";
    "cohere.command-r-plus-v1:0";
    "mistral.mistral-large-2402-v1:0";
    "mistral.mistral-large-2407-v1:0";
    "mistral.mistral-small-2402-v1:0";
    "mistral.pixtral-large-2502-v1:0";
    "ai21.jamba-1-5-large-v1:0";
    "ai21.jamba-1-5-mini-v1:0";
    "meta.llama3-8b-instruct-v1:0";
    "meta.llama3-70b-instruct-v1:0";
    "meta.llama3-1-8b-instruct-v1:0";
    "meta.llama3-1-70b-instruct-v1:0";
    "meta.llama3-1-405b-instruct-v1:0";
    "meta.llama3-2-1b-instruct-v1:0";
    "meta.llama3-2-3b-instruct-v1:0";
    "meta.llama3-2-11b-instruct-v1:0";
    "meta.llama3-2-90b-instruct-v1:0";
    "meta.llama3-3-70b-instruct-v1:0";
    "meta.llama4-maverick-17b-instruct-v1:0";
    "meta.llama4-scout-17b-instruct-v1:0";
    "deepseek.r1-v1:0";
    "writer.palmyra-x4-v1:0";
    "writer.palmyra-x5-v1:0";
    "twelvelabs.pegasus-1-2-v1:0" ].

(** [slices.Contains] on strings. *)
Definition slices_Contains (s : list string) (v : string) : bool :=
  existsb (String.eqb v) s.

Definition inferModelCapabilities (modelName modelType : string) : ModelInfo :=
  let supportsTools := slices_Contains toolSupportedModels modelName in
  let supportsMedia := slices_Contains multimodalModels modelName in
  if String.eqb modelType "image" then
    {| ModelInfo_Label := modelName;
       ModelInfo_Supports :=
         Some {| ModelSupports_Multiturn := false; ModelSupports_Tools := false;
                 ModelSupports_SystemRole := false; ModelSupports_Media := true |};
       ModelInfo_Versions := [] |}
  else if String.eqb modelType "embedding" then
    {| ModelInfo_Label := modelName;
       ModelInfo_Supports :=
         Some {| ModelSupports_Multiturn := false; ModelSupports_Tools := false;
                 ModelSupports_SystemRole := false; ModelSupports_Media := false |};
       ModelInfo_Versions := [] |}
  else
    {| ModelInfo_Label := modelName;
       ModelInfo_Supports :=
         Some {| ModelSupports_Multiturn := true;
                 ModelSupports_Tools := supportsTools;
                 ModelSupports_SystemRole := true;
                 ModelSupports_Media := supportsMedia |};
       ModelInfo_Versions := [] |}.

(** ** Life cycle: [Init], [DefineModel], [DefineEmbedder]

    One goroutine runs the calls one after the other.  [b.mu] is held or
    free; [Lock] on a held mutex waits for an [Unlock] that, with nobody
    else running, never comes ([Blocks]).  The Genkit registry and the AWS
    configuration loader are parameters. *)

Definition provider : string := "bedrock".

Inductive outcome (A : Type) : Type :=
| Returns (a : A)
| Panics (msg : string)
| Blocks.
Arguments Returns {A} a.
Arguments Panics {A} msg.
Arguments Blocks {A}.

Record ModelDefinition : Type := {
  ModelDefinition_Name : string;
  ModelDefinition_Type : string
}.

(** The function [DefineModel] registers: the closure that calls
    [b.generateImage] or [b.generateText] with [model.Name]. *)
Inductive modelFunc : Type :=
| generateImageFunc (modelName : string)
| generateTextFunc (modelName : string).

Definition commonModels : list (string * ModelDefinition) :=
  let chat name := {| ModelDefinition_Name := name; ModelDefinition_Type := "chat" |} in
  let image name := {| ModelDefinition_Name := name; ModelDefinition_Type := "image" |} in
  [ ("claude-haiku", chat "anthropic.claude-3-haiku-20240307-v1:0");
    ("claude-sonnet", chat "anthropic.claude-3-5-sonnet-20241022-v2:0");
    ("claude-opus-4", chat "anthropic.claude-opus-4-20250514-v1:0");
    ("claude-sonnet-4", chat "anthropic.claude-sonnet-4-20250514-v1:0");
    ("claude-3-7-sonnet", chat "anthropic.claude-3-7-sonnet-20250219-v1:0");
    ("nova-micro", chat "amazon.nova-micro-v1:0");
    ("nova-lite", chat "amazon.nova-lite-v1:0");
    ("nova-pro", chat "amazon.nova-pro-v1:0");
    ("titan-text", chat "amazon.titan-text-premier-v1:0");
    ("llama3-8b", chat "meta.llama3-8b-instruct-v1:0");
    ("llama3-1-8b", chat "meta.llama3-1-8b-instruct-v1:0");
    ("llama3-2-3b", chat "meta.llama3-2-3b-instruct-v1:0");
    ("llama4-maverick", chat "meta.llama4-maverick-17b-instruct-v1:0");
    ("llama4-scout", chat "meta.llama4-scout-17b-instruct-v1:0");
    ("deepseek-r1", chat "deepseek.r1-v1:0");
    ("titan-image", image "amazon.titan-image-generator-v1");
    ("nova-canvas", image "amazon.nova-canvas-v1:0") ].

Definition commonEmbedders : list (string * string) :=
  [ ("titan-embed", "amazon.titan-embed-text-v1");
    ("titan-embed-v2", "amazon.titan-embed-text-v2:0");
    ("titan-multimodal", "amazon.titan-embed-image-v1");
    ("cohere-embed", "cohere.embed-english-v3");
    ("cohere-multilingual", "cohere.embed-multilingual-v3") ].

Section LifeCycle.
Variable aws_Config : Type.
Variable BedrockClient : Type.
Variable Genkit : Type.
Variable Model : Type.
Variable Embedder : Type.
(** [config.LoadDefaultConfig(ctx, config.WithRegion(region),
    config.WithRetryMaxAttempts(maxRetries))] *)
Variable config_LoadDefaultConfig : string -> Z -> result aws_Config.
Variable bedrockruntime_NewFromConfig : aws_Config -> BedrockClient.
(** [genkit.DefineModel] and [genkit.DefineEmbedder]: the model or embedder
    and the registry afterwards, or the message they panic with. *)
Variable genkit_DefineModel :
  Genkit -> string -> string -> ModelInfo -> modelFunc -> string + Model * Genkit.
Variable genkit_DefineEmbedder :
  Genkit -> string -> string -> string + Embedder * Genkit.

Record Bedrock : Type := {
  Bedrock_Region : string;
  Bedrock_MaxRetries : Z;
  (** a [time.Duration], in nanoseconds *)
  Bedrock_RequestTimeout : Z;
  Bedrock_AWSConfig : option aws_Config;
  Bedrock_DefineCommonModels : bool;
  Bedrock_DefineCommonEmbedders : bool;
  (** [true] while the mutex is held *)
  Bedrock_mu : bool;
  Bedrock_client : option BedrockClient;
  Bedrock_initted : bool
}.

Definition with_mu (b : Bedrock) (held : bool) : Bedrock :=
  {| Bedrock_Region := Bedrock_Region b;
     Bedrock_MaxRetries := Bedrock_MaxRetries b;
     Bedrock_RequestTimeout := Bedrock_RequestTimeout b;
     Bedrock_AWSConfig := Bedrock_AWSConfig b;
     Bedrock_DefineCommonModels := Bedrock_DefineCommonModels b;
     Bedrock_DefineCommonEmbedders := Bedrock_DefineCommonEmbedders b;
     Bedrock_mu := held;
     Bedrock_client := Bedrock_client b;
     Bedrock_initted := Bedrock_initted b |}.

(** [b.mu.Lock()]: [None] when the mutex is held. *)
Definition Lock (b : Bedrock) : option Bedrock :=
  if Bedrock_mu b then None else Some (with_mu b true).

(** [b.mu.Unlock()] *)
Definition Unlock (b : Bedrock) : Bedrock := with_mu b false.

(** "Set defaults" *)
Definition setDefaults (b : Bedrock) : Bedrock :=
  {| Bedrock_Region :=
       if String.eqb (Bedrock_Region b) "" then "us-east-1" else Bedrock_Region b;
     Bedrock_MaxRetries :=
       if Bedrock_MaxRetries b =? 0 then 3 else Bedrock_MaxRetries b;
     Bedrock_RequestTimeout :=
       if Bedrock_RequestTimeout b =? 0 then 30 * 1000000000
       else Bedrock_RequestTimeout b;
     Bedrock_AWSConfig := Bedrock_AWSConfig b;
     Bedrock_DefineCommonModels := Bedrock_DefineCommonModels b;
     Bedrock_DefineCommonEmbedders := Bedrock_DefineCommonEmbedders b;
     Bedrock_mu := Bedrock_mu b;
     Bedrock_client := Bedrock_client b;
     Bedrock_initted := Bedrock_initted b |}.

(** [b.client = ...; b.initted = true] *)
Definition setClient (b : Bedrock) (client : BedrockClient) : Bedrock :=
  {| Bedrock_Region := Bedrock_Region b;
     Bedrock_MaxRetries := Bedrock_MaxRetries b;
     Bedrock_RequestTimeout := Bedrock_RequestTimeout b;
     Bedrock_AWSConfig := Bedrock_AWSConfig b;
     Bedrock_DefineCommonModels := Bedrock_DefineCommonModels b;
     Bedrock_DefineCommonEmbedders := Bedrock_DefineCommonEmbedders b;
     Bedrock_mu := Bedrock_mu b;
     Bedrock_client := Some client;
     Bedrock_initted := true |}.

(** [info] is [None] for a nil [*ai.ModelInfo].  The deferred [Unlock] runs
    on the return and on a panic. *)
Definition DefineModel (g : Genkit) (b : Bedrock) (model : ModelDefinition)
    (info : option ModelInfo) : outcome Model * (Bedrock * Genkit) :=
  match Lock b with
  | None => (Blocks, (b, g))
  | Some b =>
      if negb (Bedrock_initted b) then
        (Panics "bedrock: Init not called", (Unlock b, g))
      else
        let info :=
          match info with
          | Some info => info
          | None =>
              inferModelCapabilities (ModelDefinition_Name model)
                (ModelDefinition_Type model)
          end in
        let meta :=
          {| ModelInfo_Label := provider +:+ "-" +:+ ModelDefinition_Name model;
             ModelInfo_Supports := ModelInfo_Supports info;
             ModelInfo_Versions := ModelInfo_Versions info |} in
        let fn :=
          if String.eqb (ModelDefinition_Type model) "image"
          then generateImageFunc (ModelDefinition_Name model)
          else generateTextFunc (ModelDefinition_Name model) in
        match genkit_DefineModel g provider (ModelDefinition_Name model) meta fn with
        | inl msg => (Panics msg, (Unlock b, g))
        | inr (m, g') => (Returns m, (Unlock b, g'))
        end
  end.

Definition DefineEmbedder (g : Genkit) (b : Bedrock) (modelName : string)
  : outcome Embedder * (Bedrock * Genkit) :=
  match Lock b with
  | None => (Blocks, (b, g))
  | Some b =>
      if negb (Bedrock_initted b) then
        (Panics "bedrock: Init not called", (Unlock b, g))
      else
        match genkit_DefineEmbedder g provider modelName with
        | inl msg => (Panics msg, (Unlock b, g))
        | inr (e, g') => (Returns e, (Unlock b, g'))
        end
  end.

(** The calls of [DefineCommonModels], one [b.DefineModel(g, ..., nil)] per
    entry of [commonModels], filling the map [models]. *)
Fixpoint defineModels (entries : list (string * ModelDefinition))
    (models : gmap string Model) (g : Genkit) (b : Bedrock)
  : outcome (gmap string Model) * (Bedrock * Genkit) :=
  match entries with
  | [] => (Returns models, (b, g))
  | (key, model) :: rest =>
      match DefineModel g b model None with
      | (Returns m, (b, g)) => defineModels rest (<[key := m]> models) g b
      | (Panics msg, s) => (Panics msg, s)
      | (Blocks, s) => (Blocks, s)
      end
  end.

Definition DefineCommonModels (g : Genkit) (b : Bedrock)
  : outcome (gmap string Model) * (Bedrock * Genkit) :=
  defineModels commonModels ∅ g b.

Fixpoint defineEmbedders (entries : list (string * string))
    (embedders : gmap string Embedder) (g : Genkit) (b : Bedrock)
  : outcome (gmap string Embedder) * (Bedrock * Genkit) :=
  match entries with
  | [] => (Returns embedders, (b, g))
  | (key, modelName) :: rest =>
      match DefineEmbedder g b modelName with
      | (Returns e, (b, g)) => defineEmbedders rest (<[key := e]> embedders) g b
      | (Panics msg, s) => (Panics msg, s)
      | (Blocks, s) => (Blocks, s)
      end
  end.

Definition DefineCommonEmbedders (g : Genkit) (b : Bedrock)
  : outcome (gmap string Embedder) * (Bedrock * Genkit) :=
  defineEmbedders commonEmbedders ∅ g b.

(** [Init] returns its error, [None] for nil. *)
Definition Init (g : Genkit) (b : Bedrock)
  : outcome (option error) * (Bedrock * Genkit) :=
  match Lock b with
  | None => (Blocks, (b, g))
  | Some b =>
      if Bedrock_initted b then
        (Returns (Some (errorString "bedrock: Init already called")), (Unlock b, g))
      else
        let b := setDefaults b in
        let loaded :=
          match Bedrock_AWSConfig b with
          | Some awsConfig => Ok awsConfig
          | None =>
              config_LoadDefaultConfig (Bedrock_Region b) (Bedrock_MaxRetries b)
          end in
        match loaded with
        | Err err =>
            (Returns (Some (wrapError "bedrock: failed to load AWS config: " err)),
             (b, g))
        | Ok awsConfig =>
            let b := Unlock (setClient b (bedrockruntime_NewFromConfig awsConfig)) in
            let models :=
              if Bedrock_DefineCommonModels b then
                match DefineCommonModels g b with
                | (Returns _, s) => (Returns tt, s)
                | (Panics msg, s) => (Panics msg, s)
                | (Blocks, s) => (Blocks, s)
                end
              else (Returns tt, (b, g)) in
            match models with
            | (Returns _, (b, g)) =>
                if Bedrock_DefineCommonEmbedders b then
                  match DefineCommonEmbedders g b with
                  | (Returns _, s) => (Returns None, s)
                  | (Panics msg, s) => (Panics msg, s)
                  | (Blocks, s) => (Blocks, s)
                  end
                else (Returns None, (b, g))
            | (Panics msg, s) => (Panics msg, s)
            | (Blocks, s) => (Blocks, s)
            end
        end
  end.
End LifeCycle.

(** ** A measure for induction on values

    One more than the sizes of the values held by a slice or a map. *)
Fixpoint Value_size (v : Value) : nat :=
  match v with
  | VSlice l => S (foldr (fun x n => Value_size x + n)%nat 0%nat l)
  | VMap m => S (map_fold (fun _ x n => Value_size x + n)%nat 0%nat m)
  | _ => 1%nat
  end.

(** * Properties *)

(** ** ValueCoercer *)

Lemma lookup_string_type (t : string) (rest : gmap string Value) :
  lookup_string (<["type" := VString t]> rest) "type" = Some t.
Proof. unfold lookup_string. by rewrite lookup_insert_eq. Qed.

(** C7: for the schema [{type: "integer"}] the string ["42"] is coerced to
    the integer [42] (an [int64]), and the string ["abc"], which
    [strconv.ParseFloat] rejects, comes back unchanged; no error is raised
    (the coercer has no error result at all). *)
Theorem coerce_integer_schema_on_strings
    (ParseFloat Number_Float64 : string -> option spec_float)
    (Number_Int64 : string -> option Z) :
  ParseFloat "42" = Some (float64_of_Z 42) ->
  ParseFloat "abc" = None ->
  convertValueWithSchema ParseFloat Number_Float64 Number_Int64
    (VString "42") (Some (<["type" := VString "integer"]> ∅)) = VInt64 42
  ∧ convertValueWithSchema ParseFloat Number_Float64 Number_Int64
      (VString "abc") (Some (<["type" := VString "integer"]> ∅)) = VString "abc".
Proof.
  intros H42 Habc. split.
  - cbn [convertValueWithSchema]. rewrite lookup_string_type.
    cbn [convertDocNumber convertString]. cbn [String.eqb Ascii.eqb Bool.eqb orb].
    rewrite H42. reflexivity.
  - cbn [convertValueWithSchema]. rewrite lookup_string_type.
    cbn [convertDocNumber convertString]. cbn [String.eqb Ascii.eqb Bool.eqb orb].
    rewrite Habc. reflexivity.
Qed.

Lemma coerce_integer_schema_on_strings_witness :
  convertValueWithSchema ParseFloat_decimal ParseFloat_decimal ParseInt_decimal
    (VString "42") (Some (<["type" := VString "integer"]> ∅)) = VInt64 42
  ∧ convertValueWithSchema ParseFloat_decimal ParseFloat_decimal ParseInt_decimal
      (VString "abc") (Some (<["type" := VString "integer"]> ∅)) = VString "abc".
Proof.
  apply coerce_integer_schema_on_strings; vm_compute; reflexivity.
Defined.

(** The loop of [convertMapWithSchema] gives [result] exactly the keys of
    [inputMap], whatever it stores under them. *)
Lemma convertMapWith_dom
    (convertValue : Value -> option (gmap string Value) -> Value)
    (inputMap : gmap string Value) (schema : option (gmap string Value)) :
  dom (convertMapWith convertValue inputMap schema) = dom inputMap.
Proof.
  unfold convertMapWith.
  destruct schema as [sch|]; [|done].
  destruct (lookup_string sch "type") as [schemaType|]; [|done].
  destruct (String.eqb schemaType "object"); [|done].
  destruct (lookup_map sch "properties") as [properties|]; [|done].
  apply (map_fold_weak_ind
           (fun (result : gmap string Value) (m : gmap string Value) =>
              dom result = dom m)).
  - reflexivity.
  - intros key value m result _ IH.
    destruct (properties !! key) as [[]|]; rewrite !dom_insert_L; by rewrite IH.
Qed.

(** C8: the value coercer gives a mapping exactly the keys of its input, by
    either entry point and for every schema, object schemas included: no key
    of the schema's [properties] is added, no key of the input is dropped. *)
Theorem coercer_preserves_key_set
    (ParseFloat Number_Float64 : string -> option spec_float)
    (Number_Int64 : string -> option Z)
    (inputMap : gmap string Value) (schema : option (gmap string Value)) :
  dom (convertMapWithSchema ParseFloat Number_Float64 Number_Int64 inputMap schema)
  = dom inputMap
  ∧ ∃ output,
      convertValueWithSchema ParseFloat Number_Float64 Number_Int64
        (VMap inputMap) schema = VMap output
      ∧ dom output = dom inputMap.
Proof.
  split; [apply convertMapWith_dom|].
  destruct schema as [sch|]; [|by exists inputMap].
  cbn [convertValueWithSchema].
  destruct (lookup_string sch "type") as [schemaType|]; [|by exists inputMap].
  cbn [convertDocNumber convertString].
  assert (convertNumeric (VMap inputMap) schemaType = None) as ->.
  { unfold convertNumeric. by repeat case_match. }
  destruct (String.eqb schemaType "object"); [|by exists inputMap].
  eexists; split; [reflexivity|]. apply convertMapWith_dom.
Qed.

(** ** SchemaNormalizer *)

(** "Make a copy": the loop that fills [normalized] rebuilds [schema]. *)
Lemma copy_loop (schema : gmap string Value) :
  map_fold (fun k v (normalized : gmap string Value) => <[k := v]> normalized)
    ∅ schema = schema.
Proof.
  apply (map_fold_weak_ind
           (fun (r : gmap string Value) (m : gmap string Value) => r = m)).
  - reflexivity.
  - intros k v m r _ ->. reflexivity.
Qed.

(** Setting a default leaves the key present and the others untouched. *)
Lemma default_key_present (m : gmap string Value) (k : string) (v : Value) :
  is_Some (match m !! k with Some _ => m | None => <[k := v]> m end !! k).
Proof. destruct (m !! k) eqn:H; [by rewrite H | by rewrite lookup_insert_eq]. Qed.

Lemma default_key_other (m : gmap string Value) (k k' : string) (v : Value) :
  k ≠ k' ->
  match m !! k with Some _ => m | None => <[k := v]> m end !! k' = m !! k'.
Proof. intros. destruct (m !! k); [done | by rewrite lookup_insert_ne]. Qed.

Lemma normalized_type (schema : gmap string Value) :
  validateAndNormalizeJSONSchema schema !! "type"
  = Some (default (VString "object") (schema !! "type")).
Proof.
  unfold validateAndNormalizeJSONSchema. rewrite copy_loop.
  rewrite default_key_other by done.
  assert (∀ (b : bool) (m : gmap string Value),
             (if b then match m !! "properties" with
                        | Some _ => m
                        | None => <["properties" := VMap ∅]> m
                        end
              else m) !! "type" = m !! "type") as ->.
  { intros [] m; [by apply default_key_other | done]. }
  destruct (schema !! "type") as [t|] eqn:Ht; [by rewrite Ht|].
  by rewrite lookup_insert_eq.
Qed.

Lemma normalized_has_type (schema : gmap string Value) :
  is_Some (validateAndNormalizeJSONSchema schema !! "type").
Proof. rewrite normalized_type. eauto. Qed.

Lemma normalized_has_schema_version (schema : gmap string Value) :
  is_Some (validateAndNormalizeJSONSchema schema !! "$schema").
Proof. unfold validateAndNormalizeJSONSchema. apply default_key_present. Qed.

Lemma normalized_object_has_properties (schema : gmap string Value) :
  is_object_type (validateAndNormalizeJSONSchema schema !! "type") = true ->
  is_Some (validateAndNormalizeJSONSchema schema !! "properties").
Proof.
  rewrite normalized_type. intros Hobj.
  unfold validateAndNormalizeJSONSchema. rewrite copy_loop.
  rewrite default_key_other by done.
  set (n1 := match schema !! "type" with
             | Some _ => schema
             | None => <["type" := VString "object"]> schema
             end).
  assert (n1 !! "type" = Some (default (VString "object") (schema !! "type")))
    as ->.
  { subst n1. destruct (schema !! "type") as [t|] eqn:Ht; [by rewrite Ht|].
    by rewrite lookup_insert_eq. }
  rewrite Hobj. apply default_key_present.
Qed.

Lemma normalized_schema_version (schema : gmap string Value) :
  validateAndNormalizeJSONSchema schema !! "$schema"
  = Some (default (VString draft07) (schema !! "$schema")).
Proof.
  unfold validateAndNormalizeJSONSchema. rewrite copy_loop. cbv zeta.
  set (n2 := if is_object_type _ then _ else _).
  assert (n2 !! "$schema" = schema !! "$schema") as Hn2.
  { subst n2. destruct (is_object_type _).
    - rewrite default_key_other by done. by apply default_key_other.
    - by apply default_key_other. }
  destruct (n2 !! "$schema") as [v|] eqn:Hv.
  - by rewrite Hv, <- Hn2.
  - by rewrite lookup_insert_eq, <- Hn2.
Qed.

Lemma normalized_properties (schema : gmap string Value) :
  validateAndNormalizeJSONSchema schema !! "properties"
  = if is_object_type (validateAndNormalizeJSONSchema schema !! "type")
    then Some (default (VMap ∅) (schema !! "properties"))
    else schema !! "properties".
Proof.
  rewrite normalized_type.
  unfold validateAndNormalizeJSONSchema. rewrite copy_loop. cbv zeta.
  rewrite default_key_other by done.
  set (n1 := match schema !! "type" with
             | Some _ => schema
             | None => <["type" := VString "object"]> schema
             end).
  assert (n1 !! "type" = Some (default (VString "object") (schema !! "type")))
    as ->.
  { subst n1. destruct (schema !! "type") as [t|] eqn:Ht; [by rewrite Ht|].
    by rewrite lookup_insert_eq. }
  assert (n1 !! "properties" = schema !! "properties") as Hn1
    by (by apply default_key_other).
  destruct (is_object_type _); [|done].
  rewrite Hn1. destruct (schema !! "properties") as [p|] eqn:Hp.
  - by rewrite Hn1.
  - by rewrite lookup_insert_eq.
Qed.

Lemma normalized_other (schema : gmap string Value) (k : string) :
  k ≠ "type" -> k ≠ "properties" -> k ≠ "$schema" ->
  validateAndNormalizeJSONSchema schema !! k = schema !! k.
Proof.
  intros. unfold validateAndNormalizeJSONSchema. rewrite copy_loop. cbv zeta.
  rewrite default_key_other by congruence.
  destruct (is_object_type _); by rewrite ?default_key_other by congruence.
Qed.

(** A schema that already has its three defaults is left as it is. *)
Lemma normalize_fixpoint (m : gmap string Value) :
  is_Some (m !! "type") ->
  (is_object_type (m !! "type") = true -> is_Some (m !! "properties")) ->
  is_Some (m !! "$schema") ->
  validateAndNormalizeJSONSchema m = m.
Proof.
  intros [t Ht] Hp [v Hv].
  unfold validateAndNormalizeJSONSchema. rewrite copy_loop, Ht.
  cbv zeta. rewrite Ht.
  destruct (is_object_type (Some t)) eqn:Hobj.
  - destruct Hp as [p Hprop]; [by rewrite Ht|]. by rewrite Hprop, Hv.
  - by rewrite Hv.
Qed.

Lemma validateAndNormalizeJSONSchema_idempotent (schema : gmap string Value) :
  validateAndNormalizeJSONSchema (validateAndNormalizeJSONSchema schema)
  = validateAndNormalizeJSONSchema schema.
Proof.
  apply normalize_fixpoint.
  - apply normalized_has_type.
  - apply normalized_object_has_properties.
  - apply normalized_has_schema_version.
Qed.

(** Every successful result of [normalizeSchema] is a normalised map. *)
Lemma normalizeSchema_normalized
    (json_Marshal : Value -> result (list Byte.byte))
    (json_Unmarshal : list Byte.byte -> result (gmap string Value))
    (s : Value) (m : gmap string Value) :
  normalizeSchema json_Marshal json_Unmarshal s = Ok m ->
  ∃ decoded, m = validateAndNormalizeJSONSchema decoded.
Proof.
  unfold normalizeSchema. intros H.
  repeat case_match; simplify_eq; eauto.
Qed.

(** C5: normalisation is idempotent.  Whenever [normalizeSchema] succeeds on
    a schema input [s] (a map, JSON text, JSON bytes or any other value) with
    result [m], normalising [m] again succeeds with the identical result. *)
Theorem normalizeSchema_idempotent
    (json_Marshal : Value -> result (list Byte.byte))
    (json_Unmarshal : list Byte.byte -> result (gmap string Value))
    (s : Value) (m : gmap string Value) :
  normalizeSchema json_Marshal json_Unmarshal s = Ok m ->
  normalizeSchema json_Marshal json_Unmarshal (VMap m) = Ok m.
Proof.
  intros H. apply normalizeSchema_normalized in H as [decoded ->].
  cbn [normalizeSchema]. by rewrite validateAndNormalizeJSONSchema_idempotent.
Qed.

Lemma normalizeSchema_idempotent_witness :
  let reject : error := errorString "unsupported" in
  let s := VMap (<["description" := VString "a tool"]> ∅) in
  let m : gmap string Value :=
    <["description" := VString "a tool"]>
    (<["type" := VString "object"]>
    (<["properties" := VMap ∅]>
    (<["$schema" := VString draft07]> ∅))) in
  normalizeSchema (fun _ => Err reject) (fun _ => Err reject) s = Ok m
  ∧ normalizeSchema (fun _ => Err reject) (fun _ => Err reject) (VMap m) = Ok m.
Proof.
  intros reject s m.
  assert (normalizeSchema (fun _ => Err reject) (fun _ => Err reject) s = Ok m)
    as H by (vm_compute; reflexivity).
  split; [exact H|].
  exact (normalizeSchema_idempotent _ _ s m H).
Defined.

(** ** SchemaNormalizer on the heap *)

Section HeapNormaliser.
Import heap.
Implicit Types (h : gmap loc object) (l : loc) (e : gmap string hval).

Lemma mapAssign_run h l e k v :
  h !! l = Some (MapObject e) ->
  mapAssign l k v h = (tt, <[l := MapObject (<[k := v]> e)]> h).
Proof. intros H. unfold mapAssign. by rewrite H. Qed.

Lemma mapIndex_run h l e k :
  h !! l = Some (MapObject e) -> mapIndex (Some l) k h = (e !! k, h).
Proof. intros H. unfold mapIndex, entriesOf. by rewrite H. Qed.

Lemma bind_run {A B} (m : M A) (k : A -> M B) h a h' :
  m h = (a, h') -> (m ≫= k) h = k a h'.
Proof. intros H. unfold mbind, M_bind. by rewrite H. Qed.

Lemma forEach_assign (pairs : list (string * hval)) l h e :
  h !! l = Some (MapObject e) ->
  forEach pairs (fun '(k, v) => mapAssign l k v) h
  = (tt, <[l := MapObject (foldl (fun m kv => <[kv.1 := kv.2]> m) e pairs)]> h).
Proof.
  revert h e. induction pairs as [|[k v] pairs IH]; intros h e H.
  - cbn. unfold mret, M_ret. by rewrite insert_id.
  - cbn [forEach foldl]. erewrite bind_run by (by apply mapAssign_run).
    erewrite IH by apply lookup_insert_eq.
    by rewrite insert_insert_eq.
Qed.

Lemma foldl_insert_list_to_map (pairs : list (string * hval)) :
  foldl (fun (r : gmap string hval) kv => <[kv.1 := kv.2]> r) ∅ pairs
  = list_to_map (reverse pairs).
Proof.
  induction pairs as [|[k v] pairs IH] using rev_ind; [done|].
  by rewrite foldl_snoc, reverse_snoc, IH.
Qed.

Lemma foldl_insert_to_list (m : gmap string hval) :
  foldl (fun (r : gmap string hval) kv => <[kv.1 := kv.2]> r) ∅ (map_to_list m) = m.
Proof.
  rewrite foldl_insert_list_to_map.
  rewrite <- (list_to_map_to_list m) at 2.
  apply list_to_map_proper; [|by rewrite reverse_Permutation].
  rewrite fmap_reverse, reverse_Permutation. apply NoDup_fst_map_to_list.
Qed.

Lemma entriesOf_alloc h (schema : option loc) :
  entriesOf (<[fresh (dom h) := MapObject ∅]> h) schema = entriesOf h schema
  ∧ h !! fresh (dom h) = None.
Proof.
  assert (h !! fresh (dom h) = None) as Hfresh.
  { apply not_elem_of_dom, is_fresh. }
  split; [|done].
  destruct schema as [l|]; [|done]. unfold entriesOf.
  destruct (decide (l = fresh (dom h))) as [->|Hne].
  - by rewrite lookup_insert_eq, Hfresh.
  - by rewrite lookup_insert_ne.
Qed.

Lemma alloc_keeps h l o :
  h !! l = Some o -> <[fresh (dom h) := MapObject ∅]> h !! l = Some o.
Proof.
  intros H. rewrite lookup_insert_ne; [done|].
  intros <-. apply (is_fresh (dom h)). apply elem_of_dom. eauto.
Qed.

Ltac heap_lookup :=
  first [ apply lookup_insert_eq
        | apply alloc_keeps; heap_lookup
        | eassumption ].

Ltac heap_step :=
  first [ erewrite mapIndex_run by heap_lookup
        | erewrite mapAssign_run by heap_lookup
        | rewrite insert_insert_eq ].

Lemma fresh_after_insert h l o :
  fresh (dom (<[l := o]> h)) ≠ l ∧ h !! fresh (dom (<[l := o]> h)) = None.
Proof.
  pose proof (is_fresh (dom (<[l := o]> h))) as Hf. split.
  - intros Heq. apply Hf. rewrite Heq, dom_insert_L. set_solver.
  - apply not_elem_of_dom. intros Hin. apply Hf. rewrite dom_insert_L. set_solver.
Qed.

Lemma validateAndNormalizeJSONSchema_run h (schema : option loc) :
  ∃ h' n,
    validateAndNormalizeJSONSchema schema h = (fresh (dom h), h')
    ∧ normalised_run h schema (fresh (dom h)) h' n.
Proof.
  unfold validateAndNormalizeJSONSchema, mbind, M_bind, makeMap, mapRange.
  destruct (entriesOf_alloc h schema) as [-> Hfresh].
  set (normalized := fresh (dom h)) in *.
  erewrite forEach_assign by apply lookup_insert_eq.
  rewrite foldl_insert_to_list, insert_insert_eq.
  set (src := entriesOf h schema) in *.
  assert (∀ l o, h !! l = Some o -> normalized ≠ l) as Hold.
  { intros l o Hl <-. congruence. }
  heap_step.
  destruct (src !! "type") as [t|] eqn:Htype; unfold mret, M_ret;
    repeat heap_step; rewrite ?Htype, ?lookup_insert_eq;
    destruct (is_object_type _) eqn:Hobj;
    repeat heap_step; rewrite ?lookup_insert_ne by done;
    destruct (src !! "properties") as [p|] eqn:Hprop;
    repeat heap_step; rewrite ?lookup_insert_ne by done;
    destruct (src !! "$schema") as [v|] eqn:Hv;
    repeat heap_step.
  all: eexists _, _; (split; [reflexivity|]).
  all: split;
    [ done
    | heap_lookup
    | intros l o Hl; specialize (Hold l o Hl);
      repeat first [ rewrite lookup_insert_ne by done | apply alloc_keeps ];
      exact Hl
    | intros k x Hk; fold src in Hk;
      repeat (rewrite lookup_insert_ne by (intros <-; congruence)); exact Hk
    | fold src; rewrite ?Htype;
      rewrite ?lookup_insert_ne by done; rewrite ?lookup_insert_eq, ?Htype; done
    | fold src; rewrite ?Hprop;
      rewrite ?lookup_insert_ne by done; rewrite ?lookup_insert_eq, ?Htype;
      intros Hobj'; try congruence;
      rewrite ?lookup_insert_ne by done; rewrite ?lookup_insert_eq; try done;
      try (eexists; split; [reflexivity|];
           destruct (fresh_after_insert h normalized
                       (MapObject (<["type" := HString "object"]> src)));
           destruct (fresh_after_insert h normalized (MapObject src));
           split; [done|]; rewrite lookup_insert_ne by done;
           apply lookup_insert_eq)
    | fold src; rewrite ?lookup_insert_ne by done;
      rewrite ?lookup_insert_eq, ?Htype; intros Hobj'; try congruence;
      try discriminate; rewrite ?lookup_insert_ne by done; done
    | fold src; rewrite ?Hv;
      rewrite ?lookup_insert_ne by done; rewrite ?lookup_insert_eq, ?Hv; done
    | intros k ? ? ?; fold src; by rewrite ?lookup_insert_ne by done ].
Qed.

(** C6: on a schema map without a ["type"] key the normaliser returns a new
    map whose ["type"] is ["object"] and which has a ["properties"] key (a
    new empty map, when the schema had none), and it leaves every object
    the caller's heap held, the schema and all it refers to, as it was. *)
Theorem normalize_schema_without_type (h : gmap loc object) (schema : option loc) :
  entriesOf h schema !! "type" = None ->
  ∃ normalized h',
    validateAndNormalizeJSONSchema schema h = (normalized, h')
    ∧ entriesOf h' (Some normalized) !! "type" = Some (HString "object")
    ∧ is_Some (entriesOf h' (Some normalized) !! "properties")
    ∧ (entriesOf h schema !! "properties" = None ->
       ∃ empty, entriesOf h' (Some normalized) !! "properties" = Some (HMap empty)
                ∧ h !! empty = None ∧ h' !! empty = Some (MapObject ∅))
    ∧ h !! normalized = None
    ∧ ∀ l o, h !! l = Some o -> h' !! l = Some o.
Proof.
  intros Htype.
  destruct (validateAndNormalizeJSONSchema_run h schema) as (h' & n & Hrun & R).
  exists (fresh (dom h)), h'. split; [exact Hrun|].
  destruct R as [Hfresh Hres Hframe _ Hty Hprops _ _ _].
  rewrite Htype in Hty. cbn in Hty.
  assert (entriesOf h' (Some (fresh (dom h))) = n) as ->.
  { unfold entriesOf. by rewrite Hres. }
  assert (is_object_type (n !! "type") = true) as Hobj by (by rewrite Hty).
  specialize (Hprops Hobj).
  split; [exact Hty|]. split.
  - destruct (entriesOf h schema !! "properties"); [eauto|].
    destruct Hprops as (empty & -> & _). eauto.
  - split; [|by split].
    intros Hnone. by rewrite Hnone in Hprops.
Qed.

Lemma normalize_schema_without_type_witness :
  let h : gmap loc object :=
    <[1%positive := MapObject (<["description" := HString "a tool"]> ∅)]> ∅ in
  entriesOf h (Some 1%positive) !! "type" = None
  ∧ ∃ normalized h',
      validateAndNormalizeJSONSchema (Some 1%positive) h = (normalized, h')
      ∧ entriesOf h' (Some normalized) !! "type" = Some (HString "object")
      ∧ is_Some (entriesOf h' (Some normalized) !! "properties")
      ∧ (entriesOf h (Some 1%positive) !! "properties" = None ->
         ∃ empty, entriesOf h' (Some normalized) !! "properties" = Some (HMap empty)
                  ∧ h !! empty = None ∧ h' !! empty = Some (MapObject ∅))
      ∧ h !! normalized = None
      ∧ ∀ l o, h !! l = Some o -> h' !! l = Some o.
Proof.
  intros h.
  assert (entriesOf h (Some 1%positive) !! "type" = None) as H
    by (vm_compute; reflexivity).
  split; [exact H|].
  exact (normalize_schema_without_type h (Some 1%positive) H).
Defined.
End HeapNormaliser.

(** The two embeddings of the normaliser agree.  When the entries of the
    heap schema represent those of a tree schema (under any relation [R]
    that relates equal strings and respects the test for "object"), the
    entries of the heap result represent those of the pure result, the one
    new pair being the freshly made empty map and [VMap ∅]. *)
Section Refinement.
Variable R : heap.hval -> Value -> Prop.
Hypothesis R_string : ∀ s, R (heap.HString s) (VString s).
Hypothesis R_object :
  ∀ hv v, R hv v ->
          heap.is_object_type (Some hv) = is_object_type (Some v).

Lemma heap_normaliser_refines (h : gmap heap.loc heap.object) (schema : option heap.loc)
    (m : gmap string Value) :
  (∀ k, option_Forall2 R (heap.entriesOf h schema !! k) (m !! k)) ->
  ∃ h' n empty,
    heap.validateAndNormalizeJSONSchema schema h = (fresh (dom h), h')
    ∧ h' !! fresh (dom h) = Some (heap.MapObject n)
    ∧ ∀ k, option_Forall2
             (fun hv v =>
                R hv v
                ∨ hv = heap.HMap empty ∧ v = VMap ∅
                  ∧ h !! empty = None ∧ h' !! empty = Some (heap.MapObject ∅))
             (n !! k) (validateAndNormalizeJSONSchema m !! k).
Proof.
  intros Hrel.
  destruct (validateAndNormalizeJSONSchema_run h schema) as (h' & n & Hrun & Rn).
  destruct Rn as [_ Hres _ _ Hty Hprops Hkeep Hver Hother].
  set (src := heap.entriesOf h schema) in *.
  assert (heap.is_object_type (n !! "type")
          = is_object_type
              (validateAndNormalizeJSONSchema m !! "type")) as Hobj.
  { rewrite Hty, normalized_type.
    destruct (Hrel "type") as [hv v Hv|]; cbn; [by apply R_object|done]. }
  assert (∃ empty,
    ∀ k, option_Forall2
           (fun hv v =>
              R hv v
              ∨ hv = heap.HMap empty ∧ v = VMap ∅
                ∧ h !! empty = None ∧ h' !! empty = Some (heap.MapObject ∅))
           (n !! k) (validateAndNormalizeJSONSchema m !! k))
    as [empty H]; [|by exists h', n, empty].
  assert (∀ empty k, k ≠ "properties" ->
    option_Forall2
      (fun hv v =>
         R hv v
         ∨ hv = heap.HMap empty ∧ v = VMap ∅
           ∧ h !! empty = None ∧ h' !! empty = Some (heap.MapObject ∅))
      (n !! k) (validateAndNormalizeJSONSchema m !! k)) as Hrest.
  { intros empty k Hk.
    destruct (decide (k = "type")) as [->|].
    { rewrite Hty, normalized_type. constructor. left.
      destruct (Hrel "type"); cbn; [done|apply R_string]. }
    destruct (decide (k = "$schema")) as [->|].
    { rewrite Hver, normalized_schema_version. constructor. left.
      destruct (Hrel "$schema"); cbn; [done|apply R_string]. }
    rewrite Hother, normalized_other by done.
    destruct (Hrel k); constructor. by left. }
  pose proof (Hrel "properties") as Hrp. fold src in Hrp.
  destruct (heap.is_object_type (n !! "type")) eqn:Hn.
  - specialize (Hprops eq_refl).
    destruct (src !! "properties") as [hp|] eqn:Hsrc.
    + exists 1%positive. intros k.
      destruct (decide (k = "properties")) as [->|]; [|by apply Hrest].
      rewrite Hprops, normalized_properties, <- Hobj.
      inversion Hrp as [? p Hp|]; subst. constructor. by left.
    + destruct Hprops as (empty & Hn_props & Hfresh & Hempty).
      exists empty. intros k.
      destruct (decide (k = "properties")) as [->|]; [|by apply Hrest].
      rewrite Hn_props, normalized_properties, <- Hobj.
      inversion Hrp; subst. constructor. by right.
  - exists 1%positive. intros k.
    destruct (decide (k = "properties")) as [->|]; [|by apply Hrest].
    rewrite (Hkeep eq_refl), normalized_properties, <- Hobj.
    destruct Hrp; constructor. by left.
Qed.
End Refinement.


(** ** Strings and base64 *)

Lemma Split_without_separator (s : string) (sep : ascii) :
  sep ∉ list_ascii_of_string s -> Split s sep = [s].
Proof.
  induction s as [|c s IH]; intros Hs; [done|].
  cbn [list_ascii_of_string] in Hs. apply not_elem_of_cons in Hs as [Hc Hs].
  cbn [Split]. destruct (Ascii.eqb_spec c sep) as [->|_]; [done|].
  by rewrite IH.
Qed.

Lemma Split_at_separator (a b : string) (sep : ascii) :
  sep ∉ list_ascii_of_string a -> sep ∉ list_ascii_of_string b ->
  Split (a +:+ String sep b) sep = [a; b].
Proof.
  intros Ha Hb. induction a as [|c a IH].
  - change ("" +:+ String sep b) with (String sep b).
    cbn [Split]. rewrite Ascii.eqb_refl.
    by rewrite Split_without_separator.
  - cbn [list_ascii_of_string] in Ha. apply not_elem_of_cons in Ha as [Hc Ha].
    change (String c a +:+ String sep b) with (String c (a +:+ String sep b)).
    cbn [Split]. destruct (Ascii.eqb_spec c sep) as [->|_]; [done|].
    by rewrite IH.
Qed.

Lemma base64_sextet_not_comma (c : ascii) (n : N) :
  base64_sextet c = Some n -> c ≠ ","%char.
Proof. intros H ->. vm_compute in H. discriminate. Qed.

Lemma list_ind_by_four {A} (P : list A -> Prop) :
  (∀ l, length l < 4 -> P l)%nat ->
  (∀ a b c d l, P l -> P (a :: b :: c :: d :: l)) ->
  ∀ l, P l.
Proof.
  intros Hshort Hstep l.
  assert (∀ n l, length l <= n -> P l)%nat as H; [|by apply (H (length l))].
  clear l. intros n. induction n as [|n IH]; intros l Hl.
  - apply Hshort. lia.
  - destruct l as [|a [|b [|c [|d l]]]]; try (apply Hshort; cbn; lia).
    apply Hstep, IH. cbn in Hl. lia.
Qed.

Lemma base64_quanta_no_comma (cs : list ascii) (bs : list Byte.byte) :
  base64_quanta cs = Some bs -> ","%char ∉ cs.
Proof.
  revert bs. induction cs as [cs Hshort|c1 c2 c3 c4 rest IH] using list_ind_by_four;
    intros bs H.
  - destruct cs as [|a [|b [|c [|d l]]]]; cbn in *; try discriminate; try lia.
    apply not_elem_of_nil.
  - cbn [base64_quanta] in H.
    destruct (base64_sextet c1) as [a|] eqn:H1; [|discriminate].
    destruct (base64_sextet c2) as [b|] eqn:H2; [|discriminate].
    apply base64_sextet_not_comma in H1, H2.
    assert (c3 ≠ ","%char ∧ c4 ≠ ","%char ∧ ","%char ∉ rest) as (H3 & H4 & Hrest).
    { destruct (base64_sextet c3) as [c|] eqn:H3.
      - apply base64_sextet_not_comma in H3.
        destruct (base64_sextet c4) as [d|] eqn:H4.
        + apply base64_sextet_not_comma in H4.
          destruct (base64_quanta rest) as [tail|] eqn:Htail; [|discriminate].
          eauto.
        + destruct (Ascii.eqb_spec c4 "=") as [->|]; [|discriminate].
          cbn [andb] in H. case_bool_decide as Hnil; [|discriminate]. subst rest.
          repeat split; [done|done|apply not_elem_of_nil].
      - destruct (Ascii.eqb_spec c3 "=") as [->|]; [|discriminate].
        destruct (Ascii.eqb_spec c4 "=") as [->|]; [|discriminate].
        cbn [andb] in H. case_bool_decide as Hnil; [|discriminate]. subst rest.
        repeat split; [done|done|apply not_elem_of_nil]. }
    rewrite !not_elem_of_cons. naive_solver.
Qed.

Lemma base64_DecodeString_no_comma (s : string) (bs : list Byte.byte) :
  base64_DecodeString s = Some bs -> ","%char ∉ list_ascii_of_string s.
Proof.
  unfold base64_DecodeString. intros H Hin.
  apply base64_quanta_no_comma in H. apply H.
  apply list_elem_of_filter. split; [reflexivity|done].
Qed.

(** ** ContentBlockMapper, outbound *)

Lemma parseDataURL_keeps_media_type (content mediaType : string) :
  mediaType ≠ "" -> (parseDataURL content mediaType).2 = mediaType.
Proof.
  intros Hne. unfold parseDataURL.
  destruct (String.eqb_spec mediaType "") as [->|_]; [done|].
  repeat case_match; reflexivity.
Qed.

Lemma parseDataURL_jpeg (b64 mediaType : string) :
  ","%char ∉ list_ascii_of_string b64 ->
  parseDataURL ("data:image/jpeg;base64," +:+ b64) mediaType
  = (b64, if String.eqb mediaType "" then "image/jpeg" else mediaType).
Proof.
  intros Hb64. unfold parseDataURL.
  assert (HasPrefix ("data:image/jpeg;base64," +:+ b64) "data:" = true) as ->
    by reflexivity.
  change ("data:image/jpeg;base64," +:+ b64)
    with ("data:image/jpeg;base64" +:+ String "," b64).
  rewrite Split_at_separator; [reflexivity| |done].
  intros Hin. cbn in Hin.
  repeat (apply elem_of_cons in Hin as [Hin|Hin]; [discriminate|]).
  by apply elem_of_nil in Hin.
Qed.

(** C9, as the code has it: a media part whose payload is the data URL
    [data:image/jpeg;base64,<valid base64>] and whose own MIME field is
    unset or a JPEG type maps to an image block of format [jpeg] holding the
    decoded bytes; a media part whose media type (its own MIME field, or
    the data URL's when that field is unset) is none of png, jpeg, jpg, gif,
    webp maps to an image block of format [png], [image/tiff] for one. *)
Theorem media_part_image_format
    (json_Marshal : Value -> result (list Byte.byte))
    (fmt_Sprint : Value -> string) (part : ai.Part) :
  ai.Part_Kind part = ai.PartMedia ->
  (∀ b64 decoded,
      ai.Part_Text part = "data:image/jpeg;base64," +:+ b64 ->
      base64_DecodeString b64 = Some decoded ->
      ai.Part_ContentType part = "" ∨ ai.Part_ContentType part = "image/jpeg"
        ∨ ai.Part_ContentType part = "image/jpg" ->
      contentBlock json_Marshal fmt_Sprint part
      = Some (types.ContentBlockMemberImage
                {| types.ImageBlock_Format := types.ImageFormatJpeg;
                   types.ImageBlock_Source := decoded |}))
  ∧ (∀ mediaType,
        (parseDataURL (ai.Part_Text part) (ai.Part_ContentType part)).2 = mediaType ->
        mediaType ∉ ["image/png"; "image/jpeg"; "image/jpg"; "image/gif"; "image/webp"] ->
        ∃ imageData,
          contentBlock json_Marshal fmt_Sprint part
          = Some (types.ContentBlockMemberImage
                    {| types.ImageBlock_Format := types.ImageFormatPng;
                       types.ImageBlock_Source := imageData |}))
  ∧ (ai.Part_ContentType part = "image/tiff" ->
     ∃ imageData,
       contentBlock json_Marshal fmt_Sprint part
       = Some (types.ContentBlockMemberImage
                 {| types.ImageBlock_Format := types.ImageFormatPng;
                    types.ImageBlock_Source := imageData |})).
Proof.
  intros Hkind.
  assert (contentBlock json_Marshal fmt_Sprint part = Some (mediaBlock part)) as ->.
  { unfold contentBlock, ai.IsText, ai.IsMedia. rewrite Hkind.
    rewrite bool_decide_eq_false_2 by done. by rewrite bool_decide_eq_true_2. }
  assert (∀ mediaType,
    (parseDataURL (ai.Part_Text part) (ai.Part_ContentType part)).2 = mediaType ->
    mediaType ∉ ["image/png"; "image/jpeg"; "image/jpg"; "image/gif"; "image/webp"] ->
    ∃ imageData,
      Some (mediaBlock part)
      = Some (types.ContentBlockMemberImage
                {| types.ImageBlock_Format := types.ImageFormatPng;
                   types.ImageBlock_Source := imageData |})) as Hdefault.
  { intros mediaType Hmedia Hnot. unfold mediaBlock.
    destruct (parseDataURL _ _) as [content mediaType'] eqn:Hparse.
    cbn in Hmedia. subst mediaType'.
    assert (imageFormat mediaType = types.ImageFormatPng) as ->.
    { unfold imageFormat.
      rewrite !not_elem_of_cons in Hnot.
      destruct Hnot as (?&?&?&?&?&_).
      by repeat (rewrite (proj2 (String.eqb_neq _ _)) by done). }
    eauto. }
  split; [|split; [exact Hdefault|]].
  - intros b64 decoded Htext Hdecode Htype. unfold mediaBlock.
    rewrite Htext, parseDataURL_jpeg
      by (by eapply base64_DecodeString_no_comma).
    rewrite Hdecode.
    by destruct Htype as [-> | [-> | ->]].
  - intros Htiff. apply (Hdefault "image/tiff").
    + rewrite Htiff. by apply parseDataURL_keeps_media_type.
    + intros Hin.
      repeat (apply elem_of_cons in Hin as [Hin|Hin]; [discriminate|]).
      by apply elem_of_nil in Hin.
Qed.

Lemma media_part_image_format_witness :
  let part := ai.NewMediaPart "" "data:image/jpeg;base64,SGVsbG8=" in
  let reject : Value -> result (list Byte.byte) := fun _ => Err (errorString "unsupported") in
  ai.Part_Kind part = ai.PartMedia
  ∧ contentBlock reject (fun _ => "") part
    = Some (types.ContentBlockMemberImage
              {| types.ImageBlock_Format := types.ImageFormatJpeg;
                 types.ImageBlock_Source :=
                   [Byte.x48; Byte.x65; Byte.x6c; Byte.x6c; Byte.x6f] |}).
Proof.
  intros part reject. split; [reflexivity|].
  apply (proj1 (media_part_image_format reject (fun _ => "") part eq_refl)
           "SGVsbG8=" [Byte.x48; Byte.x65; Byte.x6c; Byte.x6c; Byte.x6f]).
  - reflexivity.
  - vm_compute; reflexivity.
  - left; reflexivity.
Defined.

(** C9 as the claim words it fails: the part's own MIME field, when set,
    decides the format, whatever the data URL says.  A part of type
    [image/png] carrying a JPEG data URL maps to format [png]. *)
Lemma data_url_mime_does_not_override_part_mime :
  ¬ ∀ (json_Marshal : Value -> result (list Byte.byte))
      (fmt_Sprint : Value -> string) (part : ai.Part) (b64 : string)
      (decoded : list Byte.byte),
      ai.Part_Kind part = ai.PartMedia ->
      ai.Part_Text part = "data:image/jpeg;base64," +:+ b64 ->
      base64_DecodeString b64 = Some decoded ->
      ∃ imageData,
        contentBlock json_Marshal fmt_Sprint part
        = Some (types.ContentBlockMemberImage
                  {| types.ImageBlock_Format := types.ImageFormatJpeg;
                     types.ImageBlock_Source := imageData |}).
Proof.
  intros H.
  destruct (H (fun _ => Err (errorString "unsupported")) (fun _ => "")
              (ai.NewMediaPart "image/png" "data:image/jpeg;base64,AAAA")
              "AAAA" [Byte.x00; Byte.x00; Byte.x00])
    as [imageData Himage]; [reflexivity | reflexivity | vm_compute; reflexivity |].
  vm_compute in Himage. discriminate.
Qed.


(** ** ConverseRequestBuilder *)

Lemma dropTrailingAssistant_snoc (tools : list ai.ToolDefinition)
    (wire : list types.Message) (lastMessage : types.Message) :
  tools ≠ [] ->
  types.Message_Role lastMessage = types.ConversationRoleAssistant ->
  dropTrailingAssistant tools (wire ++ [lastMessage]) = wire.
Proof.
  intros Htools Hrole. unfold dropTrailingAssistant.
  destruct tools as [|tool tools]; [done|]. cbn [length Nat.ltb Nat.leb andb].
  rewrite length_app. cbn [length].
  replace (length wire + 1 - 1)%nat with (length wire) by lia.
  replace (0 <? length wire + 1)%nat with true by (symmetry; apply Nat.ltb_lt; lia).
  rewrite lookup_app_r, Nat.sub_diag by lia. cbn [lookup list_lookup].
  rewrite Hrole, String.eqb_refl, Nat.add_1_r.
  by rewrite take_app_length.
Qed.

Lemma dropTrailingAssistant_no_tools (messages : list types.Message) :
  dropTrailingAssistant [] messages = messages.
Proof. reflexivity. Qed.

(** C1: take a request with at least one tool whose wire message list, as
    built from its messages, ends with an assistant message.  The request
    sent has that list without this last message; for the same messages
    with no tools, the request sent has the whole list, the assistant
    message last. *)
Theorem trailing_assistant_turn
    (json_Marshal : Value -> result (list Byte.byte))
    (json_Unmarshal : list Byte.byte -> result (gmap string Value))
    (fmt_Sprint : Value -> string) (modelName : string)
    (withTools withoutTools : ai.ModelRequest)
    (wire : list types.Message) (lastMessage : types.Message) :
  ai.ModelRequest_Messages withoutTools = ai.ModelRequest_Messages withTools ->
  ai.ModelRequest_Tools withTools ≠ [] ->
  ai.ModelRequest_Tools withoutTools = [] ->
  (convertMessages json_Marshal fmt_Sprint (ai.ModelRequest_Messages withTools)).1
  = wire ++ [lastMessage] ->
  types.Message_Role lastMessage = types.ConversationRoleAssistant ->
  (∃ converseInput,
      buildConverseInput json_Marshal json_Unmarshal fmt_Sprint modelName withTools
      = Ok converseInput
      ∧ bedrockruntime.ConverseInput_Messages converseInput = wire)
  ∧ (∃ converseInput,
        buildConverseInput json_Marshal json_Unmarshal fmt_Sprint modelName
          withoutTools = Ok converseInput
        ∧ bedrockruntime.ConverseInput_Messages converseInput
          = wire ++ [lastMessage]).
Proof.
  intros Hsame Htools Hnone Hbuilt Hrole.
  unfold buildConverseInput. rewrite Hsame, Hnone.
  destruct (ai.ModelRequest_Messages withTools) as [|msg msgs] eqn:Hmsgs.
  { cbn in Hbuilt. by destruct wire. }
  destruct (convertMessages json_Marshal fmt_Sprint (msg :: msgs))
    as [messages systemPrompts].
  cbn [fst] in Hbuilt. subst messages.
  split; eexists; (split; [reflexivity|]); cbn [bedrockruntime.ConverseInput_Messages].
  - by apply dropTrailingAssistant_snoc.
  - apply dropTrailingAssistant_no_tools.
Qed.

Lemma trailing_assistant_turn_witness :
  let reject : Value -> result (list Byte.byte) :=
    fun _ => Err (errorString "unsupported") in
  let decode : list Byte.byte -> result (gmap string Value) :=
    fun _ => Err (errorString "unsupported") in
  let conversation :=
    [ {| ai.Message_Role := ai.RoleUser;
         ai.Message_Content := [ai.NewTextPart "What is the weather?"] |};
      {| ai.Message_Role := ai.RoleModel;
         ai.Message_Content := [ai.NewTextPart "Let me check."] |} ] in
  let tool := {| ai.ToolDefinition_Name := "weather";
                 ai.ToolDefinition_Description := "Get the weather";
                 ai.ToolDefinition_InputSchema := None |} in
  let withTools := {| ai.ModelRequest_Messages := conversation;
                      ai.ModelRequest_Config := VNil;
                      ai.ModelRequest_Tools := [tool] |} in
  let withoutTools := {| ai.ModelRequest_Messages := conversation;
                         ai.ModelRequest_Config := VNil;
                         ai.ModelRequest_Tools := [] |} in
  let user := {| types.Message_Role := "user";
                 types.Message_Content :=
                   [types.ContentBlockMemberText "What is the weather?"] |} in
  let assistant := {| types.Message_Role := "assistant";
                      types.Message_Content :=
                        [types.ContentBlockMemberText "Let me check."] |} in
  (∃ converseInput,
      buildConverseInput reject decode (fun _ => "") "m" withTools = Ok converseInput
      ∧ bedrockruntime.ConverseInput_Messages converseInput = [user])
  ∧ (∃ converseInput,
        buildConverseInput reject decode (fun _ => "") "m" withoutTools
        = Ok converseInput
        ∧ bedrockruntime.ConverseInput_Messages converseInput = [user] ++ [assistant]).
Proof.
  intros reject decode conversation tool withTools withoutTools user assistant.
  apply (trailing_assistant_turn reject decode (fun _ => "") "m"
           withTools withoutTools [user] assistant);
    [reflexivity | discriminate | reflexivity | vm_compute; reflexivity | reflexivity].
Defined.

(** ** StreamAggregator *)

Section StreamAggregatorProperties.
Context {World : Type}.
Implicit Types (cb : @callback World) (w : World)
  (events rest : list types.ConverseStreamOutput) (st : streamState).

Lemma traced_call cb chunk w calls :
  traced cb chunk (w, calls) = ((cb chunk w).1, ((cb chunk w).2, calls ++ [chunk])).
Proof. unfold traced. by destruct (cb chunk w). Qed.

(** Events other than text deltas never reach the callback. *)
Lemma processEvents_skip cb events rest st w :
  Forall (fun event => isTextDelta event = false) events ->
  ∃ st', fullText st' = fullText st
         ∧ processEvents cb (events ++ rest) st w = processEvents cb rest st' w.
Proof.
  intros Hskip. revert st.
  induction Hskip as [|event events Hevent _ IH]; intros st; [by exists st|].
  cbn [app processEvents].
  destruct event as [[[text|]|]|stopReason|]; try discriminate;
    try apply IH.
  destruct (IH {| fullText := fullText st;
                  finalResponse :=
                    Some (textResponse (fullText st)
                            (convertStopReasonToGenkit stopReason)) |})
    as (st' & Htext & Hrun).
  exists st'. by split.
Qed.

Lemma processEvents_delta cb text rest st w :
  processEvents cb
    (types.ConverseStreamOutputMemberContentBlockDelta
       (Some (types.ContentBlockDeltaMemberText text)) :: rest) st w
  = match cb {| ai.ModelResponseChunk_Index := 0;
                ai.ModelResponseChunk_Content := [ai.NewTextPart text] |} w with
    | (Some err, w') => (Err (wrapError "callback error: " err), w')
    | (None, w') =>
        processEvents cb rest
          {| fullText := fullText st +:+ text; finalResponse := finalResponse st |} w'
    end.
Proof. reflexivity. Qed.
End StreamAggregatorProperties.

(** C3: on a stream that delivers the text deltas "Hel", "lo ", "world" and
    then ends without a message-stop event, the callback is called three
    times, in this order, each time with a chunk holding only the new
    text, and the result is the response with text "Hello world" and
    finish reason "stop".  (The stream is closed afterwards.) *)
Theorem stream_of_three_text_deltas {World : Type}
    (client_ConverseStream :
       bedrockruntime.ConverseStreamInput ->
       result bedrockruntime.ConverseStreamEventStream)
    (input : bedrockruntime.ConverseInput) (originalInput : ai.ModelRequest)
    (streamOutput : bedrockruntime.ConverseStreamEventStream)
    (cb : @callback World) (w0 w1 w2 w3 : World) :
  let delta text :=
    types.ConverseStreamOutputMemberContentBlockDelta
      (Some (types.ContentBlockDeltaMemberText text)) in
  let chunk text :=
    {| ai.ModelResponseChunk_Index := 0;
       ai.ModelResponseChunk_Content := [ai.NewTextPart text] |} in
  client_ConverseStream (streamInput input) = Ok streamOutput ->
  bedrockruntime.Events streamOutput = [delta "Hel"; delta "lo "; delta "world"] ->
  cb (chunk "Hel") w0 = (None, w1) ->
  cb (chunk "lo ") w1 = (None, w2) ->
  cb (chunk "world") w2 = (None, w3) ->
  generateTextStream client_ConverseStream input originalInput (traced cb) (w0, [])
  = (Ok {| ai.ModelResponse_Message :=
             {| ai.Message_Role := ai.RoleModel;
                ai.Message_Content := [ai.NewTextPart "Hello world"] |};
           ai.ModelResponse_FinishReason := "stop";
           ai.ModelResponse_Usage := None |},
     (w3, [chunk "Hel"; chunk "lo "; chunk "world"]),
     Some {| bedrockruntime.Events := bedrockruntime.Events streamOutput;
             bedrockruntime.Closed := true |}).
Proof.
  intros delta chunk Hstream Hevents H1 H2 H3.
  unfold generateTextStream. rewrite Hstream, Hevents.
  subst delta. cbn [processEvents].
  fold (chunk "Hel") (chunk "lo ") (chunk "world").
  rewrite traced_call, H1. cbn [fst snd].
  rewrite traced_call, H2. cbn [fst snd].
  rewrite traced_call, H3. cbn [fst snd].
  rewrite <- Hevents. reflexivity.
Qed.

Lemma stream_of_three_text_deltas_witness :
  let delta text :=
    types.ConverseStreamOutputMemberContentBlockDelta
      (Some (types.ContentBlockDeltaMemberText text)) in
  let chunk text :=
    {| ai.ModelResponseChunk_Index := 0;
       ai.ModelResponseChunk_Content := [ai.NewTextPart text] |} in
  let events := [delta "Hel"; delta "lo "; delta "world"] in
  let client : bedrockruntime.ConverseStreamInput ->
               result bedrockruntime.ConverseStreamEventStream :=
    fun _ => Ok {| bedrockruntime.Events := events;
                   bedrockruntime.Closed := false |} in
  let input :=
    {| bedrockruntime.ConverseInput_ModelId := Some "m";
       bedrockruntime.ConverseInput_Messages := [];
       bedrockruntime.ConverseInput_System := [];
       bedrockruntime.ConverseInput_InferenceConfig := None;
       bedrockruntime.ConverseInput_ToolConfig := None |} in
  let request := {| ai.ModelRequest_Messages := [];
                    ai.ModelRequest_Config := VNil;
                    ai.ModelRequest_Tools := [] |} in
  let count : @callback nat := fun _ n => (None, S n) in
  generateTextStream client input request (traced count) (0%nat, [])
  = (Ok {| ai.ModelResponse_Message :=
             {| ai.Message_Role := ai.RoleModel;
                ai.Message_Content := [ai.NewTextPart "Hello world"] |};
           ai.ModelResponse_FinishReason := "stop";
           ai.ModelResponse_Usage := None |},
     (3%nat, [chunk "Hel"; chunk "lo "; chunk "world"]),
     Some {| bedrockruntime.Events := events; bedrockruntime.Closed := true |}).
Proof.
  intros delta chunk events client input request count.
  apply (stream_of_three_text_deltas client input request
           {| bedrockruntime.Events := events; bedrockruntime.Closed := false |}
           count 0%nat 1%nat 2%nat 3%nat); reflexivity.
Defined.

(** C4: when the callback fails on the second text delta of a stream, it has
    been called exactly twice, the operation returns the callback's error
    (wrapped as "callback error: ...") and no response, and the stream has
    been closed. *)
Theorem stream_callback_failure_on_second_delta {World : Type}
    (client_ConverseStream :
       bedrockruntime.ConverseStreamInput ->
       result bedrockruntime.ConverseStreamEventStream)
    (input : bedrockruntime.ConverseInput) (originalInput : ai.ModelRequest)
    (streamOutput : bedrockruntime.ConverseStreamEventStream)
    (before between after : list types.ConverseStreamOutput)
    (text1 text2 : string)
    (cb : @callback World) (w0 w1 w2 : World) (failure : error) :
  let delta text :=
    types.ConverseStreamOutputMemberContentBlockDelta
      (Some (types.ContentBlockDeltaMemberText text)) in
  let chunk text :=
    {| ai.ModelResponseChunk_Index := 0;
       ai.ModelResponseChunk_Content := [ai.NewTextPart text] |} in
  client_ConverseStream (streamInput input) = Ok streamOutput ->
  bedrockruntime.Events streamOutput
  = before ++ delta text1 :: between ++ delta text2 :: after ->
  Forall (fun event => isTextDelta event = false) before ->
  Forall (fun event => isTextDelta event = false) between ->
  cb (chunk text1) w0 = (None, w1) ->
  cb (chunk text2) w1 = (Some failure, w2) ->
  generateTextStream client_ConverseStream input originalInput (traced cb) (w0, [])
  = (Err (wrapError "callback error: " failure),
     (w2, [chunk text1; chunk text2]),
     Some {| bedrockruntime.Events := bedrockruntime.Events streamOutput;
             bedrockruntime.Closed := true |}).
Proof.
  intros delta chunk Hstream Hevents Hbefore Hbetween H1 H2.
  subst delta. cbv beta in Hevents.
  unfold generateTextStream. rewrite Hstream, Hevents.
  destruct (processEvents_skip (traced cb) before
              (types.ConverseStreamOutputMemberContentBlockDelta
                 (Some (types.ContentBlockDeltaMemberText text1))
               :: between
                  ++ types.ConverseStreamOutputMemberContentBlockDelta
                       (Some (types.ContentBlockDeltaMemberText text2)) :: after)
              {| fullText := ""; finalResponse := None |} (w0, []) Hbefore)
    as (st1 & _ & ->).
  rewrite processEvents_delta. fold (chunk text1).
  rewrite traced_call, H1. cbn [fst snd].
  destruct (processEvents_skip (traced cb) between
              (types.ConverseStreamOutputMemberContentBlockDelta
                 (Some (types.ContentBlockDeltaMemberText text2)) :: after)
              {| fullText := fullText st1 +:+ text1;
                 finalResponse := finalResponse st1 |} (w1, [] ++ [chunk text1]) Hbetween)
    as (st2 & _ & ->).
  rewrite processEvents_delta. fold (chunk text2).
  rewrite traced_call, H2. cbn [fst snd].
  rewrite <- Hevents. reflexivity.
Qed.

Lemma stream_callback_failure_on_second_delta_witness :
  let delta text :=
    types.ConverseStreamOutputMemberContentBlockDelta
      (Some (types.ContentBlockDeltaMemberText text)) in
  let chunk text :=
    {| ai.ModelResponseChunk_Index := 0;
       ai.ModelResponseChunk_Content := [ai.NewTextPart text] |} in
  let events :=
    [types.ConverseStreamOutputMemberOther; delta "Hel"; delta "lo ";
     delta "world"; types.ConverseStreamOutputMemberMessageStop "end_turn"] in
  let client : bedrockruntime.ConverseStreamInput ->
               result bedrockruntime.ConverseStreamEventStream :=
    fun _ => Ok {| bedrockruntime.Events := events;
                   bedrockruntime.Closed := false |} in
  let input :=
    {| bedrockruntime.ConverseInput_ModelId := Some "m";
       bedrockruntime.ConverseInput_Messages := [];
       bedrockruntime.ConverseInput_System := [];
       bedrockruntime.ConverseInput_InferenceConfig := None;
       bedrockruntime.ConverseInput_ToolConfig := None |} in
  let request := {| ai.ModelRequest_Messages := [];
                    ai.ModelRequest_Config := VNil;
                    ai.ModelRequest_Tools := [] |} in
  let failSecond : @callback nat :=
    fun _ n => (if (n =? 1)%nat then Some (errorString "client went away") else None,
                S n) in
  generateTextStream client input request (traced failSecond) (0%nat, [])
  = (Err (wrapError "callback error: " (errorString "client went away")),
     (2%nat, [chunk "Hel"; chunk "lo "]),
     Some {| bedrockruntime.Events := events; bedrockruntime.Closed := true |}).
Proof.
  intros delta chunk events client input request failSecond.
  apply (stream_callback_failure_on_second_delta client input request
           {| bedrockruntime.Events := events; bedrockruntime.Closed := false |}
           [types.ConverseStreamOutputMemberOther] []
           [delta "world"; types.ConverseStreamOutputMemberMessageStop "end_turn"]
           "Hel" "lo " failSecond 0%nat 1%nat 2%nat
           (errorString "client went away"));
    try reflexivity; repeat constructor.
Defined.

(** ** Response conversion *)

(** C10: the converted response has a message of the model role whose
    content is never empty: the parts extracted from the wire output, or,
    when there are none, the single part [NewTextPart ""]. *)
Theorem converted_response_has_content
    (ParseFloat Number_Float64 : string -> option spec_float)
    (Number_Int64 : string -> option Z)
    (UnmarshalSmithyDocument : document.Interface -> result (gmap string Value))
    (response : bedrockruntime.ConverseOutput) (originalInput : ai.ModelRequest) :
  let converted :=
    convertResponse ParseFloat Number_Float64 Number_Int64 UnmarshalSmithyDocument
      response originalInput in
  let extracted :=
    extractContent ParseFloat Number_Float64 Number_Int64 UnmarshalSmithyDocument
      response originalInput in
  ai.Message_Role (ai.ModelResponse_Message converted) = ai.RoleModel
  ∧ ai.Message_Content (ai.ModelResponse_Message converted) ≠ []
  ∧ ai.Message_Content (ai.ModelResponse_Message converted)
    = match extracted with
      | [] => [ai.NewTextPart ""]
      | _ :: _ => extracted
      end.
Proof.
  intros converted extracted. subst converted. unfold convertResponse.
  fold extracted. cbn [ai.ModelResponse_Message ai.Message_Role ai.Message_Content].
  split; [reflexivity|].
  destruct extracted as [|part parts]; cbn; split; done.
Qed.

(** ** Image and embedding adapters *)

Section AdapterProperties.
Variable client_InvokeModel :
  bedrockruntime.InvokeModelInput -> result bedrockruntime.InvokeModelOutput.
Variable json_Marshal : Value -> result (list Byte.byte).
Variable json_Unmarshal_Images : list Byte.byte -> result (list string).
Variable json_Unmarshal_Artifacts : list Byte.byte -> result (list artifact).
Variable json_Unmarshal_Embedding : list Byte.byte -> result (list spec_float).
Variable json_Unmarshal_Embeddings :
  list Byte.byte -> result (list (list spec_float)).

Lemma generateTitanImage_ok modelName prompt config response :
  generateTitanImage client_InvokeModel json_Marshal json_Unmarshal_Images
    modelName prompt config = Ok response ->
  ∃ wire image0 images,
    json_Unmarshal_Images (bedrockruntime.InvokeModelOutput_Body wire)
    = Ok (image0 :: images)
    ∧ response = imageResponse image0.
Proof.
  unfold generateTitanImage. intros H.
  destruct (invoke _ _ _ _) as [wire|]; [|discriminate].
  destruct (json_Unmarshal_Images _) as [[|image0 images]|] eqn:Hparse;
    try discriminate.
  injection H as <-. eauto.
Qed.

Lemma generateNovaCanvasImage_ok modelName prompt config response :
  generateNovaCanvasImage client_InvokeModel json_Marshal json_Unmarshal_Images
    modelName prompt config = Ok response ->
  ∃ wire image0 images,
    json_Unmarshal_Images (bedrockruntime.InvokeModelOutput_Body wire)
    = Ok (image0 :: images)
    ∧ response = imageResponse image0.
Proof.
  unfold generateNovaCanvasImage. intros H.
  destruct (invoke _ _ _ _) as [wire|]; [|discriminate].
  destruct (json_Unmarshal_Images _) as [[|image0 images]|] eqn:Hparse;
    try discriminate.
  injection H as <-. eauto.
Qed.

Lemma generateStableDiffusionImage_ok modelName prompt config response :
  generateStableDiffusionImage client_InvokeModel json_Marshal
    json_Unmarshal_Artifacts modelName prompt config = Ok response ->
  ∃ wire artifact0 artifacts,
    json_Unmarshal_Artifacts (bedrockruntime.InvokeModelOutput_Body wire)
    = Ok (artifact0 :: artifacts)
    ∧ response = imageResponse (artifact_Base64 artifact0).
Proof.
  unfold generateStableDiffusionImage. intros H.
  destruct (invoke _ _ _ _) as [wire|]; [|discriminate].
  destruct (json_Unmarshal_Artifacts _) as [[|artifact0 artifacts]|] eqn:Hparse;
    try discriminate.
  injection H as <-. eauto.
Qed.

Lemma getCohereEmbedding_ok modelName text embedding :
  getCohereEmbedding client_InvokeModel json_Marshal json_Unmarshal_Embeddings
    modelName text = Ok embedding ->
  ∃ wire embeddings,
    json_Unmarshal_Embeddings (bedrockruntime.InvokeModelOutput_Body wire)
    = Ok (embedding :: embeddings).
Proof.
  unfold getCohereEmbedding. intros H.
  destruct (invoke _ _ _ _) as [wire|]; [|discriminate].
  destruct (json_Unmarshal_Embeddings _) as [[|embedding0 embeddings]|] eqn:Hparse;
    try discriminate.
  injection H as <-. eauto.
Qed.

(** The adapters that check.  When the service answers [wire] and [wire]
    parses to zero images, artifacts or embeddings, each of them returns its
    "no images generated" / "no embeddings returned" error. *)
Lemma checked_adapters_reject_empty_result modelName prompt config text wire :
  (∀ requestBody,
      invoke client_InvokeModel json_Marshal modelName requestBody = Ok wire) ->
  json_Unmarshal_Images (bedrockruntime.InvokeModelOutput_Body wire) = Ok [] ->
  json_Unmarshal_Artifacts (bedrockruntime.InvokeModelOutput_Body wire) = Ok [] ->
  json_Unmarshal_Embeddings (bedrockruntime.InvokeModelOutput_Body wire) = Ok [] ->
  generateTitanImage client_InvokeModel json_Marshal json_Unmarshal_Images
    modelName prompt config = Err (errorString "no images generated")
  ∧ generateStableDiffusionImage client_InvokeModel json_Marshal
      json_Unmarshal_Artifacts modelName prompt config
    = Err (errorString "no images generated")
  ∧ generateNovaCanvasImage client_InvokeModel json_Marshal json_Unmarshal_Images
      modelName prompt config = Err (errorString "no images generated")
  ∧ getCohereEmbedding client_InvokeModel json_Marshal json_Unmarshal_Embeddings
      modelName text = Err (errorString "no embeddings returned").
Proof.
  intros Hinvoke HI HA HE.
  unfold generateTitanImage, generateStableDiffusionImage,
    generateNovaCanvasImage, getCohereEmbedding.
  by rewrite !Hinvoke, HI, HA, HE.
Qed.
End AdapterProperties.

(** C2 fails for the Titan embedding adapter: unlike its siblings, it does
    not check the parsed vector.  When the service's answer parses to an
    empty embedding, [getTitanEmbedding] returns the empty vector with no
    error, and [embed] returns a response holding that empty embedding. *)
Theorem titan_embedding_accepts_empty_result
    (client_InvokeModel :
       bedrockruntime.InvokeModelInput -> result bedrockruntime.InvokeModelOutput)
    (json_Marshal : Value -> result (list Byte.byte))
    (json_Unmarshal_Embedding : list Byte.byte -> result (list spec_float))
    (json_Unmarshal_Embeddings : list Byte.byte -> result (list (list spec_float)))
    (modelName : string) (doc : ai.Document)
    (wire : bedrockruntime.InvokeModelOutput) :
  (∀ requestBody,
      invoke client_InvokeModel json_Marshal modelName requestBody = Ok wire) ->
  json_Unmarshal_Embedding (bedrockruntime.InvokeModelOutput_Body wire) = Ok [] ->
  Contains modelName "titan" = true ->
  documentText doc ≠ "" ->
  getTitanEmbedding client_InvokeModel json_Marshal json_Unmarshal_Embedding
    modelName (documentText doc) = Ok []
  ∧ embed client_InvokeModel json_Marshal json_Unmarshal_Embedding
      json_Unmarshal_Embeddings modelName {| ai.EmbedRequest_Input := [doc] |}
    = Ok {| ai.EmbedResponse_Embeddings := [{| ai.Embedding_Embedding := [] |}] |}.
Proof.
  intros Hinvoke Hparse Htitan Htext.
  assert (getTitanEmbedding client_InvokeModel json_Marshal
            json_Unmarshal_Embedding modelName (documentText doc) = Ok []) as Hget.
  { unfold getTitanEmbedding. by rewrite Hinvoke, Hparse. }
  split; [exact Hget|].
  unfold embed. cbn [ai.EmbedRequest_Input embedDocuments].
  rewrite (proj2 (String.eqb_neq _ _) Htext), Htitan, Hget. reflexivity.
Qed.

Lemma titan_embedding_accepts_empty_result_witness :
  let client : bedrockruntime.InvokeModelInput ->
               result bedrockruntime.InvokeModelOutput :=
    fun _ => Ok {| bedrockruntime.InvokeModelOutput_Body :=
                     list_byte_of_string "{}" |} in
  let marshal : Value -> result (list Byte.byte) := fun _ => Ok [] in
  let no_embedding : list Byte.byte -> result (list spec_float) := fun _ => Ok [] in
  let no_embeddings : list Byte.byte -> result (list (list spec_float)) :=
    fun _ => Ok [] in
  let doc := {| ai.Document_Content := [ai.NewTextPart "hello"] |} in
  getTitanEmbedding client marshal no_embedding
    "amazon.titan-embed-text-v1" (documentText doc) = Ok []
  ∧ embed client marshal no_embedding no_embeddings "amazon.titan-embed-text-v1"
      {| ai.EmbedRequest_Input := [doc] |}
    = Ok {| ai.EmbedResponse_Embeddings := [{| ai.Embedding_Embedding := [] |}] |}.
Proof.
  intros client marshal no_embedding no_embeddings doc.
  apply (titan_embedding_accepts_empty_result client marshal no_embedding
           no_embeddings "amazon.titan-embed-text-v1" doc
           {| bedrockruntime.InvokeModelOutput_Body := list_byte_of_string "{}" |});
    [reflexivity | reflexivity | vm_compute; reflexivity | discriminate].
Defined.

(** * Further properties *)

(** ** ValueCoercer, continued *)

Section CoercerProperties.
Variable ParseFloat : string -> option spec_float.
Variable Number_Float64 : string -> option spec_float.
Variable Number_Int64 : string -> option Z.

Abbreviation convertValue := (convertValueWithSchema ParseFloat Number_Float64 Number_Int64).
Abbreviation convertMap := (convertMapWithSchema ParseFloat Number_Float64 Number_Int64).

(** What the loop of [convertMapWithSchema] leaves under each key. *)
Lemma convert_loop_lookup
    (convert : Value -> option (gmap string Value) -> Value)
    (properties inputMap : gmap string Value) (key : string) :
  map_fold
    (fun key value (result : gmap string Value) =>
       match properties !! key with
       | Some (VMap propSchemaMap) =>
           <[key := convert value (Some propSchemaMap)]> result
       | Some _ => <[key := value]> result
       | None => <[key := value]> result
       end) ∅ inputMap !! key
  = (fun value =>
       match properties !! key with
       | Some (VMap propSchemaMap) => convert value (Some propSchemaMap)
       | _ => value
       end) <$> inputMap !! key.
Proof.
  revert key.
  apply (map_fold_weak_ind
           (fun (result : gmap string Value) (m : gmap string Value) =>
              ∀ key, result !! key
                     = (fun value =>
                          match properties !! key with
                          | Some (VMap propSchemaMap) =>
                              convert value (Some propSchemaMap)
                          | _ => value
                          end) <$> m !! key)).
  - intros key. by rewrite !lookup_empty.
  - intros i x m r Hi IH key.
    destruct (decide (i = key)) as [->|Hne].
    + rewrite lookup_insert_eq. cbn.
      destruct (properties !! key) as [[]|]; by rewrite lookup_insert_eq.
    + rewrite (lookup_insert_ne m) by done. rewrite <- IH.
      destruct (properties !! i) as [[]|]; by rewrite lookup_insert_ne.
Qed.

Lemma Value_size_slice (l : list Value) (x : Value) :
  x ∈ l -> (Value_size x < Value_size (VSlice l))%nat.
Proof.
  intros Hx. cbn [Value_size].
  induction Hx as [x l|x y l _ IH]; cbn [foldr]; lia.
Qed.

Lemma Value_size_map (m : gmap string Value) (k : string) (x : Value) :
  m !! k = Some x -> (Value_size x < Value_size (VMap m))%nat.
Proof.
  cbn [Value_size]. intros Hk.
  assert (Value_size x <= map_fold (fun _ x n => Value_size x + n) 0 m)%nat; [|lia].
  revert Hk.
  apply (map_fold_weak_ind
           (fun (n : nat) (m : gmap string Value) =>
              m !! k = Some x -> Value_size x <= n)%nat).
  - by rewrite lookup_empty.
  - intros i y m' n _ IH Hk.
    destruct (decide (i = k)) as [->|Hne].
    + rewrite lookup_insert_eq in Hk. injection Hk as ->. lia.
    + rewrite lookup_insert_ne in Hk by done. specialize (IH Hk). lia.
Qed.

(** What the three scalar blocks can produce, by declared type. *)
Lemma convert_scalar_shape (value r : Value) (schemaType : string) :
  convertDocNumber Number_Float64 Number_Int64 value schemaType = Some r
  ∨ convertString ParseFloat value schemaType = Some r
  ∨ convertNumeric value schemaType = Some r ->
  (schemaType = "number" ∧ ∃ f, r = VFloat64 f)
  ∨ (schemaType = "integer" ∧ ∃ z, r = VInt64 z)
  ∨ (schemaType = "boolean" ∧ ∃ b, r = VBool b).
Proof.
  unfold convertDocNumber, convertString, convertNumeric.
  destruct (String.eqb_spec schemaType "number") as [->|_];
    [|destruct (String.eqb_spec schemaType "integer") as [->|_];
      [|destruct (String.eqb_spec schemaType "boolean") as [->|_]]];
    cbn [orb String.eqb Ascii.eqb Bool.eqb];
    intros [H|[H|H]]; destruct value; try discriminate;
    repeat match type of H with
           | (_ <$> ?o) = Some _ => destruct o; cbn in H
           | match ?o with _ => _ end = Some _ => destruct o
           end;
    try discriminate; injection H as <-; eauto 6.
Qed.

(** A second pass over such a result changes nothing. *)
Lemma convert_scalar_settled (r : Value) (sch : gmap string Value)
    (schemaType : string) :
  lookup_string sch "type" = Some schemaType ->
  (schemaType = "number" ∧ ∃ f, r = VFloat64 f)
  ∨ (schemaType = "integer" ∧ ∃ z, r = VInt64 z)
  ∨ (schemaType = "boolean" ∧ ∃ b, r = VBool b) ->
  convertValue r (Some sch) = r.
Proof.
  intros Htype [[-> [f ->]]|[[-> [z ->]]|[-> [b ->]]]];
    cbn [convertValueWithSchema]; rewrite Htype; reflexivity.
Qed.

Lemma convertValue_nil_schema (value : Value) : convertValue value None = value.
Proof. by destruct value. Qed.

Lemma convertValue_untyped (value : Value) (sch : gmap string Value) :
  lookup_string sch "type" = None -> convertValue value (Some sch) = value.
Proof. intros H. destruct value; cbn [convertValueWithSchema]; by rewrite H. Qed.

(** The body of [convertValueWithSchema] once the declared type is known. *)
Lemma convertValue_typed (value : Value) (sch : gmap string Value)
    (schemaType : string) :
  lookup_string sch "type" = Some schemaType ->
  convertValue value (Some sch)
  = match convertDocNumber Number_Float64 Number_Int64 value schemaType with
    | Some r => r
    | None =>
    match convertString ParseFloat value schemaType with
    | Some r => r
    | None =>
    match convertNumeric value schemaType with
    | Some r => r
    | None =>
    match value with
    | VSlice arrayValue =>
        if String.eqb schemaType "array" then
          match lookup_map sch "items" with
          | Some items =>
              VSlice (map (fun item => convertValue item (Some items)) arrayValue)
          | None => value
          end
        else value
    | VMap mapValue =>
        if String.eqb schemaType "object" then
          VMap (convertMap mapValue (Some sch))
        else value
    | _ => value
    end end end end.
Proof. intros H. destruct value; cbn [convertValueWithSchema]; by rewrite H. Qed.

Lemma convertNumeric_container (value : Value) (schemaType : string) :
  (∃ l, value = VSlice l) ∨ (∃ m, value = VMap m) ->
  convertDocNumber Number_Float64 Number_Int64 value schemaType = None
  ∧ convertString ParseFloat value schemaType = None
  ∧ convertNumeric value schemaType = None.
Proof.
  intros [[l ->]|[m ->]]; unfold convertNumeric; cbn;
    by repeat case_match.
Qed.

Lemma convertValue_idempotent_aux (n : nat) :
  ∀ value schema, (Value_size value < n)%nat ->
    convertValue (convertValue value schema) schema = convertValue value schema.
Proof.
  induction n as [|n IH]; intros value schema Hsize; [lia|].
  destruct schema as [sch|]; [|by rewrite !convertValue_nil_schema].
  destruct (lookup_string sch "type") as [schemaType|] eqn:Htype;
    [|by rewrite !convertValue_untyped].
  rewrite (convertValue_typed value sch schemaType Htype).
  destruct (convertDocNumber _ _ value schemaType) as [r|] eqn:H1;
    [eapply convert_scalar_settled, convert_scalar_shape; eauto|].
  destruct (convertString _ value schemaType) as [r|] eqn:H2;
    [eapply convert_scalar_settled, convert_scalar_shape; eauto|].
  destruct (convertNumeric value schemaType) as [r|] eqn:H3;
    [eapply convert_scalar_settled, convert_scalar_shape; eauto|].
  destruct value as [| | | | | | | | | | |arrayValue| |mapValue|];
    try (rewrite (convertValue_typed _ sch schemaType Htype), H1, H2, H3; reflexivity).
  - (* slices *)
    destruct (String.eqb schemaType "array") eqn:Harray;
      [|by rewrite (convertValue_typed _ sch schemaType Htype), H1, H2, H3, Harray].
    destruct (lookup_map sch "items") as [items|] eqn:Hitems;
      [|by rewrite (convertValue_typed _ sch schemaType Htype), H1, H2, H3, Harray, Hitems].
    rewrite (convertValue_typed _ sch schemaType Htype).
    destruct (convertNumeric_container (VSlice (map (fun item => convertValue item (Some items)) arrayValue)) schemaType)
      as (-> & -> & ->); [eauto|].
    rewrite Harray, Hitems. f_equal.
    rewrite map_map. apply map_ext_in. intros item Hitem.
    apply IH. apply list_elem_of_In, Value_size_slice in Hitem. lia.
  - (* maps *)
    destruct (String.eqb_spec schemaType "object") as [->|Hobject];
      [|by rewrite (convertValue_typed _ sch schemaType Htype), H1, H2, H3,
           (proj2 (String.eqb_neq _ _) Hobject)].
    rewrite (convertValue_typed _ sch "object" Htype).
    destruct (convertNumeric_container (VMap (convertMap mapValue (Some sch))) "object")
      as (-> & -> & ->); [eauto|].
    cbn [String.eqb Ascii.eqb Bool.eqb]. f_equal.
    unfold convertMapWithSchema, convertMapWith. rewrite Htype.
    cbn [String.eqb Ascii.eqb Bool.eqb].
    destruct (lookup_map sch "properties") as [properties|]; [|reflexivity].
    apply map_eq. intros key. rewrite !convert_loop_lookup.
    destruct (mapValue !! key) as [x|] eqn:Hkey; [|reflexivity]. cbn.
    destruct (properties !! key) as [[]|]; try reflexivity.
    f_equal. apply IH. apply Value_size_map in Hkey. lia.
Qed.

End CoercerProperties.

(** X1: coercing twice is coercing once.  Whatever the schema and whatever
    the number parsers do, a value that has been through
    [convertValueWithSchema] comes back unchanged from a second pass with
    the same schema. *)
Theorem coercion_is_idempotent
    (ParseFloat Number_Float64 : string -> option spec_float)
    (Number_Int64 : string -> option Z)
    (value : Value) (schema : option (gmap string Value)) :
  convertValueWithSchema ParseFloat Number_Float64 Number_Int64
    (convertValueWithSchema ParseFloat Number_Float64 Number_Int64 value schema)
    schema
  = convertValueWithSchema ParseFloat Number_Float64 Number_Int64 value schema.
Proof.
  apply (convertValue_idempotent_aux ParseFloat Number_Float64 Number_Int64
           (S (Value_size value))).
  lia.
Qed.

(** X2: under an object schema with [properties], the value the coercer
    leaves under a key is the input's value under that key, coerced with
    the key's property schema when that is a map and untouched otherwise;
    a key the input lacks stays absent. *)
Theorem coerced_map_entry
    (ParseFloat Number_Float64 : string -> option spec_float)
    (Number_Int64 : string -> option Z)
    (inputMap sch properties : gmap string Value) (key : string) :
  lookup_string sch "type" = Some "object" ->
  lookup_map sch "properties" = Some properties ->
  convertMapWithSchema ParseFloat Number_Float64 Number_Int64 inputMap (Some sch)
    !! key
  = (fun value =>
       match properties !! key with
       | Some (VMap propSchemaMap) =>
           convertValueWithSchema ParseFloat Number_Float64 Number_Int64
             value (Some propSchemaMap)
       | _ => value
       end) <$> inputMap !! key.
Proof.
  intros Htype Hprops. unfold convertMapWithSchema, convertMapWith.
  rewrite Htype, Hprops. cbn [String.eqb Ascii.eqb Bool.eqb].
  apply convert_loop_lookup.
Qed.

Lemma coerced_map_entry_witness :
  let sch : gmap string Value :=
    NewObjectSchema (<["n" := VMap (NewNumberSchema "" None None)]> ∅) [] in
  let inputMap : gmap string Value :=
    <["n" := VString "2.5"]> (<["note" := VString "7"]> ∅) in
  let coerced :=
    convertMapWithSchema ParseFloat_decimal ParseFloat_decimal ParseInt_decimal
      inputMap (Some sch) in
  coerced !! "n" = Some (VFloat64 (S754_finite false 5629499534213120 (-51)))
  ∧ coerced !! "note" = Some (VString "7")
  ∧ coerced !! "absent" = None.
Proof.
  intros sch inputMap coerced. subst coerced.
  rewrite !(coerced_map_entry ParseFloat_decimal ParseFloat_decimal
              ParseInt_decimal inputMap sch
              (<["n" := VMap (NewNumberSchema "" None None)]> ∅))
    by (vm_compute; reflexivity).
  repeat split; vm_compute; reflexivity.
Defined.

(** X3: a declared type other than number, integer, boolean, array and
    object leaves every value as it is. *)
Theorem other_declared_types_pass_through
    (ParseFloat Number_Float64 : string -> option spec_float)
    (Number_Int64 : string -> option Z)
    (value : Value) (sch : gmap string Value) (schemaType : string) :
  lookup_string sch "type" = Some schemaType ->
  schemaType ∉ ["number"; "integer"; "boolean"; "array"; "object"] ->
  convertValueWithSchema ParseFloat Number_Float64 Number_Int64 value (Some sch)
  = value.
Proof.
  intros Htype Hother.
  rewrite !not_elem_of_cons in Hother. destruct Hother as (Hn & Hi & Hb & Ha & Ho & _).
  apply String.eqb_neq in Hn, Hi, Hb, Ha, Ho.
  rewrite (convertValue_typed _ _ _ value sch schemaType Htype).
  unfold convertDocNumber, convertString, convertNumeric.
  rewrite Hn, Hi, Hb, Ha, Ho. by destruct value.
Qed.

Lemma other_declared_types_pass_through_witness :
  convertValueWithSchema ParseFloat_decimal ParseFloat_decimal ParseInt_decimal
    (VString "42") (Some (NewStringSchema "a name" [])) = VString "42".
Proof.
  apply (other_declared_types_pass_through _ _ _ _ _ "string").
  - vm_compute; reflexivity.
  - intros Hin.
    repeat (apply elem_of_cons in Hin as [Hin|Hin]; [discriminate|]).
    by apply elem_of_nil in Hin.
Defined.

(** X4: a sequence stays a sequence of the same length under every schema,
    and under an array schema with [items] its elements are coerced one by
    one, in place. *)
Theorem coerced_slice
    (ParseFloat Number_Float64 : string -> option spec_float)
    (Number_Int64 : string -> option Z)
    (arrayValue : list Value) (schema : option (gmap string Value)) :
  ∃ result,
    convertValueWithSchema ParseFloat Number_Float64 Number_Int64
      (VSlice arrayValue) schema = VSlice result
    ∧ length result = length arrayValue
    ∧ result
      = match schema with
        | Some sch =>
            match lookup_string sch "type", lookup_map sch "items" with
            | Some schemaType, Some items =>
                if String.eqb schemaType "array" then
                  map (fun item =>
                         convertValueWithSchema ParseFloat Number_Float64
                           Number_Int64 item (Some items)) arrayValue
                else arrayValue
            | _, _ => arrayValue
            end
        | None => arrayValue
        end.
Proof.
  destruct schema as [sch|]; [|by exists arrayValue].
  destruct (lookup_string sch "type") as [schemaType|] eqn:Htype.
  2: { exists arrayValue. by rewrite convertValue_untyped. }
  rewrite (convertValue_typed _ _ _ _ sch schemaType Htype).
  destruct (convertNumeric_container ParseFloat Number_Float64 Number_Int64
              (VSlice arrayValue) schemaType) as (-> & -> & ->); [eauto|].
  destruct (lookup_map sch "items") as [items|];
    destruct (String.eqb schemaType "array");
    eexists; (split; [reflexivity|]); split; try reflexivity.
  by rewrite length_map.
Qed.

(** X5: a tool call is coerced with the schema of the first tool definition
    that has the call's name; definitions after it, of the same name or
    not, play no part, and a nil schema there leaves the input as it is. *)
Theorem tool_input_uses_first_matching_tool
    (ParseFloat Number_Float64 : string -> option spec_float)
    (Number_Int64 : string -> option Z)
    (inputMap : gmap string Value) (toolName : string)
    (before after : list ai.ToolDefinition) (tool : ai.ToolDefinition) :
  Forall (fun other => ai.ToolDefinition_Name other ≠ toolName) before ->
  ai.ToolDefinition_Name tool = toolName ->
  convertToolInputTypes ParseFloat Number_Float64 Number_Int64 inputMap toolName
    (before ++ tool :: after)
  = match ai.ToolDefinition_InputSchema tool with
    | Some inputSchema =>
        convertMapWithSchema ParseFloat Number_Float64 Number_Int64 inputMap
          (Some inputSchema)
    | None => inputMap
    end.
Proof.
  intros Hbefore Hname. unfold convertToolInputTypes.
  assert (find (fun t => String.eqb (ai.ToolDefinition_Name t) toolName)
            (before ++ tool :: after) = Some tool) as ->; [|reflexivity].
  induction Hbefore as [|other before Hother _ IH]; cbn [app find].
  - by rewrite Hname, String.eqb_refl.
  - by rewrite (proj2 (String.eqb_neq _ _) Hother).
Qed.

Lemma tool_input_uses_first_matching_tool_witness :
  let tool name schema :=
    {| ai.ToolDefinition_Name := name; ai.ToolDefinition_Description := "";
       ai.ToolDefinition_InputSchema := schema |} in
  let count := NewObjectSchema (<["n" := VMap (NewNumberSchema "" None None)]> ∅) [] in
  convertToolInputTypes ParseFloat_decimal ParseFloat_decimal ParseInt_decimal
    (<["n" := VString "42"]> ∅) "count"
    ([tool "echo" None] ++ tool "count" (Some count) :: [tool "count" None])
  = convertMapWithSchema ParseFloat_decimal ParseFloat_decimal ParseInt_decimal
      (<["n" := VString "42"]> ∅) (Some count).
Proof.
  intros tool count.
  apply (tool_input_uses_first_matching_tool ParseFloat_decimal
           ParseFloat_decimal ParseInt_decimal (<["n" := VString "42"]> ∅)
           "count" [tool "echo" None] [tool "count" None]
           (tool "count" (Some count))).
  - repeat constructor. discriminate.
  - reflexivity.
Defined.

(** ** SchemaNormalizer, continued *)

Lemma normalized_lookup_kept (schema : gmap string Value) (k : string) (v : Value) :
  schema !! k = Some v -> validateAndNormalizeJSONSchema schema !! k = Some v.
Proof.
  intros Hk.
  destruct (decide (k = "type")) as [->|Htype].
  { by rewrite normalized_type, Hk. }
  destruct (decide (k = "$schema")) as [->|Hversion].
  { by rewrite normalized_schema_version, Hk. }
  destruct (decide (k = "properties")) as [->|Hprops].
  { rewrite normalized_properties, Hk. by destruct (is_object_type _). }
  by rewrite normalized_other.
Qed.

(** X6: normalisation only adds.  Every entry of the schema is in the
    result with the value it had, and the only keys the result can have
    beyond the schema's are ["type"], ["properties"] and ["$schema"]. *)
Theorem normalisation_only_adds_defaults (schema : gmap string Value) :
  schema ⊆ validateAndNormalizeJSONSchema schema
  ∧ dom (validateAndNormalizeJSONSchema schema)
    ⊆ dom schema ∪ {["type"; "properties"; "$schema"]}.
Proof.
  split.
  - apply map_subseteq_spec. intros k v. apply normalized_lookup_kept.
  - intros k Hk. apply elem_of_dom in Hk as [v Hv].
    destruct (decide (k = "type")) as [->|Htype]; [set_solver|].
    destruct (decide (k = "$schema")) as [->|Hversion]; [set_solver|].
    destruct (decide (k = "properties")) as [->|Hprops]; [set_solver|].
    rewrite normalized_other in Hv by done.
    apply elem_of_union_l, elem_of_dom. eauto.
Qed.

(** X7: the ["properties"] default is for objects only.  A schema whose
    ["type"] is anything but the string ["object"] and that has no
    ["properties"] key still has none after normalisation. *)
Theorem non_object_schema_gets_no_properties (schema : gmap string Value)
    (type : Value) :
  schema !! "type" = Some type ->
  type ≠ VString "object" ->
  schema !! "properties" = None ->
  validateAndNormalizeJSONSchema schema !! "properties" = None.
Proof.
  intros Htype Hnot Hnone.
  rewrite normalized_properties, normalized_type, Htype, Hnone.
  cbn [default from_option id is_object_type].
  destruct type as [| |s| | | | | | | | | | | |]; try reflexivity.
  destruct (String.eqb_spec s "object") as [->|]; [done|reflexivity].
Qed.

Lemma non_object_schema_gets_no_properties_witness :
  validateAndNormalizeJSONSchema (NewStringSchema "a name" []) !! "properties"
  = None.
Proof.
  apply (non_object_schema_gets_no_properties _ (VString "string"));
    [vm_compute; reflexivity | discriminate | vm_compute; reflexivity].
Defined.

(** A schema that has its type, and its properties if an object, gets the
    schema version and nothing else. *)
Lemma normalize_typed_schema (m : gmap string Value) (type : Value) :
  m !! "type" = Some type ->
  (is_object_type (Some type) = true -> is_Some (m !! "properties")) ->
  m !! "$schema" = None ->
  validateAndNormalizeJSONSchema m = <["$schema" := VString draft07]> m.
Proof.
  intros Htype Hprops Hversion.
  unfold validateAndNormalizeJSONSchema. rewrite copy_loop, Htype.
  cbv zeta. rewrite Htype.
  destruct (is_object_type (Some type)).
  - destruct Hprops as [p Hp]; [done|]. by rewrite Hp, Hversion.
  - by rewrite Hversion.
Qed.

(** X8: the schemas the four helpers build are already typed, so
    normalising them adds the schema version and nothing else; an object
    schema keeps the properties it was given, empty or not. *)
Theorem helper_schemas_normalise_to_themselves
    (properties itemSchema : gmap string Value) (required enum : list string)
    (description : string) (minimum maximum : option spec_float) :
  validateAndNormalizeJSONSchema (NewObjectSchema properties required)
  = <["$schema" := VString draft07]> (NewObjectSchema properties required)
  ∧ validateAndNormalizeJSONSchema (NewStringSchema description enum)
    = <["$schema" := VString draft07]> (NewStringSchema description enum)
  ∧ validateAndNormalizeJSONSchema (NewNumberSchema description minimum maximum)
    = <["$schema" := VString draft07]>
        (NewNumberSchema description minimum maximum)
  ∧ validateAndNormalizeJSONSchema (NewArraySchema itemSchema description)
    = <["$schema" := VString draft07]> (NewArraySchema itemSchema description).
Proof.
  repeat split.
  - apply (normalize_typed_schema _ (VString "object"));
      unfold NewObjectSchema; destruct (0 <? length required)%nat;
      intros; by simplify_map_eq.
  - apply (normalize_typed_schema _ (VString "string"));
      unfold NewStringSchema; destruct (negb _), (0 <? length enum)%nat;
      try discriminate; by simplify_map_eq.
  - apply (normalize_typed_schema _ (VString "number"));
      unfold NewNumberSchema; destruct (negb _), minimum, maximum;
      try discriminate; by simplify_map_eq.
  - apply (normalize_typed_schema _ (VString "array"));
      unfold NewArraySchema; destruct (negb _);
      try discriminate; by simplify_map_eq.
Qed.

(** ** ConverseRequestBuilder, continued *)

Section BuilderProperties.
Variable json_Marshal : Value -> result (list Byte.byte).
Variable json_Unmarshal : list Byte.byte -> result (gmap string Value).
Variable fmt_Sprint : Value -> string.

Abbreviation convertOne := (convertMessage json_Marshal fmt_Sprint).
Abbreviation convertAll := (convertMessages json_Marshal fmt_Sprint).

(** One message adds to what has been built and does not look at it. *)
Lemma convertMessage_acc messages systemPrompts msg :
  convertOne (messages, systemPrompts) msg
  = (messages ++ (convertOne ([], []) msg).1,
     systemPrompts ++ (convertOne ([], []) msg).2).
Proof.
  unfold convertMessage.
  repeat case_match; cbn [fst snd]; by rewrite ?app_nil_r.
Qed.

Lemma foldl_convertMessage_acc msgs messages systemPrompts :
  foldl convertOne (messages, systemPrompts) msgs
  = (messages ++ (convertAll msgs).1, systemPrompts ++ (convertAll msgs).2).
Proof.
  unfold convertMessages.
  revert messages systemPrompts.
  induction msgs as [|msg msgs IH] using rev_ind; intros messages systemPrompts.
  - cbn. by rewrite !app_nil_r.
  - rewrite !foldl_snoc, IH, (IH [] []).
    rewrite (convertMessage_acc (messages ++ _)), (convertMessage_acc ([] ++ _)).
    cbn [fst snd]. by rewrite !app_nil_l, !app_assoc.
Qed.

Lemma convertMessages_app msgs1 msgs2 :
  convertAll (msgs1 ++ msgs2)
  = ((convertAll msgs1).1 ++ (convertAll msgs2).1,
     (convertAll msgs1).2 ++ (convertAll msgs2).2).
Proof.
  unfold convertMessages at 1. rewrite foldl_app.
  fold (convertAll msgs1). destruct (convertAll msgs1) as [m s].
  apply foldl_convertMessage_acc.
Qed.

Lemma convertMessages_cons msg msgs :
  convertAll (msg :: msgs)
  = ((convertOne ([], []) msg).1 ++ (convertAll msgs).1,
     (convertOne ([], []) msg).2 ++ (convertAll msgs).2).
Proof.
  change (msg :: msgs) with ([msg] ++ msgs). by rewrite convertMessages_app.
Qed.

(** What one message contributes: at most one wire message, with content,
    for the user or the assistant. *)
Lemma convertMessage_wire msg :
  Forall (fun wire =>
            types.Message_Content wire ≠ []
            ∧ (types.Message_Role wire = "user"
               ∨ types.Message_Role wire = "assistant"))
         (convertOne ([], []) msg).1.
Proof.
  unfold convertMessage.
  destruct (String.eqb _ ai.RoleSystem); [constructor|].
  destruct (_ || _); [|constructor].
  destruct (omap _ _) as [|block blocks] eqn:Hblocks; cbn; [constructor|].
  constructor; [|constructor]. split; [done|]. cbn.
  destruct (String.eqb _ ai.RoleModel); auto.
Qed.

Lemma convertMessages_wire msgs :
  Forall (fun wire =>
            types.Message_Content wire ≠ []
            ∧ (types.Message_Role wire = "user"
               ∨ types.Message_Role wire = "assistant"))
         (convertAll msgs).1.
Proof.
  induction msgs as [|msg msgs IH]; [constructor|].
  rewrite convertMessages_cons. cbn [fst].
  apply Forall_app. split; [apply convertMessage_wire|done].
Qed.

Lemma dropTrailingAssistant_prefix tools messages :
  dropTrailingAssistant tools messages `prefix_of` messages.
Proof.
  unfold dropTrailingAssistant.
  repeat case_match; try reflexivity. apply prefix_take.
Qed.
End BuilderProperties.

(** X9: the builder always produces a request, and every wire message in
    it has at least one content block and the role "user" or "assistant":
    a message whose parts all map to nothing is left out, never sent
    empty. *)
Theorem wire_messages_are_never_empty
    (json_Marshal : Value -> result (list Byte.byte))
    (json_Unmarshal : list Byte.byte -> result (gmap string Value))
    (fmt_Sprint : Value -> string) (modelName : string)
    (input : ai.ModelRequest) :
  ∃ converseInput,
    buildConverseInput json_Marshal json_Unmarshal fmt_Sprint modelName input
    = Ok converseInput
    ∧ Forall (fun wire =>
                types.Message_Content wire ≠ []
                ∧ (types.Message_Role wire = "user"
                   ∨ types.Message_Role wire = "assistant"))
             (bedrockruntime.ConverseInput_Messages converseInput).
Proof.
  unfold buildConverseInput.
  destruct (ai.ModelRequest_Messages input) as [|msg msgs] eqn:Hmsgs.
  { eexists. split; [reflexivity|]. constructor. }
  pose proof (convertMessages_wire json_Marshal fmt_Sprint (msg :: msgs)) as Hwire.
  destruct (convertMessages json_Marshal fmt_Sprint (msg :: msgs))
    as [messages systemPrompts].
  eexists. split; [reflexivity|]. cbn [bedrockruntime.ConverseInput_Messages].
  destruct (dropTrailingAssistant_prefix (ai.ModelRequest_Tools input) messages)
    as [dropped Hdropped].
  cbn [fst] in Hwire. rewrite Hdropped in Hwire.
  by apply Forall_app in Hwire as [? _].
Qed.

(** X10: messages are converted one by one.  The wire messages and system
    prompts of a conversation put together from two parts are those of
    the first part followed by those of the second. *)
Theorem conversion_distributes_over_append
    (json_Marshal : Value -> result (list Byte.byte))
    (fmt_Sprint : Value -> string) (msgs1 msgs2 : list ai.Message) :
  convertMessages json_Marshal fmt_Sprint (msgs1 ++ msgs2)
  = ((convertMessages json_Marshal fmt_Sprint msgs1).1
       ++ (convertMessages json_Marshal fmt_Sprint msgs2).1,
     (convertMessages json_Marshal fmt_Sprint msgs1).2
       ++ (convertMessages json_Marshal fmt_Sprint msgs2).2).
Proof. apply convertMessages_app. Qed.

Section RoleProperties.
Variable json_Marshal : Value -> result (list Byte.byte).
Variable fmt_Sprint : Value -> string.

Lemma system_texts (parts : list ai.Part) :
  omap (fun part =>
          if ai.IsText part
          then Some (types.SystemContentBlockMemberText (ai.Part_Text part))
          else None) parts
  = types.SystemContentBlockMemberText
      <$> (ai.Part_Text <$> filter (fun part => ai.Part_Kind part = ai.PartText) parts).
Proof.
  induction parts as [|part parts IH]; [done|].
  rewrite filter_cons. cbn [omap list_omap]. unfold ai.IsText at 1.
  destruct (decide (ai.Part_Kind part = ai.PartText)) as [Hkind|Hkind].
  - rewrite bool_decide_eq_true_2 by done. cbn. by rewrite IH.
  - by rewrite bool_decide_eq_false_2 by done.
Qed.

Lemma convertMessage_system (msg : ai.Message) :
  ai.Message_Role msg = ai.RoleSystem ->
  convertMessage json_Marshal fmt_Sprint ([], []) msg
  = ([], types.SystemContentBlockMemberText
           <$> (ai.Part_Text
                  <$> filter (fun part => ai.Part_Kind part = ai.PartText)
                        (ai.Message_Content msg))).
Proof.
  intros Hrole. unfold convertMessage. rewrite Hrole. cbn [String.eqb app].
  change (String.eqb ai.RoleSystem ai.RoleSystem) with true. cbv iota.
  by rewrite system_texts.
Qed.

Lemma convertMessage_conversation (msg : ai.Message) :
  ai.Message_Role msg ≠ ai.RoleSystem ->
  (convertMessage json_Marshal fmt_Sprint ([], []) msg).2 = [].
Proof.
  intros Hrole. unfold convertMessage.
  destruct (String.eqb_spec (ai.Message_Role msg) ai.RoleSystem); [done|].
  by repeat case_match.
Qed.

Lemma convertMessage_ignored (msg : ai.Message) :
  ai.Message_Role msg ∉ [ai.RoleUser; ai.RoleModel; ai.RoleTool] ->
  (convertMessage json_Marshal fmt_Sprint ([], []) msg).1 = [].
Proof.
  intros Hrole. unfold convertMessage.
  destruct (String.eqb_spec (ai.Message_Role msg) ai.RoleSystem); [done|].
  destruct (String.eqb_spec (ai.Message_Role msg) ai.RoleUser) as [Heq|];
    [rewrite Heq in Hrole; set_solver|].
  destruct (String.eqb_spec (ai.Message_Role msg) ai.RoleModel) as [Heq|];
    [rewrite Heq in Hrole; set_solver|].
  destruct (String.eqb_spec (ai.Message_Role msg) ai.RoleTool) as [Heq|];
    [rewrite Heq in Hrole; set_solver|].
  done.
Qed.
End RoleProperties.

(** X11: the role of a message decides where it goes.  The wire messages
    of a conversation are those of its user, model and tool messages
    alone; the system prompts are the texts of the text parts of its
    system messages, in order; a message of any other role leaves no
    trace in the request. *)
Theorem roles_select_what_is_sent
    (json_Marshal : Value -> result (list Byte.byte))
    (fmt_Sprint : Value -> string) (msgs : list ai.Message) :
  convertMessages json_Marshal fmt_Sprint msgs
  = ((convertMessages json_Marshal fmt_Sprint
        (filter (fun msg =>
                   ai.Message_Role msg ∈ [ai.RoleUser; ai.RoleModel; ai.RoleTool])
                msgs)).1,
     types.SystemContentBlockMemberText
       <$> (ai.Part_Text
              <$> filter (fun part => ai.Part_Kind part = ai.PartText)
                    (filter (fun msg => ai.Message_Role msg = ai.RoleSystem) msgs
                       ≫= ai.Message_Content))).
Proof.
  induction msgs as [|msg msgs IH]; [done|].
  rewrite convertMessages_cons, IH. cbn [fst snd]. rewrite !filter_cons.
  destruct (decide (ai.Message_Role msg = ai.RoleSystem)) as [Hsystem|Hsystem].
  - rewrite decide_False
      by (rewrite Hsystem; intros Hin;
          repeat (apply elem_of_cons in Hin as [Hin|Hin]; [discriminate|]);
          by apply elem_of_nil in Hin).
    rewrite convertMessage_system by done. cbn [fst snd app].
    by rewrite bind_cons, filter_app, !fmap_app.
  - rewrite convertMessage_conversation by done. cbn [app].
    case_decide as Hrole.
    + by rewrite convertMessages_cons.
    + by rewrite convertMessage_ignored.
Qed.

(** X12: what survives the way to the wire and back.  Take a part that
    the request builder maps to a content block, and read that block as
    the response converter does.  A text part comes back as the text part
    of the same text; a tool request comes back as a tool request with the
    same name and reference (its input is what the SDK decodes from the
    document, coerced by the tool's schema); a media part and a tool
    response do not come back: the converter drops image and tool-result
    blocks. *)
Theorem parts_survive_the_wire_format
    (ParseFloat Number_Float64 : string -> option spec_float)
    (Number_Int64 : string -> option Z)
    (UnmarshalSmithyDocument : document.Interface -> result (gmap string Value))
    (json_Marshal : Value -> result (list Byte.byte))
    (fmt_Sprint : Value -> string) (originalInput : ai.ModelRequest)
    (part : ai.Part) (block : types.ContentBlock) :
  contentBlock json_Marshal fmt_Sprint part = Some block ->
  (ai.Part_Kind part = ai.PartText ->
   convertContentBlock ParseFloat Number_Float64 Number_Int64
     UnmarshalSmithyDocument originalInput block
   = Some (ai.NewTextPart (ai.Part_Text part)))
  ∧ (ai.Part_Kind part = ai.PartToolRequest ->
     ∃ request input,
       ai.Part_ToolRequest part = Some request
       ∧ convertContentBlock ParseFloat Number_Float64 Number_Int64
           UnmarshalSmithyDocument originalInput block
         = Some (ai.NewToolRequestPart
                   {| ai.ToolRequest_Name := ai.ToolRequest_Name request;
                      ai.ToolRequest_Input := VMap input;
                      ai.ToolRequest_Ref := ai.ToolRequest_Ref request |}))
  ∧ (ai.Part_Kind part = ai.PartMedia ∨ ai.Part_Kind part = ai.PartToolResponse ->
     convertContentBlock ParseFloat Number_Float64 Number_Int64
       UnmarshalSmithyDocument originalInput block
     = None).
Proof.
  unfold contentBlock, ai.IsText, ai.IsMedia, ai.IsToolRequest, ai.IsToolResponse.
  intros Hblock. split; [|split].
  - intros Hkind. rewrite Hkind in Hblock.
    rewrite bool_decide_eq_true_2 in Hblock by done.
    by injection Hblock as <-.
  - intros Hkind. rewrite Hkind in Hblock.
    rewrite !bool_decide_eq_false_2 in Hblock by done.
    rewrite bool_decide_eq_true_2 in Hblock by done.
    destruct (ai.Part_ToolRequest part) as [request|]; [|discriminate].
    injection Hblock as <-. by do 2 eexists.
  - intros [Hkind|Hkind]; rewrite Hkind in Hblock.
    + rewrite bool_decide_eq_false_2 in Hblock by done.
      rewrite bool_decide_eq_true_2 in Hblock by done.
      injection Hblock as <-. unfold mediaBlock.
      by destruct (parseDataURL _ _).
    + rewrite !bool_decide_eq_false_2 in Hblock by done.
      rewrite bool_decide_eq_true_2 in Hblock by done.
      destruct (ai.Part_ToolResponse part) as [response|]; [|discriminate].
      by injection Hblock as <-.
Qed.

Lemma parts_survive_the_wire_format_witness :
  let request :=
    {| ai.ToolRequest_Name := "weather";
       ai.ToolRequest_Input := VMap (<["city" := VString "Paris"]> ∅);
       ai.ToolRequest_Ref := "call-1" |} in
  let input :=
    {| ai.ModelRequest_Messages := [];
       ai.ModelRequest_Config := VNil;
       ai.ModelRequest_Tools := [] |} in
  let decode : document.Interface -> result (gmap string Value) :=
    fun doc =>
      match doc with
      | document.NewLazyDocument (VMap m) => Ok m
      | _ => Err (errorString "not an object")
      end in
  ∃ request' input',
    ai.Part_ToolRequest (ai.NewToolRequestPart request) = Some request'
    ∧ convertContentBlock (fun _ => None) (fun _ => None) (fun _ => None) decode
        input
        (types.ContentBlockMemberToolUse
           {| types.ToolUseBlock_ToolUseId := Some "call-1";
              types.ToolUseBlock_Name := Some "weather";
              types.ToolUseBlock_Input :=
                Some (document.NewLazyDocument
                        (VMap (<["city" := VString "Paris"]> ∅))) |})
      = Some (ai.NewToolRequestPart
                {| ai.ToolRequest_Name := ai.ToolRequest_Name request';
                   ai.ToolRequest_Input := VMap input';
                   ai.ToolRequest_Ref := ai.ToolRequest_Ref request' |}).
Proof.
  intros request input decode.
  apply (proj1 (proj2
           (parts_survive_the_wire_format (fun _ => None) (fun _ => None)
              (fun _ => None) decode (fun _ => Err (errorString "unsupported"))
              (fun _ => "") input (ai.NewToolRequestPart request) _ eq_refl)));
    reflexivity.
Defined.






(** X15: tools are always sent with their schema.  The tool configuration
    is present exactly when the request has tools, lists them in order,
    and gives each tool that has an input schema the normalised form of
    that schema: for a schema that is a map the conversion cannot fail,
    whatever the JSON encoder does. *)
Theorem tools_are_sent_with_normalised_schema
    (json_Marshal : Value -> result (list Byte.byte))
    (json_Unmarshal : list Byte.byte -> result (gmap string Value))
    (fmt_Sprint : Value -> string) (modelName : string)
    (input : ai.ModelRequest) :
  ∃ converseInput,
    buildConverseInput json_Marshal json_Unmarshal fmt_Sprint modelName input
    = Ok converseInput
    ∧ bedrockruntime.ConverseInput_ToolConfig converseInput
      = match ai.ModelRequest_Tools input with
        | [] => None
        | tools =>
            Some {| types.ToolConfiguration_Tools :=
                      (fun tool =>
                         types.ToolMemberToolSpec
                           {| types.ToolSpecification_Name :=
                                Some (ai.ToolDefinition_Name tool);
                              types.ToolSpecification_Description :=
                                Some (ai.ToolDefinition_Description tool);
                              types.ToolSpecification_InputSchema :=
                                (fun inputSchema =>
                                   types.ToolInputSchemaMemberJson
                                     (document.NewLazyDocument
                                        (VMap (validateAndNormalizeJSONSchema
                                                 inputSchema))))
                                  <$> ai.ToolDefinition_InputSchema tool |})
                        <$> tools |}
        end.
Proof.
  unfold buildConverseInput.
  destruct (match ai.ModelRequest_Messages input with [] => _ | _ => _ end)
    as [messages systemPrompts].
  eexists. split; [reflexivity|]. cbn [bedrockruntime.ConverseInput_ToolConfig].
  destruct (ai.ModelRequest_Tools input) as [|tool tools]; [reflexivity|].
  change (0 <? length (tool :: tools))%nat with true. cbv iota.
  do 2 f_equal.
Qed.

(** ** ContentBlockMapper, continued *)



Lemma parseDataURL_base64 (mime b64 mediaType : string) :
  Forall (fun c => c ∉ list_ascii_of_string mime) [","; ":"; ";"]%char ->
  ","%char ∉ list_ascii_of_string b64 ->
  parseDataURL ("data:" +:+ mime +:+ ";base64," +:+ b64) mediaType
  = (b64, if String.eqb mediaType "" then mime else mediaType).
Proof.
  intros Hmime Hb64.
  apply Forall_cons in Hmime as [Hcomma Hmime].
  apply Forall_cons in Hmime as [Hcolon Hmime].
  apply Forall_cons in Hmime as [Hsemi _].
  unfold parseDataURL.
  assert (HasPrefix ("data:" +:+ mime +:+ ";base64," +:+ b64) "data:" = true) as ->
    by (by destruct mime).
  assert (∀ (a b : string),
            list_ascii_of_string (a +:+ b)
            = list_ascii_of_string a ++ list_ascii_of_string b) as Happ.
  { intros a b. induction a as [|c a IH]; [done|]. simpl. by rewrite IH. }
  assert (∀ a b c : string, (a +:+ b) +:+ c = a +:+ (b +:+ c)) as Hassoc.
  { intros a b c. induction a as [|x a IH]; [done|].
    change (String x ((a +:+ b) +:+ c) = String x (a +:+ (b +:+ c))).
    by rewrite IH. }
  replace ("data:" +:+ mime +:+ ";base64," +:+ b64)
    with (("data:" +:+ mime +:+ ";base64") +:+ String "," b64)
    by (by rewrite !Hassoc).
  rewrite Split_at_separator; [| |done].
  2:{ rewrite !Happ. intros Hin.
      apply elem_of_app in Hin as [Hin|Hin].
      - cbn in Hin.
        repeat (apply elem_of_cons in Hin as [Hin|Hin]; [discriminate|]).
        by apply elem_of_nil in Hin.
      - apply elem_of_app in Hin as [Hin|Hin]; [done|].
        cbn in Hin.
        repeat (apply elem_of_cons in Hin as [Hin|Hin]; [discriminate|]).
        by apply elem_of_nil in Hin. }
  f_equal. destruct (String.eqb mediaType ""); [|done].
  change ("data:" +:+ mime +:+ ";base64")
    with ("data" +:+ String ":" (mime +:+ ";base64")).
  rewrite Split_at_separator.
  - change (mime +:+ ";base64") with (mime +:+ String ";" "base64").
    rewrite Split_at_separator; [done|done|].
    cbn. intros Hin.
    repeat (apply elem_of_cons in Hin as [Hin|Hin]; [discriminate|]).
    by apply elem_of_nil in Hin.
  - cbn. intros Hin.
    repeat (apply elem_of_cons in Hin as [Hin|Hin]; [discriminate|]).
    by apply elem_of_nil in Hin.
  - rewrite Happ. intros Hin. apply elem_of_app in Hin as [Hin|Hin]; [done|].
    cbn in Hin.
    repeat (apply elem_of_cons in Hin as [Hin|Hin]; [discriminate|]).
    by apply elem_of_nil in Hin.
Qed.

(** X16: a base64 data URL of any media type.  A media part with no MIME
    field of its own whose content is [data:<mime>;base64,<payload>] with
    a payload that decodes becomes an image block holding the decoded
    bytes, in the format that belongs to <mime>. *)
Theorem data_url_of_any_media_type
    (json_Marshal : Value -> result (list Byte.byte))
    (fmt_Sprint : Value -> string) (mime b64 : string)
    (decoded : list Byte.byte) :
  Forall (fun c => c ∉ list_ascii_of_string mime) [","; ":"; ";"]%char ->
  base64_DecodeString b64 = Some decoded ->
  contentBlock json_Marshal fmt_Sprint
    (ai.NewMediaPart "" ("data:" +:+ mime +:+ ";base64," +:+ b64))
  = Some (types.ContentBlockMemberImage
            {| types.ImageBlock_Format := imageFormat mime;
               types.ImageBlock_Source := decoded |}).
Proof.
  intros Hmime Hdecode.
  unfold contentBlock, ai.IsText, ai.IsMedia, ai.NewMediaPart.
  cbn [ai.Part_Kind]. rewrite bool_decide_eq_false_2 by done.
  rewrite bool_decide_eq_true_2 by done.
  unfold mediaBlock. cbn [ai.Part_Text ai.Part_ContentType].
  rewrite parseDataURL_base64
    by (done || by eapply base64_DecodeString_no_comma).
  by rewrite Hdecode.
Qed.

Lemma data_url_of_any_media_type_witness :
  contentBlock (fun _ => Err (errorString "unsupported")) (fun _ => "")
    (ai.NewMediaPart "" "data:image/webp;base64,SGVsbG8=")
  = Some (types.ContentBlockMemberImage
            {| types.ImageBlock_Format := types.ImageFormatWebp;
               types.ImageBlock_Source :=
                 [Byte.x48; Byte.x65; Byte.x6c; Byte.x6c; Byte.x6f] |}).
Proof.
  apply (data_url_of_any_media_type _ _ "image/webp" "SGVsbG8="
           [Byte.x48; Byte.x65; Byte.x6c; Byte.x6c; Byte.x6f]).
  - repeat constructor; cbn; intros Hin;
      repeat (apply elem_of_cons in Hin as [Hin|Hin]; [discriminate|]);
      by apply elem_of_nil in Hin.
  - vm_compute; reflexivity.
Defined.



(** ** StreamAggregator, continued *)

Section StreamProperties.
Context {World : Type}.
Implicit Types (cb : @callback World) (w : World)
  (events : list types.ConverseStreamOutput) (st : streamState).

(** The loop on a callback that accepts every chunk. *)
Lemma processEvents_accepted cb events st w calls :
  (∀ chunk w', (cb chunk w').1 = None) ->
  ∃ st',
    processEvents (traced cb) events st (w, calls)
    = (Ok st',
       (foldl (fun w' text => (cb (textChunk text) w').2) w (omap deltaText events),
        calls ++ (textChunk <$> omap deltaText events)))
    ∧ fullText st' = foldl String.append (fullText st) (omap deltaText events)
    ∧ (Forall (fun event => isMessageStop event = false) events ->
       finalResponse st' = finalResponse st).
Proof.
  intros Hcb. revert st w calls.
  induction events as [|event events IH]; intros st w calls.
  { exists st. cbn. by rewrite app_nil_r. }
  destruct event as [[[text|]|]|stopReason|].
  - rewrite processEvents_delta. fold (textChunk text).
    rewrite traced_call, Hcb. cbn [fst snd].
    destruct (IH {| fullText := fullText st +:+ text;
                    finalResponse := finalResponse st |}
                 (cb (textChunk text) w).2 (calls ++ [textChunk text]))
      as (st' & -> & Htext & Hstop).
    exists st'. cbn [omap list_omap deltaText foldl fmap list_fmap].
    rewrite <- app_assoc. split; [done|]. split; [done|].
    intros Hnone. apply Forall_cons in Hnone as [_ Hnone]. by rewrite Hstop.
  - destruct (IH st w calls) as (st' & Hrun & Htext & Hstop).
    exists st'. split; [exact Hrun|]. split; [done|].
    intros Hnone. apply Forall_cons in Hnone as [_ Hnone]. by apply Hstop.
  - destruct (IH st w calls) as (st' & Hrun & Htext & Hstop).
    exists st'. split; [exact Hrun|]. split; [done|].
    intros Hnone. apply Forall_cons in Hnone as [_ Hnone]. by apply Hstop.
  - destruct (IH {| fullText := fullText st;
                    finalResponse :=
                      Some (textResponse (fullText st)
                              (convertStopReasonToGenkit stopReason)) |} w calls)
      as (st' & Hrun & Htext & Hstop).
    exists st'. split; [exact Hrun|]. split; [done|].
    intros Hnone. by apply Forall_cons in Hnone as [? _].
  - destruct (IH st w calls) as (st' & Hrun & Htext & Hstop).
    exists st'. split; [exact Hrun|]. split; [done|].
    intros Hnone. apply Forall_cons in Hnone as [_ Hnone]. by apply Hstop.
Qed.

(** The loop fails only with the error of the callback. *)
Lemma processEvents_error cb events st w err w' :
  processEvents cb events st w = (Err err, w') ->
  ∃ failure, err = wrapError "callback error: " failure.
Proof.
  revert st w. induction events as [|event events IH]; intros st w Hrun;
    [discriminate|].
  destruct event as [[[text|]|]|stopReason|]; cbn [processEvents] in Hrun;
    try (by eapply IH).
  destruct (cb _ w) as [[failure|] w1]; [|by eapply IH].
  injection Hrun as <- _. by eexists.
Qed.
End StreamProperties.

(** X18: a stream that ends without a message stop.  When the callback
    accepts every chunk, it is called once for each text delta, in order,
    with a chunk holding that delta alone; the response carries the
    deltas put together in order, with the finish reason "stop"; and the
    stream has been closed. *)
Theorem stream_without_message_stop {World : Type}
    (client_ConverseStream :
       bedrockruntime.ConverseStreamInput ->
       result bedrockruntime.ConverseStreamEventStream)
    (input : bedrockruntime.ConverseInput) (originalInput : ai.ModelRequest)
    (streamOutput : bedrockruntime.ConverseStreamEventStream)
    (cb : @callback World) (w : World) :
  client_ConverseStream (streamInput input) = Ok streamOutput ->
  Forall (fun event => isMessageStop event = false)
         (bedrockruntime.Events streamOutput) ->
  (∀ chunk w', (cb chunk w').1 = None) ->
  generateTextStream client_ConverseStream input originalInput (traced cb) (w, [])
  = (Ok (textResponse
           (foldl String.append ""
              (omap deltaText (bedrockruntime.Events streamOutput)))
           ai.FinishReasonStop),
     (foldl (fun w' text => (cb (textChunk text) w').2) w
        (omap deltaText (bedrockruntime.Events streamOutput)),
      textChunk <$> omap deltaText (bedrockruntime.Events streamOutput)),
     Some (bedrockruntime.Close streamOutput)).
Proof.
  intros Hstream Hnone Hcb. unfold generateTextStream. rewrite Hstream.
  destruct (processEvents_accepted cb (bedrockruntime.Events streamOutput)
              {| fullText := ""; finalResponse := None |} w [] Hcb)
    as (st' & -> & Htext & Hstop).
  rewrite (Hstop Hnone), Htext. reflexivity.
Qed.

Lemma stream_without_message_stop_witness :
  let delta text :=
    types.ConverseStreamOutputMemberContentBlockDelta
      (Some (types.ContentBlockDeltaMemberText text)) in
  let streamOutput :=
    {| bedrockruntime.Events :=
         [delta "a"; types.ConverseStreamOutputMemberOther; delta "b";
          types.ConverseStreamOutputMemberContentBlockDelta None; delta "c"];
       bedrockruntime.Closed := false |} in
  let input :=
    {| bedrockruntime.ConverseInput_ModelId := Some "m";
       bedrockruntime.ConverseInput_Messages := [];
       bedrockruntime.ConverseInput_System := [];
       bedrockruntime.ConverseInput_InferenceConfig := None;
       bedrockruntime.ConverseInput_ToolConfig := None |} in
  let request := {| ai.ModelRequest_Messages := [];
                    ai.ModelRequest_Config := VNil;
                    ai.ModelRequest_Tools := [] |} in
  let count : @callback nat := fun _ n => (None, S n) in
  generateTextStream (fun _ => Ok streamOutput) input request (traced count)
    (0%nat, [])
  = (Ok (textResponse "abc" "stop"),
     (3%nat, [textChunk "a"; textChunk "b"; textChunk "c"]),
     Some (bedrockruntime.Close streamOutput)).
Proof.
  intros delta streamOutput input request count.
  apply (stream_without_message_stop (fun _ => Ok streamOutput) input request
           streamOutput count 0%nat);
    [reflexivity | repeat constructor | reflexivity].
Defined.

(** X19: the response is fixed at the last message stop.  On a stream
    whose last message stop has the reason [stopReason], the response
    carries the text of the deltas before that stop and the finish reason
    that belongs to [stopReason]; the deltas after it still reach the
    callback but are not in the response. *)
Theorem stream_response_is_fixed_at_the_last_stop {World : Type}
    (client_ConverseStream :
       bedrockruntime.ConverseStreamInput ->
       result bedrockruntime.ConverseStreamEventStream)
    (input : bedrockruntime.ConverseInput) (originalInput : ai.ModelRequest)
    (streamOutput : bedrockruntime.ConverseStreamEventStream)
    (before after : list types.ConverseStreamOutput) (stopReason : string)
    (cb : @callback World) (w : World) :
  client_ConverseStream (streamInput input) = Ok streamOutput ->
  bedrockruntime.Events streamOutput
  = before ++ types.ConverseStreamOutputMemberMessageStop stopReason :: after ->
  Forall (fun event => isMessageStop event = false) after ->
  (∀ chunk w', (cb chunk w').1 = None) ->
  generateTextStream client_ConverseStream input originalInput (traced cb) (w, [])
  = (Ok (textResponse (foldl String.append "" (omap deltaText before))
           (convertStopReasonToGenkit stopReason)),
     (foldl (fun w' text => (cb (textChunk text) w').2) w
        (omap deltaText (before ++ after)),
      textChunk <$> omap deltaText (before ++ after)),
     Some (bedrockruntime.Close streamOutput)).
Proof.
  intros Hstream Hevents Hnone Hcb. unfold generateTextStream.
  rewrite Hstream, Hevents.
  destruct (processEvents_accepted cb
              (before ++ types.ConverseStreamOutputMemberMessageStop stopReason
                 :: after)
              {| fullText := ""; finalResponse := None |} w [] Hcb)
    as (st' & Hrun & _ & _).
  rewrite Hrun.
  destruct (processEvents_accepted cb before
              {| fullText := ""; finalResponse := None |} w [] Hcb)
    as (st1 & Hrun1 & Htext1 & _).
  destruct (processEvents_accepted cb after
              {| fullText := fullText st1;
                 finalResponse :=
                   Some (textResponse (fullText st1)
                           (convertStopReasonToGenkit stopReason)) |}
              (foldl (fun w' text => (cb (textChunk text) w').2) w
                 (omap deltaText before))
              ([] ++ (textChunk <$> omap deltaText before)) Hcb)
    as (st2 & Hrun2 & _ & Hstop2).
  assert (st' = st2) as ->.
  { assert (∀ events1 events2 st w0,
              processEvents (traced cb) (events1 ++ events2) st w0
              = match processEvents (traced cb) events1 st w0 with
                | (Ok st1, w1) => processEvents (traced cb) events2 st1 w1
                | (Err err, w1) => (Err err, w1)
                end) as Happ.
    { intros events1 events2. induction events1 as [|event events1 IH];
        intros st w0; [done|].
      destruct event as [[[text|]|]|reason|]; cbn [app processEvents];
        try apply IH.
      destruct (traced cb _ w0) as [[failure|] w1]; [done|apply IH]. }
    rewrite Happ, Hrun1 in Hrun. cbn [processEvents] in Hrun.
    rewrite Hrun2 in Hrun. by injection Hrun as ->. }
  rewrite (Hstop2 Hnone). cbn [finalResponse]. rewrite Htext1.
  rewrite !omap_app. cbn [omap list_omap deltaText].
  by rewrite foldl_app, fmap_app.
Qed.

Lemma stream_response_is_fixed_at_the_last_stop_witness :
  let delta text :=
    types.ConverseStreamOutputMemberContentBlockDelta
      (Some (types.ContentBlockDeltaMemberText text)) in
  let streamOutput :=
    {| bedrockruntime.Events :=
         [delta "a"; delta "b";
          types.ConverseStreamOutputMemberMessageStop "max_tokens"; delta "c"];
       bedrockruntime.Closed := false |} in
  let input :=
    {| bedrockruntime.ConverseInput_ModelId := Some "m";
       bedrockruntime.ConverseInput_Messages := [];
       bedrockruntime.ConverseInput_System := [];
       bedrockruntime.ConverseInput_InferenceConfig := None;
       bedrockruntime.ConverseInput_ToolConfig := None |} in
  let request := {| ai.ModelRequest_Messages := [];
                    ai.ModelRequest_Config := VNil;
                    ai.ModelRequest_Tools := [] |} in
  let count : @callback nat := fun _ n => (None, S n) in
  generateTextStream (fun _ => Ok streamOutput) input request (traced count)
    (0%nat, [])
  = (Ok (textResponse "ab" "length"),
     (3%nat, [textChunk "a"; textChunk "b"; textChunk "c"]),
     Some (bedrockruntime.Close streamOutput)).
Proof.
  intros delta streamOutput input request count.
  apply (stream_response_is_fixed_at_the_last_stop (fun _ => Ok streamOutput)
           input request streamOutput [delta "a"; delta "b"] [delta "c"]
           "max_tokens" count 0%nat);
    [reflexivity | reflexivity | repeat constructor | reflexivity].
Defined.

(** ** Text generation entry points *)

(** X20: what text generation can fail with.  The request builder never
    fails, so without a callback the only error is the transport's,
    wrapped as "bedrock converse failed: ..."; with a callback it is
    either the transport's, wrapped as "bedrock converse stream
    failed: ...", with the callback never called and no stream opened, or
    the callback's own, wrapped as "callback error: ...", with the stream
    closed. *)
Theorem text_generation_errors {World : Type}
    (json_Marshal : Value -> result (list Byte.byte))
    (json_Unmarshal : list Byte.byte -> result (gmap string Value))
    (fmt_Sprint : Value -> string)
    (ParseFloat Number_Float64 : string -> option spec_float)
    (Number_Int64 : string -> option Z)
    (UnmarshalSmithyDocument : document.Interface -> result (gmap string Value))
    (client_Converse :
       bedrockruntime.ConverseInput -> result bedrockruntime.ConverseOutput)
    (client_ConverseStream :
       bedrockruntime.ConverseStreamInput ->
       result bedrockruntime.ConverseStreamEventStream)
    (modelName : string) (input : ai.ModelRequest)
    (cb : option (@callback World)) (w w' : World) (err : error)
    (stream : option bedrockruntime.ConverseStreamEventStream) :
  generateText json_Marshal json_Unmarshal fmt_Sprint ParseFloat Number_Float64
    Number_Int64 UnmarshalSmithyDocument client_Converse client_ConverseStream
    modelName input cb w
  = (Err err, w', stream) ->
  match cb with
  | None =>
      (∃ failure, err = wrapError "bedrock converse failed: " failure)
      ∧ w' = w ∧ stream = None
  | Some _ =>
      ((∃ failure, err = wrapError "bedrock converse stream failed: " failure)
       ∧ w' = w ∧ stream = None)
      ∨ ((∃ failure, err = wrapError "callback error: " failure)
         ∧ ∃ opened, stream = Some opened ∧ bedrockruntime.Closed opened = true)
  end.
Proof.
  unfold generateText, buildConverseInput.
  destruct (match ai.ModelRequest_Messages input with [] => _ | _ => _ end)
    as [messages systemPrompts].
  destruct cb as [cb|].
  - unfold generateTextStream.
    destruct (client_ConverseStream _) as [streamOutput|failure].
    + destruct (processEvents cb _ _ w) as [[st|failure] w1] eqn:Hrun;
        [discriminate|].
      intros [= <- <- <-]. right.
      split; [by eapply processEvents_error|]. by eexists.
    + intros [= <- <- <-]. left. split; [by eexists|done].
  - unfold generateTextSync.
    destruct (client_Converse _) as [response|failure]; [discriminate|].
    intros [= <- <- <-]. split; [by eexists|done].
Qed.

Lemma text_generation_errors_witness :
  let reject : Value -> result (list Byte.byte) :=
    fun _ => Err (errorString "unsupported") in
  let decode : list Byte.byte -> result (gmap string Value) :=
    fun _ => Err (errorString "unsupported") in
  let request := {| ai.ModelRequest_Messages := [];
                    ai.ModelRequest_Config := VNil;
                    ai.ModelRequest_Tools := [] |} in
  (∃ failure, wrapError "bedrock converse failed: " (errorString "throttled")
              = wrapError "bedrock converse failed: " failure)
  ∧ 0%nat = 0%nat ∧ @None bedrockruntime.ConverseStreamEventStream = None.
Proof.
  intros reject decode request.
  apply (text_generation_errors (World := nat) reject decode (fun _ => "")
           (fun _ => None) (fun _ => None) (fun _ => None)
           (fun _ => Err (errorString "unsupported"))
           (fun _ => Err (errorString "throttled"))
           (fun _ => Err (errorString "throttled"))
           "m" request None 0%nat 0%nat
           (wrapError "bedrock converse failed: " (errorString "throttled")) None).
  reflexivity.
Defined.

(** X21: streaming and plain generation agree.  If the model answers the
    plain call with one text block and a stop reason, and the streaming
    call with that text cut into deltas followed by a message stop of the
    same reason, then both calls return the same message and the same
    finish reason. *)
Theorem streaming_and_plain_generation_agree {World : Type}
    (json_Marshal : Value -> result (list Byte.byte))
    (json_Unmarshal : list Byte.byte -> result (gmap string Value))
    (fmt_Sprint : Value -> string)
    (ParseFloat Number_Float64 : string -> option spec_float)
    (Number_Int64 : string -> option Z)
    (UnmarshalSmithyDocument : document.Interface -> result (gmap string Value))
    (client_Converse :
       bedrockruntime.ConverseInput -> result bedrockruntime.ConverseOutput)
    (client_ConverseStream :
       bedrockruntime.ConverseStreamInput ->
       result bedrockruntime.ConverseStreamEventStream)
    (modelName : string) (input : ai.ModelRequest)
    (converseInput : bedrockruntime.ConverseInput)
    (texts : list string) (stopReason : string)
    (usage : option types.TokenUsage)
    (cb : @callback World) (w : World) :
  buildConverseInput json_Marshal json_Unmarshal fmt_Sprint modelName input
  = Ok converseInput ->
  client_Converse converseInput
  = Ok {| bedrockruntime.ConverseOutput_Output :=
            Some (types.ConverseOutputMemberMessage
                    {| types.Message_Role := "assistant";
                       types.Message_Content :=
                         [types.ContentBlockMemberText
                            (foldl String.append "" texts)] |});
          bedrockruntime.ConverseOutput_StopReason := stopReason;
          bedrockruntime.ConverseOutput_Usage := usage |} ->
  client_ConverseStream (streamInput converseInput)
  = Ok {| bedrockruntime.Events :=
            ((fun text =>
                types.ConverseStreamOutputMemberContentBlockDelta
                  (Some (types.ContentBlockDeltaMemberText text))) <$> texts)
            ++ [types.ConverseStreamOutputMemberMessageStop stopReason];
          bedrockruntime.Closed := false |} ->
  (∀ chunk w', (cb chunk w').1 = None) ->
  ∃ plain streamed,
    (generateText json_Marshal json_Unmarshal fmt_Sprint ParseFloat Number_Float64
       Number_Int64 UnmarshalSmithyDocument client_Converse client_ConverseStream
       modelName input None w).1.1 = Ok plain
    ∧ (generateText json_Marshal json_Unmarshal fmt_Sprint ParseFloat
         Number_Float64 Number_Int64 UnmarshalSmithyDocument client_Converse
         client_ConverseStream modelName input (Some (traced cb)) (w, [])).1.1
      = Ok streamed
    ∧ ai.ModelResponse_Message streamed = ai.ModelResponse_Message plain
    ∧ ai.ModelResponse_FinishReason streamed = ai.ModelResponse_FinishReason plain.
Proof.
  intros Hbuild Hplain Hstream Hcb.
  unfold generateText. rewrite Hbuild.
  unfold generateTextSync, generateTextStream. rewrite Hplain, Hstream.
  cbn [bedrockruntime.Events].
  set (delta := fun text =>
         types.ConverseStreamOutputMemberContentBlockDelta
           (Some (types.ContentBlockDeltaMemberText text))).
  assert (∀ events1 events2 st w0,
            processEvents (traced cb) (events1 ++ events2) st w0
            = match processEvents (traced cb) events1 st w0 with
              | (Ok st1, w1) => processEvents (traced cb) events2 st1 w1
              | (Err err, w1) => (Err err, w1)
              end) as Happ.
  { intros events1 events2. induction events1 as [|event events1 IH];
      intros st w0; [done|].
    destruct event as [[[text|]|]|reason|]; cbn [app processEvents];
      try apply IH.
    destruct (traced cb _ w0) as [[failure|] w1]; [done|apply IH]. }
  destruct (processEvents_accepted cb (delta <$> texts)
              {| fullText := ""; finalResponse := None |} w [] Hcb)
    as (st1 & Hrun1 & Htext1 & _).
  rewrite Happ, Hrun1. cbn [processEvents finalResponse fst snd].
  do 2 eexists. split; [reflexivity|]. split; [reflexivity|].
  assert (omap deltaText (delta <$> texts) = texts) as Htexts.
  { clear. induction texts as [|text texts IH]; [done|]. cbn. by rewrite IH. }
  rewrite Htext1, Htexts. cbn [fullText]. split; reflexivity.
Qed.

Lemma streaming_and_plain_generation_agree_witness :
  let reject : Value -> result (list Byte.byte) :=
    fun _ => Err (errorString "unsupported") in
  let decode : list Byte.byte -> result (gmap string Value) :=
    fun _ => Err (errorString "unsupported") in
  let request :=
    {| ai.ModelRequest_Messages :=
         [ {| ai.Message_Role := ai.RoleUser;
              ai.Message_Content := [ai.NewTextPart "hi"] |} ];
       ai.ModelRequest_Config := VNil;
       ai.ModelRequest_Tools := [] |} in
  let client : bedrockruntime.ConverseInput -> result bedrockruntime.ConverseOutput :=
    fun _ =>
      Ok {| bedrockruntime.ConverseOutput_Output :=
              Some (types.ConverseOutputMemberMessage
                      {| types.Message_Role := "assistant";
                         types.Message_Content :=
                           [types.ContentBlockMemberText "Hello world"] |});
            bedrockruntime.ConverseOutput_StopReason := "end_turn";
            bedrockruntime.ConverseOutput_Usage := None |} in
  let stream : bedrockruntime.ConverseStreamInput ->
               result bedrockruntime.ConverseStreamEventStream :=
    fun _ =>
      Ok {| bedrockruntime.Events :=
              [types.ConverseStreamOutputMemberContentBlockDelta
                 (Some (types.ContentBlockDeltaMemberText "Hello "));
               types.ConverseStreamOutputMemberContentBlockDelta
                 (Some (types.ContentBlockDeltaMemberText "world"));
               types.ConverseStreamOutputMemberMessageStop "end_turn"];
            bedrockruntime.Closed := false |} in
  let count : @callback nat := fun _ n => (None, S n) in
  ∃ plain streamed,
    (generateText reject decode (fun _ => "") (fun _ => None) (fun _ => None)
       (fun _ => None) (fun _ => Err (errorString "unsupported")) client stream
       "m" request None 0%nat).1.1 = Ok plain
    ∧ (generateText reject decode (fun _ => "") (fun _ => None) (fun _ => None)
         (fun _ => None) (fun _ => Err (errorString "unsupported")) client stream
         "m" request (Some (traced count)) (0%nat, [])).1.1 = Ok streamed
    ∧ ai.ModelResponse_Message streamed = ai.ModelResponse_Message plain
    ∧ ai.ModelResponse_FinishReason streamed = ai.ModelResponse_FinishReason plain.
Proof.
  intros reject decode request client stream count.
  eapply (streaming_and_plain_generation_agree reject decode (fun _ => "")
            (fun _ => None) (fun _ => None) (fun _ => None)
            (fun _ => Err (errorString "unsupported")) client stream
            "m" request _ ["Hello "; "world"] "end_turn" None count 0%nat);
    reflexivity.
Defined.

(** ** Image and embedding adapters, continued *)

Lemma insert_loop_union (defaults configMap : gmap string Value) :
  map_fold (fun k v (requestBody : gmap string Value) => <[k := v]> requestBody)
    defaults configMap
  = configMap ∪ defaults.
Proof.
  apply (map_fold_weak_ind
           (fun (requestBody : gmap string Value) (m : gmap string Value) =>
              requestBody = m ∪ defaults)).
  - by rewrite (left_id_L ∅ (∪)).
  - intros k v m requestBody _ ->. by rewrite insert_union_l.
Qed.

Lemma applyImageGenerationConfig_merge
    (configMap imgCfg generationConfig requestBody : gmap string Value) :
  configMap !! "imageGenerationConfig" = Some (VMap imgCfg) ->
  requestBody !! "imageGenerationConfig" = Some (VMap generationConfig) ->
  applyImageGenerationConfig (VMap configMap) requestBody
  = <["imageGenerationConfig" := VMap (imgCfg ∪ generationConfig)]> requestBody.
Proof.
  intros Hcfg Hbody. unfold applyImageGenerationConfig. rewrite Hcfg.
  apply (map_fold_weak_ind
           (fun (r : gmap string Value) (m : gmap string Value) =>
              r = <["imageGenerationConfig" := VMap (m ∪ generationConfig)]>
                    requestBody)).
  - rewrite (left_id_L ∅ (∪)). by rewrite insert_id.
  - intros k v m r _ ->. rewrite lookup_insert_eq, insert_insert_eq.
    by rewrite insert_union_l.
Qed.

(** The request each image adapter marshals and sends. *)
Lemma generateStableDiffusionImage_request
    (client_InvokeModel :
       bedrockruntime.InvokeModelInput -> result bedrockruntime.InvokeModelOutput)
    (json_Marshal : Value -> result (list Byte.byte))
    (json_Unmarshal_Artifacts : list Byte.byte -> result (list artifact))
    (modelName prompt : string) (config : Value) :
  generateStableDiffusionImage client_InvokeModel json_Marshal
    json_Unmarshal_Artifacts modelName prompt config
  = match invoke client_InvokeModel json_Marshal modelName
            (stableDiffusionRequestBody prompt config) with
    | Err err => Err err
    | Ok response =>
        match json_Unmarshal_Artifacts
                (bedrockruntime.InvokeModelOutput_Body response) with
        | Err err => Err (wrapError "failed to unmarshal response: " err)
        | Ok [] => Err (errorString "no images generated")
        | Ok (artifact0 :: _) => Ok (imageResponse (artifact_Base64 artifact0))
        end
    end.
Proof. unfold generateStableDiffusionImage. by destruct config. Qed.

Lemma generateTitanImage_request
    (client_InvokeModel :
       bedrockruntime.InvokeModelInput -> result bedrockruntime.InvokeModelOutput)
    (json_Marshal : Value -> result (list Byte.byte))
    (json_Unmarshal_Images : list Byte.byte -> result (list string))
    (modelName prompt : string) (config : Value) :
  generateTitanImage client_InvokeModel json_Marshal json_Unmarshal_Images
    modelName prompt config
  = match invoke client_InvokeModel json_Marshal modelName
            (titanImageRequestBody prompt config) with
    | Err err => Err err
    | Ok response =>
        match json_Unmarshal_Images
                (bedrockruntime.InvokeModelOutput_Body response) with
        | Err err => Err (wrapError "failed to unmarshal response: " err)
        | Ok [] => Err (errorString "no images generated")
        | Ok (image0 :: _) => Ok (imageResponse image0)
        end
    end.
Proof. reflexivity. Qed.

Lemma generateNovaCanvasImage_request
    (client_InvokeModel :
       bedrockruntime.InvokeModelInput -> result bedrockruntime.InvokeModelOutput)
    (json_Marshal : Value -> result (list Byte.byte))
    (json_Unmarshal_Images : list Byte.byte -> result (list string))
    (modelName prompt : string) (config : Value) :
  generateNovaCanvasImage client_InvokeModel json_Marshal json_Unmarshal_Images
    modelName prompt config
  = match invoke client_InvokeModel json_Marshal modelName
            (novaCanvasRequestBody prompt config) with
    | Err err => Err err
    | Ok response =>
        match json_Unmarshal_Images
                (bedrockruntime.InvokeModelOutput_Body response) with
        | Err err => Err (wrapError "failed to unmarshal response: " err)
        | Ok [] => Err (errorString "no images generated")
        | Ok (image0 :: _) => Ok (imageResponse image0)
        end
    end.
Proof. reflexivity. Qed.

(** X22: the configuration of a Stable Diffusion request replaces the
    defaults key by key.  The body sent is the caller's configuration map
    on top of the default body: every key the caller gives wins, the
    prompt under "text_prompts" included, and every default the caller
    does not give stays. *)
Theorem stable_diffusion_config_replaces_defaults
    (client_InvokeModel :
       bedrockruntime.InvokeModelInput -> result bedrockruntime.InvokeModelOutput)
    (json_Marshal : Value -> result (list Byte.byte))
    (json_Unmarshal_Artifacts : list Byte.byte -> result (list artifact))
    (modelName prompt : string) (configMap : gmap string Value) :
  generateStableDiffusionImage client_InvokeModel json_Marshal
    json_Unmarshal_Artifacts modelName prompt (VMap configMap)
  = match invoke client_InvokeModel json_Marshal modelName
            (configMap ∪ stableDiffusionDefaults prompt) with
    | Err err => Err err
    | Ok response =>
        match json_Unmarshal_Artifacts
                (bedrockruntime.InvokeModelOutput_Body response) with
        | Err err => Err (wrapError "failed to unmarshal response: " err)
        | Ok [] => Err (errorString "no images generated")
        | Ok (artifact0 :: _) => Ok (imageResponse (artifact_Base64 artifact0))
        end
    end.
Proof.
  rewrite generateStableDiffusionImage_request.
  unfold stableDiffusionRequestBody. by rewrite insert_loop_union.
Qed.

(** X23: the configuration of a Titan or Nova Canvas request is merged
    into the image generation settings only.  When the caller's
    configuration holds a map under "imageGenerationConfig", the body sent
    is the default body with that map laid over the default settings; the
    task type and the prompt cannot be changed this way, and the other
    keys of the configuration are not sent. *)
Theorem image_generation_config_is_merged
    (prompt : string) (configMap imgCfg : gmap string Value) :
  configMap !! "imageGenerationConfig" = Some (VMap imgCfg) ->
  ∃ titanDefaults novaDefaults : gmap string Value,
    titanImageRequestBody prompt VNil !! "imageGenerationConfig"
    = Some (VMap titanDefaults)
    ∧ titanImageRequestBody prompt (VMap configMap)
      = <["imageGenerationConfig" := VMap (imgCfg ∪ titanDefaults)]>
          (titanImageRequestBody prompt VNil)
    ∧ novaCanvasRequestBody prompt VNil !! "imageGenerationConfig"
      = Some (VMap novaDefaults)
    ∧ novaCanvasRequestBody prompt (VMap configMap)
      = <["imageGenerationConfig" := VMap (imgCfg ∪ novaDefaults)]>
          (novaCanvasRequestBody prompt VNil).
Proof.
  intros Hcfg. do 2 eexists.
  split; [reflexivity|]. split.
  { unfold titanImageRequestBody.
    apply applyImageGenerationConfig_merge; [exact Hcfg|reflexivity]. }
  split; [reflexivity|].
  unfold novaCanvasRequestBody.
  apply applyImageGenerationConfig_merge; [exact Hcfg|reflexivity].
Qed.

Lemma image_generation_config_is_merged_witness :
  ∃ titanDefaults novaDefaults : gmap string Value,
    titanImageRequestBody "a cat" VNil !! "imageGenerationConfig"
    = Some (VMap titanDefaults)
    ∧ titanImageRequestBody "a cat"
        (VMap (<["imageGenerationConfig" := VMap (<["seed" := VInt 7]> ∅)]>
               (<["taskType" := VString "INPAINTING"]> ∅)))
      = <["imageGenerationConfig" :=
            VMap (<["seed" := VInt 7]> ∅ ∪ titanDefaults)]>
          (titanImageRequestBody "a cat" VNil)
    ∧ novaCanvasRequestBody "a cat" VNil !! "imageGenerationConfig"
      = Some (VMap novaDefaults)
    ∧ novaCanvasRequestBody "a cat"
        (VMap (<["imageGenerationConfig" := VMap (<["seed" := VInt 7]> ∅)]>
               (<["taskType" := VString "INPAINTING"]> ∅)))
      = <["imageGenerationConfig" :=
            VMap (<["seed" := VInt 7]> ∅ ∪ novaDefaults)]>
          (novaCanvasRequestBody "a cat" VNil).
Proof.
  apply (image_generation_config_is_merged "a cat"
           (<["imageGenerationConfig" := VMap (<["seed" := VInt 7]> ∅)]>
            (<["taskType" := VString "INPAINTING"]> ∅))
           (<["seed" := VInt 7]> ∅)).
  reflexivity.
Defined.

(** X24: what a successful image generation tells.  When [generateImage]
    returns a response, the first part of the first message was a text
    part with a prompt that is not empty, the model name holds the mark
    of one of the three families, and the response is one media part of
    type image/png holding a base64 data URL, in a model message with the
    finish reason "stop". *)
Theorem image_generation_success
    (client_InvokeModel :
       bedrockruntime.InvokeModelInput -> result bedrockruntime.InvokeModelOutput)
    (json_Marshal : Value -> result (list Byte.byte))
    (json_Unmarshal_Images : list Byte.byte -> result (list string))
    (json_Unmarshal_Artifacts : list Byte.byte -> result (list artifact))
    (modelName : string) (input : ai.ModelRequest) (response : ai.ModelResponse) :
  generateImage client_InvokeModel json_Marshal json_Unmarshal_Images
    json_Unmarshal_Artifacts modelName input = Ok response ->
  (∃ message0 messages part0 parts,
      ai.ModelRequest_Messages input = message0 :: messages
      ∧ ai.Message_Content message0 = part0 :: parts
      ∧ ai.Part_Kind part0 = ai.PartText ∧ ai.Part_Text part0 ≠ "")
  ∧ (Contains modelName "titan-image" = true
     ∨ Contains modelName "stable-diffusion" = true
     ∨ Contains modelName "sd3-" = true
     ∨ Contains modelName "stable-image" = true
     ∨ Contains modelName "nova-canvas" = true)
  ∧ ∃ base64Image,
      response
      = {| ai.ModelResponse_Message :=
             {| ai.Message_Role := ai.RoleModel;
                ai.Message_Content :=
                  [ai.NewMediaPart "image/png"
                     ("data:image/png;base64," +:+ base64Image)] |};
           ai.ModelResponse_FinishReason := ai.FinishReasonStop;
           ai.ModelResponse_Usage := None |}.
Proof.
  unfold generateImage. intros Hrun. split; [|split].
  - destruct (ai.ModelRequest_Messages input) as [|message0 messages];
      [discriminate|].
    destruct (ai.Message_Content message0) as [|part0 parts] eqn:Hparts;
      [discriminate|].
    unfold ai.IsText in Hrun. case_bool_decide as Hkind; [|discriminate].
    destruct (String.eqb_spec (ai.Part_Text part0) ""); [discriminate|].
    by exists message0, messages, part0, parts.
  - destruct (String.eqb _ ""); [discriminate|].
    destruct (Contains modelName "titan-image"); [by left|].
    destruct (Contains modelName "stable-diffusion"); [by right; left|].
    destruct (Contains modelName "sd3-"); [by right; right; left|].
    destruct (Contains modelName "stable-image"); [by right; right; right; left|].
    destruct (Contains modelName "nova-canvas"); [by right; right; right; right|].
    discriminate.
  - destruct (String.eqb _ ""); [discriminate|].
    assert (∀ (r : result bedrockruntime.InvokeModelOutput)
              (parse : list Byte.byte -> result (list string)),
              match r with
              | Err err => Err err
              | Ok wire =>
                  match parse (bedrockruntime.InvokeModelOutput_Body wire) with
                  | Err err => Err (wrapError "failed to unmarshal response: " err)
                  | Ok [] => Err (errorString "no images generated")
                  | Ok (image0 :: _) => Ok (imageResponse image0)
                  end
              end = Ok response ->
              ∃ base64Image, response = imageResponse base64Image) as Himages.
    { intros [wire|] parse H; [|discriminate].
      destruct (parse _) as [[|image0 images]|]; try discriminate.
      injection H as <-. by eexists. }
    destruct (Contains modelName "titan-image").
    { rewrite generateTitanImage_request in Hrun. by apply Himages in Hrun. }
    destruct (_ || _).
    { rewrite generateStableDiffusionImage_request in Hrun.
      destruct (invoke _ _ _ _) as [wire|]; [|discriminate].
      destruct (json_Unmarshal_Artifacts _) as [[|artifact0 artifacts]|];
        try discriminate.
      injection Hrun as <-. by eexists. }
    destruct (Contains modelName "nova-canvas"); [|discriminate].
    rewrite generateNovaCanvasImage_request in Hrun. by apply Himages in Hrun.
Qed.

Lemma image_generation_success_witness :
  let client : bedrockruntime.InvokeModelInput ->
               result bedrockruntime.InvokeModelOutput :=
    fun _ => Ok {| bedrockruntime.InvokeModelOutput_Body := [] |} in
  let marshal : Value -> result (list Byte.byte) := fun _ => Ok [] in
  let images : list Byte.byte -> result (list string) := fun _ => Ok ["QUJD"] in
  let artifacts : list Byte.byte -> result (list artifact) := fun _ => Ok [] in
  let input :=
    {| ai.ModelRequest_Messages :=
         [ {| ai.Message_Role := ai.RoleUser;
              ai.Message_Content := [ai.NewTextPart "a cat"] |} ];
       ai.ModelRequest_Config := VNil;
       ai.ModelRequest_Tools := [] |} in
  (∃ message0 messages part0 parts,
      ai.ModelRequest_Messages input = message0 :: messages
      ∧ ai.Message_Content message0 = part0 :: parts
      ∧ ai.Part_Kind part0 = ai.PartText ∧ ai.Part_Text part0 ≠ "")
  ∧ (Contains "amazon.nova-canvas-v1:0" "titan-image" = true
     ∨ Contains "amazon.nova-canvas-v1:0" "stable-diffusion" = true
     ∨ Contains "amazon.nova-canvas-v1:0" "sd3-" = true
     ∨ Contains "amazon.nova-canvas-v1:0" "stable-image" = true
     ∨ Contains "amazon.nova-canvas-v1:0" "nova-canvas" = true)
  ∧ ∃ base64Image,
      imageResponse "QUJD"
      = {| ai.ModelResponse_Message :=
             {| ai.Message_Role := ai.RoleModel;
                ai.Message_Content :=
                  [ai.NewMediaPart "image/png"
                     ("data:image/png;base64," +:+ base64Image)] |};
           ai.ModelResponse_FinishReason := ai.FinishReasonStop;
           ai.ModelResponse_Usage := None |}.
Proof.
  intros client marshal images artifacts input.
  apply (image_generation_success client marshal images artifacts
           "amazon.nova-canvas-v1:0" input (imageResponse "QUJD")).
  vm_compute; reflexivity.
Defined.

(** X25: a generated image can be sent back to a model.  The message of
    an image response whose payload decodes becomes one assistant wire
    message with one image block of format png holding the decoded
    bytes: the data URL the adapters write is one the request builder
    reads. *)
Theorem generated_image_returns_as_png_block
    (json_Marshal : Value -> result (list Byte.byte))
    (fmt_Sprint : Value -> string) (base64Image : string)
    (decoded : list Byte.byte) :
  base64_DecodeString base64Image = Some decoded ->
  convertMessages json_Marshal fmt_Sprint
    [ai.ModelResponse_Message (imageResponse base64Image)]
  = ([ {| types.Message_Role := "assistant";
          types.Message_Content :=
            [types.ContentBlockMemberImage
               {| types.ImageBlock_Format := types.ImageFormatPng;
                  types.ImageBlock_Source := decoded |}] |} ], []).
Proof.
  intros Hdecode.
  unfold convertMessages, convertMessage, imageResponse.
  cbn [foldl ai.ModelResponse_Message ai.Message_Role ai.Message_Content
         omap list_omap].
  change (String.eqb ai.RoleModel ai.RoleSystem) with false.
  change (String.eqb ai.RoleModel ai.RoleUser) with false.
  change (String.eqb ai.RoleModel ai.RoleModel) with true.
  cbv iota. cbn [orb].
  assert (contentBlock json_Marshal fmt_Sprint
            (ai.NewMediaPart "image/png" ("data:image/png;base64," +:+ base64Image))
          = Some (types.ContentBlockMemberImage
                    {| types.ImageBlock_Format := types.ImageFormatPng;
                       types.ImageBlock_Source := decoded |})) as ->.
  { unfold contentBlock, ai.IsText, ai.IsMedia, ai.NewMediaPart.
    cbn [ai.Part_Kind]. rewrite bool_decide_eq_false_2 by done.
    rewrite bool_decide_eq_true_2 by done.
    unfold mediaBlock. cbn [ai.Part_Text ai.Part_ContentType].
    change ("data:image/png;base64," +:+ base64Image)
      with ("data:" +:+ "image/png" +:+ ";base64," +:+ base64Image).
    rewrite parseDataURL_base64.
    - by rewrite Hdecode.
    - repeat constructor; cbn; intros Hin;
        repeat (apply elem_of_cons in Hin as [Hin|Hin]; [discriminate|]);
        by apply elem_of_nil in Hin.
    - by eapply base64_DecodeString_no_comma. }
  reflexivity.
Qed.

Lemma generated_image_returns_as_png_block_witness :
  convertMessages (fun _ => Err (errorString "unsupported")) (fun _ => "")
    [ai.ModelResponse_Message (imageResponse "QUJD")]
  = ([ {| types.Message_Role := "assistant";
          types.Message_Content :=
            [types.ContentBlockMemberImage
               {| types.ImageBlock_Format := types.ImageFormatPng;
                  types.ImageBlock_Source := [Byte.x41; Byte.x42; Byte.x43] |}] |} ],
     []).
Proof.
  apply (generated_image_returns_as_png_block _ _ "QUJD"
           [Byte.x41; Byte.x42; Byte.x43]).
  vm_compute; reflexivity.
Defined.

(** X26: documents without text are skipped, not embedded.  When [embed]
    returns a response, it holds one embedding for each document whose
    text parts put together are not empty, so fewer embeddings than
    documents when some are empty; and when every document is empty the
    response is empty for any model name, with no call to the service. *)
Theorem embed_skips_empty_documents
    (client_InvokeModel :
       bedrockruntime.InvokeModelInput -> result bedrockruntime.InvokeModelOutput)
    (json_Marshal : Value -> result (list Byte.byte))
    (json_Unmarshal_Embedding : list Byte.byte -> result (list spec_float))
    (json_Unmarshal_Embeddings : list Byte.byte -> result (list (list spec_float)))
    (modelName : string) (req : ai.EmbedRequest) :
  (∀ response,
      embed client_InvokeModel json_Marshal json_Unmarshal_Embedding
        json_Unmarshal_Embeddings modelName req = Ok response ->
      length (ai.EmbedResponse_Embeddings response)
      = length (filter (fun doc => documentText doc ≠ "")
                  (ai.EmbedRequest_Input req)))
  ∧ (Forall (fun doc => documentText doc = "") (ai.EmbedRequest_Input req) ->
     embed client_InvokeModel json_Marshal json_Unmarshal_Embedding
       json_Unmarshal_Embeddings modelName req
     = Ok {| ai.EmbedResponse_Embeddings := [] |}).
Proof.
  unfold embed. split.
  - assert (∀ docs embeddings result,
              embedDocuments client_InvokeModel json_Marshal
                json_Unmarshal_Embedding json_Unmarshal_Embeddings modelName
                docs embeddings = Ok result ->
              length result
              = (length embeddings
                 + length (filter (fun doc => documentText doc ≠ "") docs))%nat)
      as Hcount.
    { induction docs as [|doc docs IH]; intros embeddings result Hrun.
      - injection Hrun as <-. cbn. lia.
      - cbn [embedDocuments] in Hrun. rewrite filter_cons.
        destruct (String.eqb_spec (documentText doc) "") as [Hempty|Htext].
        + rewrite decide_False by (by intros []). by apply IH.
        + rewrite decide_True by done.
          destruct (if Contains modelName "titan" then _ else _)
            as [[embedding|]|]; try discriminate.
          apply IH in Hrun. rewrite length_app in Hrun. cbn in *. lia. }
    intros response Hrun.
    destruct (embedDocuments _ _ _ _ _ _ _) as [embeddings|] eqn:Hdocs;
      [|discriminate].
    injection Hrun as <-. cbn [ai.EmbedResponse_Embeddings].
    by rewrite (Hcount _ _ _ Hdocs).
  - intros Hempty.
    assert (embedDocuments client_InvokeModel json_Marshal
              json_Unmarshal_Embedding json_Unmarshal_Embeddings modelName
              (ai.EmbedRequest_Input req) [] = Ok []) as ->; [|done].
    induction Hempty as [|doc docs Hdoc _ IH]; [done|].
    cbn [embedDocuments]. by rewrite Hdoc.
Qed.

Lemma embed_skips_empty_documents_witness :
  let client : bedrockruntime.InvokeModelInput ->
               result bedrockruntime.InvokeModelOutput :=
    fun _ => Ok {| bedrockruntime.InvokeModelOutput_Body := [] |} in
  let marshal : Value -> result (list Byte.byte) := fun _ => Ok [] in
  let embedding : list Byte.byte -> result (list spec_float) :=
    fun _ => Ok [float64_of_Z 1] in
  let embeddings : list Byte.byte -> result (list (list spec_float)) :=
    fun _ => Ok [] in
  let text := {| ai.Document_Content := [ai.NewTextPart "hello"] |} in
  let empty := {| ai.Document_Content := [ai.NewMediaPart "image/png" "AAAA"] |} in
  length [ {| ai.Embedding_Embedding := [float64_of_Z 1] |} ]
  = length (filter (fun doc => documentText doc ≠ "") [empty; text; empty])
  ∧ embed client marshal embedding embeddings "some-other-model"
      {| ai.EmbedRequest_Input := [empty; empty] |}
    = Ok {| ai.EmbedResponse_Embeddings := [] |}.
Proof.
  intros client marshal embedding embeddings text empty. split.
  - apply (proj1 (embed_skips_empty_documents client marshal embedding embeddings
                    "amazon.titan-embed-text-v1"
                    {| ai.EmbedRequest_Input := [empty; text; empty] |})
             {| ai.EmbedResponse_Embeddings :=
                  [ {| ai.Embedding_Embedding := [float64_of_Z 1] |} ] |}).
    vm_compute; reflexivity.
  - apply (proj2 (embed_skips_empty_documents client marshal embedding embeddings
                    "some-other-model"
                    {| ai.EmbedRequest_Input := [empty; empty] |})).
    repeat constructor.
Defined.

(** ** Capability inference *)

(** X27: a model that is given media support is given tool support too.
    For a model of a type other than "image", when the inferred
    capabilities say the model reads media, they also say it takes tools,
    several turns and a system role: every name in the table of
    multimodal models is in the table of tool models. *)
Theorem media_models_support_tools
    (modelName modelType : string) (supports : ModelSupports) :
  modelType ≠ "image" ->
  ModelInfo_Supports (inferModelCapabilities modelName modelType) = Some supports ->
  ModelSupports_Media supports = true ->
  ModelSupports_Tools supports = true
  ∧ ModelSupports_Multiturn supports = true
  ∧ ModelSupports_SystemRole supports = true.
Proof.
  intros Htype Hsupports Hmedia. unfold inferModelCapabilities in Hsupports.
  destruct (String.eqb_spec modelType "image"); [done|].
  destruct (String.eqb modelType "embedding");
    cbn in Hsupports; injection Hsupports as <-; [discriminate|].
  cbn in Hmedia |- *. split; [|done].
  unfold slices_Contains, multimodalModels in Hmedia. cbn [existsb] in Hmedia.
  repeat (apply orb_prop in Hmedia as [Hmedia|Hmedia];
          [apply String.eqb_eq in Hmedia; subst modelName; reflexivity|]).
  discriminate.
Qed.

Lemma media_models_support_tools_witness :
  ModelSupports_Tools
    {| ModelSupports_Multiturn := true; ModelSupports_Tools := true;
       ModelSupports_SystemRole := true; ModelSupports_Media := true |} = true
  ∧ ModelSupports_Multiturn
      {| ModelSupports_Multiturn := true; ModelSupports_Tools := true;
         ModelSupports_SystemRole := true; ModelSupports_Media := true |} = true
  ∧ ModelSupports_SystemRole
      {| ModelSupports_Multiturn := true; ModelSupports_Tools := true;
         ModelSupports_SystemRole := true; ModelSupports_Media := true |} = true.
Proof.
  apply (media_models_support_tools "amazon.nova-pro-v1:0" "chat");
    [discriminate | vm_compute; reflexivity | reflexivity].
Defined.

(** ** Life cycle *)

Section LifeCycleProperties.
Variables aws_Config BedrockClient Genkit Model Embedder : Type.
Variable config_LoadDefaultConfig : string -> Z -> result aws_Config.
Variable bedrockruntime_NewFromConfig : aws_Config -> BedrockClient.
Variable genkit_DefineModel :
  Genkit -> string -> string -> ModelInfo -> modelFunc -> string + Model * Genkit.
Variable genkit_DefineEmbedder :
  Genkit -> string -> string -> string + Embedder * Genkit.
Implicit Types (b : Bedrock aws_Config BedrockClient) (g : Genkit).

Lemma Lock_free b :
  Bedrock_mu _ _ b = false -> Lock _ _ b = Some (with_mu _ _ b true).
Proof. unfold Lock. by intros ->. Qed.

Lemma Lock_held b : Bedrock_mu _ _ b = true -> Lock _ _ b = None.
Proof. unfold Lock. by intros ->. Qed.

Lemma Unlock_Lock b :
  Bedrock_mu _ _ b = false -> Unlock _ _ (with_mu _ _ b true) = b.
Proof. destruct b. cbn. by intros ->. Qed.



(** After [Init], a definition leaves the plugin as it was, mutex free. *)
Lemma DefineModel_keeps_plugin g b model info o b' g' :
  Bedrock_mu _ _ b = false ->
  DefineModel _ _ _ _ genkit_DefineModel g b model info = (o, (b', g')) ->
  b' = b ∧ o ≠ Blocks.
Proof.
  intros Hmu. unfold DefineModel. rewrite Lock_free by done.
  rewrite Unlock_Lock by done.
  destruct (negb _); [by intros [= <- <- <-]|].
  destruct (genkit_DefineModel _ _ _ _ _) as [msg|[m g1]];
    by intros [= <- <- <-].
Qed.

Lemma DefineEmbedder_keeps_plugin g b modelName o b' g' :
  Bedrock_mu _ _ b = false ->
  DefineEmbedder _ _ _ _ genkit_DefineEmbedder g b modelName = (o, (b', g')) ->
  b' = b ∧ o ≠ Blocks.
Proof.
  intros Hmu. unfold DefineEmbedder. rewrite Lock_free by done.
  rewrite Unlock_Lock by done.
  destruct (negb _); [by intros [= <- <- <-]|].
  destruct (genkit_DefineEmbedder _ _ _) as [msg|[e g1]];
    by intros [= <- <- <-].
Qed.

Lemma defineModels_keeps_plugin entries models g b o b' g' :
  Bedrock_mu _ _ b = false ->
  defineModels _ _ _ _ genkit_DefineModel entries models g b = (o, (b', g')) ->
  b' = b ∧ o ≠ Blocks.
Proof.
  intros Hmu. revert models g.
  induction entries as [|[key model] entries IH]; intros models g;
    [by intros [= <- <- <-]|].
  cbn [defineModels].
  destruct (DefineModel _ _ _ _ _ g b model None) as [o1 [b1 g1]] eqn:Hdefine.
  apply DefineModel_keeps_plugin in Hdefine as [-> Hnot]; [|done].
  destruct o1 as [m|msg|]; [apply IH|by intros [= <- <- <-]|done].
Qed.

Lemma defineEmbedders_keeps_plugin entries embedders g b o b' g' :
  Bedrock_mu _ _ b = false ->
  defineEmbedders _ _ _ _ genkit_DefineEmbedder entries embedders g b
  = (o, (b', g')) ->
  b' = b ∧ o ≠ Blocks.
Proof.
  intros Hmu. revert embedders g.
  induction entries as [|[key modelName] entries IH]; intros embedders g;
    [by intros [= <- <- <-]|].
  cbn [defineEmbedders].
  destruct (DefineEmbedder _ _ _ _ _ g b modelName) as [o1 [b1 g1]] eqn:Hdefine.
  apply DefineEmbedder_keeps_plugin in Hdefine as [-> Hnot]; [|done].
  destruct o1 as [e|msg|]; [apply IH|by intros [= <- <- <-]|done].
Qed.

Lemma Init_again g b :
  Bedrock_mu _ _ b = false -> Bedrock_initted _ _ b = true ->
  Init _ _ _ _ _ config_LoadDefaultConfig bedrockruntime_NewFromConfig
    genkit_DefineModel genkit_DefineEmbedder g b
  = (Returns (Some (errorString "bedrock: Init already called")), (b, g)).
Proof.
  intros Hmu Hinit. unfold Init. rewrite Lock_free by done.
  cbn [with_mu Bedrock_initted]. rewrite Hinit. by rewrite Unlock_Lock.
Qed.

Lemma Init_success g b b' g' :
  Init _ _ _ _ _ config_LoadDefaultConfig bedrockruntime_NewFromConfig
    genkit_DefineModel genkit_DefineEmbedder g b
  = (Returns None, (b', g')) ->
  ∃ client,
    Bedrock_mu _ _ b = false
    ∧ b' = Unlock _ _ (setClient _ _ (setDefaults _ _ (with_mu _ _ b true)) client).
Proof.
  unfold Init, Lock. destruct (Bedrock_mu _ _ b) eqn:Hmu; [discriminate|].
  destruct (Bedrock_initted _ _ (with_mu _ _ b true)); [discriminate|].
  destruct (match Bedrock_AWSConfig _ _ _ with Some _ => _ | None => _ end)
    as [awsConfig|err]; [|discriminate].
  set (b1 := Unlock _ _ (setClient _ _ _ _)).
  assert (Bedrock_mu _ _ b1 = false) as Hfree by reflexivity.
  intros Hrun. exists (bedrockruntime_NewFromConfig awsConfig).
  split; [done|].
  destruct (Bedrock_DefineCommonModels _ _ b1).
  - destruct (DefineCommonModels _ _ _ _ _ g b1) as [o1 [b2 g2]] eqn:Hmodels.
    apply defineModels_keeps_plugin in Hmodels as [-> _]; [|done].
    destruct o1 as [models|msg|]; try discriminate.
    destruct (Bedrock_DefineCommonEmbedders _ _ b1).
    + destruct (DefineCommonEmbedders _ _ _ _ _ g2 b1) as [o2 [b3 g3]]
        eqn:Hembedders.
      apply defineEmbedders_keeps_plugin in Hembedders as [-> _]; [|done].
      destruct o2; try discriminate; injection Hrun as Hb _; by rewrite <- Hb.
    + injection Hrun as Hb _; by rewrite <- Hb.
  - destruct (Bedrock_DefineCommonEmbedders _ _ b1).
    + destruct (DefineCommonEmbedders _ _ _ _ _ g b1) as [o2 [b3 g3]]
        eqn:Hembedders.
      apply defineEmbedders_keeps_plugin in Hembedders as [-> _]; [|done].
      destruct o2; try discriminate; injection Hrun as Hb _; by rewrite <- Hb.
    + injection Hrun as Hb _; by rewrite <- Hb.
Qed.
End LifeCycleProperties.

(** X28: [Init] happens once, and sets the defaults.  After an [Init]
    that returned no error the plugin is initialised, holds a client, has
    its mutex free, and has the region "us-east-1", three retries and a
    timeout of thirty seconds wherever the caller left the zero value;
    every later [Init] returns the error "bedrock: Init already called"
    and changes nothing. *)
Theorem init_happens_once
    (aws_Config BedrockClient Genkit Model Embedder : Type)
    (config_LoadDefaultConfig : string -> Z -> result aws_Config)
    (bedrockruntime_NewFromConfig : aws_Config -> BedrockClient)
    (genkit_DefineModel :
       Genkit -> string -> string -> ModelInfo -> modelFunc ->
       string + Model * Genkit)
    (genkit_DefineEmbedder :
       Genkit -> string -> string -> string + Embedder * Genkit)
    (g g' : Genkit) (b b' : Bedrock aws_Config BedrockClient) :
  Init _ _ _ _ _ config_LoadDefaultConfig bedrockruntime_NewFromConfig
    genkit_DefineModel genkit_DefineEmbedder g b
  = (Returns None, (b', g')) ->
  Bedrock_initted _ _ b' = true
  ∧ Bedrock_mu _ _ b' = false
  ∧ is_Some (Bedrock_client _ _ b')
  ∧ Bedrock_Region _ _ b'
    = (if String.eqb (Bedrock_Region _ _ b) "" then "us-east-1"
       else Bedrock_Region _ _ b)
  ∧ Bedrock_MaxRetries _ _ b'
    = (if Bedrock_MaxRetries _ _ b =? 0 then 3 else Bedrock_MaxRetries _ _ b)
  ∧ Bedrock_RequestTimeout _ _ b'
    = (if Bedrock_RequestTimeout _ _ b =? 0 then 30000000000
       else Bedrock_RequestTimeout _ _ b)
  ∧ ∀ g2,
      Init _ _ _ _ _ config_LoadDefaultConfig bedrockruntime_NewFromConfig
        genkit_DefineModel genkit_DefineEmbedder g2 b'
      = (Returns (Some (errorString "bedrock: Init already called")), (b', g2)).
Proof.
  intros Hrun. apply Init_success in Hrun as (client & Hmu & ->).
  split; [reflexivity|]. split; [reflexivity|]. split; [by eexists|].
  split; [reflexivity|]. split; [reflexivity|]. split; [reflexivity|].
  intros g2. by apply Init_again.
Qed.

Lemma init_happens_once_witness :
  let b : Bedrock unit unit :=
    {| Bedrock_Region := ""; Bedrock_MaxRetries := 0; Bedrock_RequestTimeout := 0;
       Bedrock_AWSConfig := None; Bedrock_DefineCommonModels := true;
       Bedrock_DefineCommonEmbedders := true; Bedrock_mu := false;
       Bedrock_client := None; Bedrock_initted := false |} in
  let b' : Bedrock unit unit :=
    {| Bedrock_Region := "us-east-1"; Bedrock_MaxRetries := 3;
       Bedrock_RequestTimeout := 30000000000;
       Bedrock_AWSConfig := None; Bedrock_DefineCommonModels := true;
       Bedrock_DefineCommonEmbedders := true; Bedrock_mu := false;
       Bedrock_client := Some tt; Bedrock_initted := true |} in
  let load : string -> Z -> result unit := fun _ _ => Ok tt in
  let defineModel : nat -> string -> string -> ModelInfo -> modelFunc ->
                    string + unit * nat :=
    fun g _ _ _ _ => inr (tt, S g) in
  let defineEmbedder : nat -> string -> string -> string + unit * nat :=
    fun g _ _ => inr (tt, S g) in
  Init _ _ _ _ _ load (fun _ => tt) defineModel defineEmbedder 0%nat b
  = (Returns None, (b', 22%nat))
  ∧ Init _ _ _ _ _ load (fun _ => tt) defineModel defineEmbedder 22%nat b'
    = (Returns (Some (errorString "bedrock: Init already called")), (b', 22%nat)).
Proof.
  intros b b' load defineModel defineEmbedder.
  assert (Init _ _ _ _ _ load (fun _ => tt) defineModel defineEmbedder 0%nat b
          = (Returns None, (b', 22%nat))) as Hrun by (vm_compute; reflexivity).
  split; [exact Hrun|].
  apply (init_happens_once _ _ _ _ _ load (fun _ => tt) defineModel defineEmbedder
           0%nat 22%nat b b' Hrun).
Defined.

(** X29: a failed configuration load leaves the mutex held.  When [Init]
    on a fresh plugin without a custom AWS configuration cannot load the
    default one, it returns that error wrapped as "bedrock: failed to
    load AWS config: ..." without releasing the mutex: the plugin stays
    uninitialised, and every later [Init], [DefineModel] and
    [DefineEmbedder] on it waits for the mutex and does not return. *)
Theorem failed_config_load_leaves_the_mutex_held
    (aws_Config BedrockClient Genkit Model Embedder : Type)
    (config_LoadDefaultConfig : string -> Z -> result aws_Config)
    (bedrockruntime_NewFromConfig : aws_Config -> BedrockClient)
    (genkit_DefineModel :
       Genkit -> string -> string -> ModelInfo -> modelFunc ->
       string + Model * Genkit)
    (genkit_DefineEmbedder :
       Genkit -> string -> string -> string + Embedder * Genkit)
    (g : Genkit) (b : Bedrock aws_Config BedrockClient) (err : error) :
  Bedrock_mu _ _ b = false ->
  Bedrock_initted _ _ b = false ->
  Bedrock_AWSConfig _ _ b = None ->
  config_LoadDefaultConfig
    (if String.eqb (Bedrock_Region _ _ b) "" then "us-east-1"
     else Bedrock_Region _ _ b)
    (if Bedrock_MaxRetries _ _ b =? 0 then 3 else Bedrock_MaxRetries _ _ b)
  = Err err ->
  ∃ b',
    Init _ _ _ _ _ config_LoadDefaultConfig bedrockruntime_NewFromConfig
      genkit_DefineModel genkit_DefineEmbedder g b
    = (Returns (Some (wrapError "bedrock: failed to load AWS config: " err)),
       (b', g))
    ∧ Bedrock_mu _ _ b' = true
    ∧ Bedrock_initted _ _ b' = false
    ∧ (∀ g2,
         Init _ _ _ _ _ config_LoadDefaultConfig bedrockruntime_NewFromConfig
           genkit_DefineModel genkit_DefineEmbedder g2 b'
         = (Blocks, (b', g2)))
    ∧ (∀ g2 model info,
         DefineModel _ _ _ _ genkit_DefineModel g2 b' model info
         = (Blocks, (b', g2)))
    ∧ (∀ g2 modelName,
         DefineEmbedder _ _ _ _ genkit_DefineEmbedder g2 b' modelName
         = (Blocks, (b', g2))).
Proof.
  intros Hmu Hinit Hconfig Hload.
  exists (setDefaults _ _ (with_mu _ _ b true)).
  split; [|split; [reflexivity|split; [exact Hinit|split; [|split]]]].
  - unfold Init. rewrite Lock_free by done.
    cbn [with_mu Bedrock_initted]. rewrite Hinit.
    cbn [setDefaults Bedrock_AWSConfig Bedrock_Region Bedrock_MaxRetries with_mu].
    by rewrite Hconfig, Hload.
  - intros g2. unfold Init. by rewrite Lock_held.
  - intros g2 model info. unfold DefineModel. by rewrite Lock_held.
  - intros g2 modelName. unfold DefineEmbedder. by rewrite Lock_held.
Qed.

Lemma failed_config_load_leaves_the_mutex_held_witness :
  let b : Bedrock unit unit :=
    {| Bedrock_Region := ""; Bedrock_MaxRetries := 0; Bedrock_RequestTimeout := 0;
       Bedrock_AWSConfig := None; Bedrock_DefineCommonModels := false;
       Bedrock_DefineCommonEmbedders := false; Bedrock_mu := false;
       Bedrock_client := None; Bedrock_initted := false |} in
  let load : string -> Z -> result unit :=
    fun _ _ => Err (errorString "no credentials") in
  let defineModel : nat -> string -> string -> ModelInfo -> modelFunc ->
                    string + unit * nat :=
    fun g _ _ _ _ => inr (tt, S g) in
  let defineEmbedder : nat -> string -> string -> string + unit * nat :=
    fun g _ _ => inr (tt, S g) in
  ∃ b',
    Init _ _ _ _ _ load (fun _ => tt) defineModel defineEmbedder 0%nat b
    = (Returns (Some (wrapError "bedrock: failed to load AWS config: "
                        (errorString "no credentials"))), (b', 0%nat))
    ∧ Bedrock_mu _ _ b' = true
    ∧ Bedrock_initted _ _ b' = false
    ∧ (∀ g2,
         Init _ _ _ _ _ load (fun _ => tt) defineModel defineEmbedder g2 b'
         = (Blocks, (b', g2)))
    ∧ (∀ g2 model info,
         DefineModel _ _ _ _ defineModel g2 b' model info = (Blocks, (b', g2)))
    ∧ (∀ g2 modelName,
         DefineEmbedder _ _ _ _ defineEmbedder g2 b' modelName = (Blocks, (b', g2))).
Proof.
  intros b load defineModel defineEmbedder.
  apply (failed_config_load_leaves_the_mutex_held _ _ _ _ _ load (fun _ => tt)
           defineModel defineEmbedder 0%nat b (errorString "no credentials"));
    reflexivity.
Defined.


